(** * ESP32-ModbusDevice: a shallow embedding of the transaction core

    The development follows the C++ sources of the library:
    - [ModbusTypes.h]          error codes and protocol limits,
    - [ModbusRegistry.cpp]     the address -> device map,
    - [ModbusDevice.cpp]       constructor, bus mutex, synchronous
                               transactions, callbacks, lifecycle phase,
    - [QueuedModbusDevice.cpp] the queued (asynchronous) variant.

    Integers of the program are [Z] with the wrap-around written out where
    the program can reach it.  A FreeRTOS handle is modelled by whether it
    is non-null ([true]) or [nullptr] ([false]); what another task does to a
    lock, and what the transport answers, is an explicit argument of the
    operation that asks (an oracle), so that every theorem quantifies over
    all of these answers.  Log macros have no state and are left out. *)

From Stdlib Require Import ZArith Bool List Lia Ascii.
From stdpp Require Import base option list gmap.

Local Open Scope Z_scope.

(** ** ModbusTypes.h *)

Definition MODBUS_MAX_READ_SIZE : Z := 252.
Definition MODBUS_MAX_SLAVE_ADDRESS : Z := 247.
Definition MODBUS_MAX_REGISTER_COUNT : Z := 125.
Definition MODBUS_MAX_WRITE_REGISTER_COUNT : Z := 123.
Definition MODBUS_MAX_COIL_COUNT : Z := 2000.
Definition MODBUS_MAX_WRITE_COIL_COUNT : Z := 1968.
Definition MODBUS_MUTEX_TIMEOUT_MS : Z := 2000.
Definition MODBUS_LEGACY_MUTEX_TIMEOUT_MS : Z := 1000.

Inductive ModbusError : Type :=
| SUCCESS
| ILLEGAL_FUNCTION
| ILLEGAL_DATA_ADDRESS
| ILLEGAL_DATA_VALUE
| SLAVE_DEVICE_FAILURE
| TIMEOUT
| CRC_ERROR
| INVALID_RESPONSE
| QUEUE_FULL
| NOT_INITIALIZED
| COMMUNICATION_ERROR
| INVALID_PARAMETER
| RESOURCE_ERROR
| NULL_POINTER
| NOT_SUPPORTED
| MUTEX_ERROR
| INVALID_DATA_LENGTH
| DEVICE_NOT_FOUND
| RESOURCE_CREATION_FAILED
| INVALID_ADDRESS.

#[global] Instance ModbusError_eq_dec : EqDecision ModbusError.
Proof. solve_decision. Defined.

(** [common::Result<T, ModbusError>]: a value or one error code. *)
Inductive ModbusResult (T : Type) : Type :=
| Ok (value : T)
| Err (error : ModbusError).
Arguments Ok {T} value.
Arguments Err {T} error.

Definition isOk {T} (r : ModbusResult T) : bool :=
  match r with Ok _ => true | Err _ => false end.

(** The error codes of the transport library that [mapError] names; any
    other code is [OTHER_ERROR] and takes the [default] branch. *)
Inductive esp32Modbus_Error : Type :=
| E_SUCCESS
| E_TIMEOUT
| E_CRC_ERROR
| E_INVALID_RESPONSE
| E_QUEUE_FULL
| E_MEMORY_ALLOCATION_FAILED
| E_ILLEGAL_FUNCTION
| E_ILLEGAL_DATA_ADDRESS
| E_ILLEGAL_DATA_VALUE
| E_SERVER_DEVICE_FAILURE
| E_INVALID_SLAVE
| E_INVALID_FUNCTION
| E_INVALID_PARAMETER
| E_COMM_ERROR
| OTHER_ERROR (code : Z).

Inductive esp_err_t : Type := ESP_OK | ESP_FAIL | ESP_ERR_NO_MEM | ESP_ERR_TIMEOUT.

#[global] Instance esp_err_t_eq_dec : EqDecision esp_err_t.
Proof. solve_decision. Defined.

(** Request priority of the transport; it is passed through unchanged. *)
Inductive ModbusPriority : Type := EMERGENCY | SENSOR | RELAY | STATUS.

(** Function codes, as the [switch] of [sendRequestWithPriority] spells
    them; [handleData] names the four write codes through the transport's
    enumeration. *)
Definition FC_READ_COILS : Z := 0x01.
Definition FC_READ_DISCRETE_INPUTS : Z := 0x02.
Definition FC_READ_HOLD_REGISTER : Z := 0x03.
Definition FC_READ_INPUT_REGISTER : Z := 0x04.
Definition FC_WRITE_COIL : Z := 0x05.
Definition FC_WRITE_HOLD_REGISTER : Z := 0x06.
Definition FC_WRITE_MULT_COILS : Z := 0x0F.
Definition FC_WRITE_MULT_REGISTERS : Z := 0x10.

(** [uint32_t] counters: [x++] wraps at 2^32. *)
Definition incr32 (x : Z) : Z := (x + 1) mod 2 ^ 32.

(** ** ModbusDevice.h: the device object *)

Inductive InitPhase : Type := UNINITIALIZED | CONFIGURING | READY | ERROR.

#[global] Instance InitPhase_eq_dec : EqDecision InitPhase.
Proof. solve_decision. Defined.

(** [struct SyncContext].  [semaphore] is [None] for a null handle and
    [Some tok] for a binary semaphore, [tok] telling whether it has been
    given and not yet taken. *)
Record SyncContext : Type := mkSyncContext {
  responseData : list Z;
  responseReceived : bool;
  errorOccurred : bool;
  error : ModbusError;
  semaphore : option bool
}.

(** [QueuedModbusDevice::ModbusPacket].  [pdata] holds the bytes that were
    copied into the packet's buffer; the rest of the 252-byte array is not
    written by the code and is not modelled. *)
Record ModbusPacket : Type := mkModbusPacket {
  functionCode : Z;
  paddress : Z;
  pdata : list Z;
  plength : Z;
  timestamp : Z
}.

(** A FreeRTOS queue created by [xQueueCreate(queueDepth, ...)]. *)
Record Queue : Type := mkQueue {
  capacity : nat;
  items : list ModbusPacket
}.

(** The members [QueuedModbusDevice] adds to the base class; [queue] is
    [None] for a null handle. *)
Record QueuedPart : Type := mkQueuedPart {
  queue : option Queue;
  asyncMode : bool
}.

(** The dynamic type of the object decides which override of the virtual
    [handleModbusResponse] runs. *)
Inductive DeviceClass : Type :=
| BaseDevice
| SimpleDevice
| QueuedDevice (q : QueuedPart).

(** A non-owning [ModbusDevice*]; [nullptr] is [0]. *)
Definition nullptr : Z := 0.

Record Device : Type := mkDevice {
  serverAddress : Z;
  initPhase : InitPhase;
  lastError : ModbusError;
  totalRequests : Z;
  successfulRequests : Z;
  timeouts : Z;
  crcErrors : Z;
  syncContext : option SyncContext;
  syncMutex : bool;
  eventGroup : option nat;
  readyBit : Z;
  errorBit : Z;
  dclass : DeviceClass
}.

Definition set_serverAddress (v : Z) (d : Device) : Device :=
  mkDevice v (initPhase d) (lastError d) (totalRequests d) (successfulRequests d)
    (timeouts d) (crcErrors d) (syncContext d) (syncMutex d) (eventGroup d)
    (readyBit d) (errorBit d) (dclass d).

Definition set_initPhase (v : InitPhase) (d : Device) : Device :=
  mkDevice (serverAddress d) v (lastError d) (totalRequests d) (successfulRequests d)
    (timeouts d) (crcErrors d) (syncContext d) (syncMutex d) (eventGroup d)
    (readyBit d) (errorBit d) (dclass d).

Definition set_lastError (v : ModbusError) (d : Device) : Device :=
  mkDevice (serverAddress d) (initPhase d) v (totalRequests d) (successfulRequests d)
    (timeouts d) (crcErrors d) (syncContext d) (syncMutex d) (eventGroup d)
    (readyBit d) (errorBit d) (dclass d).

Definition set_totalRequests (v : Z) (d : Device) : Device :=
  mkDevice (serverAddress d) (initPhase d) (lastError d) v (successfulRequests d)
    (timeouts d) (crcErrors d) (syncContext d) (syncMutex d) (eventGroup d)
    (readyBit d) (errorBit d) (dclass d).

Definition set_successfulRequests (v : Z) (d : Device) : Device :=
  mkDevice (serverAddress d) (initPhase d) (lastError d) (totalRequests d) v
    (timeouts d) (crcErrors d) (syncContext d) (syncMutex d) (eventGroup d)
    (readyBit d) (errorBit d) (dclass d).

Definition set_timeouts (v : Z) (d : Device) : Device :=
  mkDevice (serverAddress d) (initPhase d) (lastError d) (totalRequests d)
    (successfulRequests d) v (crcErrors d) (syncContext d) (syncMutex d)
    (eventGroup d) (readyBit d) (errorBit d) (dclass d).

Definition set_crcErrors (v : Z) (d : Device) : Device :=
  mkDevice (serverAddress d) (initPhase d) (lastError d) (totalRequests d)
    (successfulRequests d) (timeouts d) v (syncContext d) (syncMutex d)
    (eventGroup d) (readyBit d) (errorBit d) (dclass d).

Definition set_syncContext (v : option SyncContext) (d : Device) : Device :=
  mkDevice (serverAddress d) (initPhase d) (lastError d) (totalRequests d)
    (successfulRequests d) (timeouts d) (crcErrors d) v (syncMutex d)
    (eventGroup d) (readyBit d) (errorBit d) (dclass d).

Definition set_syncMutex (v : bool) (d : Device) : Device :=
  mkDevice (serverAddress d) (initPhase d) (lastError d) (totalRequests d)
    (successfulRequests d) (timeouts d) (crcErrors d) (syncContext d) v
    (eventGroup d) (readyBit d) (errorBit d) (dclass d).

Definition set_eventGroup (g : option nat) (ready err : Z) (d : Device) : Device :=
  mkDevice (serverAddress d) (initPhase d) (lastError d) (totalRequests d)
    (successfulRequests d) (timeouts d) (crcErrors d) (syncContext d) (syncMutex d)
    g ready err (dclass d).

Definition set_dclass (v : DeviceClass) (d : Device) : Device :=
  mkDevice (serverAddress d) (initPhase d) (lastError d) (totalRequests d)
    (successfulRequests d) (timeouts d) (crcErrors d) (syncContext d) (syncMutex d)
    (eventGroup d) (readyBit d) (errorBit d) v.

(** [ModbusDevice::ModbusDevice(uint8_t serverAddr)], with the member
    initialisers of the header. *)
Definition ModbusDevice_new (cls : DeviceClass) (serverAddr : Z) : Device :=
  let d := mkDevice serverAddr UNINITIALIZED SUCCESS 0 0 0 0 None false None 0 0 cls in
  if (serverAddr =? 0) || (serverAddr >? MODBUS_MAX_SLAVE_ADDRESS)
  then set_serverAddress 1 d
  else d.

(** [getServerAddress()] *)
Definition getServerAddress (d : Device) : Z := serverAddress d.

(** [getInitPhase()], [getLastError()] *)
Definition getInitPhase (d : Device) : InitPhase := initPhase d.
Definition getLastError (d : Device) : ModbusError := lastError d.

(** ** ModbusRegistry.cpp *)

Module ModbusRegistry.

(** [deviceMap_] is the [std::unordered_map<uint8_t, ModbusDevice*>];
    [mutex_], [busMutex_] and [modbusRTU_] tell whether the handle or
    pointer is non-null. *)
Record t : Type := mk {
  deviceMap_ : gmap Z Z;
  mutex_ : bool;
  busMutex_ : bool;
  modbusRTU_ : bool
}.

Definition set_deviceMap (m : gmap Z Z) (r : t) : t :=
  mk m (mutex_ r) (busMutex_ r) (modbusRTU_ r).

Definition set_modbusRTU (v : bool) (r : t) : t :=
  mk (deviceMap_ r) (mutex_ r) (busMutex_ r) v.

(** The constructor: both mutexes are created, and the first is deleted
    again when the second cannot be. *)
Definition new (create_mutex create_bus : bool) : t :=
  if negb create_mutex then mk ∅ false false false
  else if negb create_bus then mk ∅ false false false
  else mk ∅ true true false.

(** In every operation [lock] is the answer of the map mutex: whether
    [MutexGuard::hasLock()] holds, or [xSemaphoreTake(mutex_, 10 ms)]
    returned [pdTRUE]. *)
Definition setModbusRTU (lock : bool) (rtu : bool) (r : t) : t :=
  if negb (mutex_ r) then r
  else if lock then set_modbusRTU rtu r else r.

Definition getModbusRTU (r : t) : bool := modbusRTU_ r.

Definition registerDevice (lock : bool) (address device : Z) (r : t) : bool * t :=
  if (device =? nullptr) || (address =? 0) || (address >? 247) then (false, r)
  else if negb (mutex_ r) then (false, r)
  else if negb lock then (false, r)
  else (true, set_deviceMap (<[address := device]> (deviceMap_ r)) r).

Definition unregisterDevice (lock : bool) (address : Z) (r : t) : bool * t :=
  if negb (mutex_ r) then (false, r)
  else if negb lock then (false, r)
  else match deviceMap_ r !! address with
       | Some _ => (true, set_deviceMap (delete address (deviceMap_ r)) r)
       | None => (false, r)
       end.

Definition getDevice (lock : bool) (address : Z) (r : t) : Z :=
  if negb (mutex_ r) then nullptr
  else if lock then
    match deviceMap_ r !! address with
    | Some device => device
    | None => nullptr
    end
  else nullptr.

Definition hasDevice (lock : bool) (address : Z) (r : t) : bool :=
  negb (getDevice lock address r =? nullptr).

Definition getDeviceCount (lock : bool) (r : t) : Z :=
  if negb (mutex_ r) then 0
  else if lock then Z.of_nat (size (deviceMap_ r)) else 0.

Definition getBusMutex (r : t) : bool := busMutex_ r.

(** What the public operations keep true of the map: every key is a
    Modbus slave address and no entry is a null pointer. *)
Definition wf (r : t) : Prop :=
  ∀ a d, deviceMap_ r !! a = Some d → 1 <= a <= 247 ∧ d ≠ nullptr.

(** The registries a program can build: the constructor, then any public
    operation, on any [uint8_t] address, with any answer of the map
    mutex. *)
Inductive reachable : t → Prop :=
| reach_new c1 c2 : reachable (new c1 c2)
| reach_rtu lock rtu r : reachable r → reachable (setModbusRTU lock rtu r)
| reach_register lock a d r :
    0 <= a <= 255 → reachable r → reachable (snd (registerDevice lock a d r))
| reach_unregister lock a r :
    0 <= a <= 255 → reachable r → reachable (snd (unregisterDevice lock a r)).

(** Without the map mutex nothing can be registered. *)
Definition guarded (r : t) : Prop := mutex_ r = false → deviceMap_ r = ∅.

(** A registry with the transport set and device [1000] at address 1. *)
Definition registry_one : t :=
  snd (registerDevice true 1 1000 (setModbusRTU true true (new true true))).

End ModbusRegistry.

(** ** The world of one device

    A transaction of a device reads and writes the device object itself
    ([this]), the registry singleton, the static [modbusMutex] pointer of
    the class, and the event groups of FreeRTOS.  [busHeld] tells whether
    the calling task holds the bus mutex; [trace] lists, oldest first, what
    reached the bus mutex and the transport.  [queueFullCalls] counts the
    calls of the [onQueueFull] hook. *)

Inductive Request : Type :=
| ReqReadHoldingRegisters (server addr count : Z) (priority : ModbusPriority)
| ReqReadInputRegisters (server addr count : Z) (priority : ModbusPriority)
| ReqReadCoils (server addr count : Z) (priority : ModbusPriority)
| ReqReadDiscreteInputs (server addr count : Z) (priority : ModbusPriority)
| ReqWriteSingleHoldingRegister (server addr value : Z) (priority : ModbusPriority)
| ReqWriteMultHoldingRegisters (server addr count : Z) (byteData : list Z)
    (priority : ModbusPriority)
| ReqWriteSingleCoil (server addr : Z) (value : bool) (priority : ModbusPriority)
| ReqWriteMultipleCoils (server addr count : Z) (boolData : list bool)
    (priority : ModbusPriority).

(** [EvDispatch] and [EvWait] also record the two result flags of the sync
    context as they stand when the transport is called and when the task
    blocks on the semaphore ([None] when there is no sync context).  They
    are observations only: no operation reads the trace. *)
Inductive Event : Type :=
| EvBusTake (ok : bool)
| EvBusGive
| EvDispatch (req : Request) (accepted : bool) (flags : option (bool * bool))
| EvWait (flags : option (bool * bool)).

Record World : Type := mkWorld {
  this : Device;
  this_ptr : Z;
  registry : ModbusRegistry.t;
  modbusMutex : bool;
  busHeld : bool;
  eventGroups : gmap nat Z;
  queueFullCalls : nat;
  trace : list Event
}.

Definition set_this (d : Device) (w : World) : World :=
  mkWorld d (this_ptr w) (registry w) (modbusMutex w) (busHeld w) (eventGroups w)
    (queueFullCalls w) (trace w).

Definition set_registry (r : ModbusRegistry.t) (w : World) : World :=
  mkWorld (this w) (this_ptr w) r (modbusMutex w) (busHeld w) (eventGroups w)
    (queueFullCalls w) (trace w).

Definition set_modbusMutex (v : bool) (w : World) : World :=
  mkWorld (this w) (this_ptr w) (registry w) v (busHeld w) (eventGroups w)
    (queueFullCalls w) (trace w).

Definition set_busHeld (v : bool) (w : World) : World :=
  mkWorld (this w) (this_ptr w) (registry w) (modbusMutex w) v (eventGroups w)
    (queueFullCalls w) (trace w).

Definition set_eventGroups (g : gmap nat Z) (w : World) : World :=
  mkWorld (this w) (this_ptr w) (registry w) (modbusMutex w) (busHeld w) g
    (queueFullCalls w) (trace w).

Definition set_queueFullCalls (n : nat) (w : World) : World :=
  mkWorld (this w) (this_ptr w) (registry w) (modbusMutex w) (busHeld w)
    (eventGroups w) n (trace w).

Definition log_event (ev : Event) (w : World) : World :=
  mkWorld (this w) (this_ptr w) (registry w) (modbusMutex w) (busHeld w)
    (eventGroups w) (queueFullCalls w) (trace w ++ [ev]).

(** *** A state monad over the world *)

Definition M (A : Type) : Type := World → A * World.

Definition ret {A} (a : A) : M A := λ w, (a, w).

Definition bind {A B} (m : M A) (k : A → M B) : M B :=
  λ w, k (fst (m w)) (snd (m w)).

Definition gets {A} (f : World → A) : M A := λ w, (f w, w).

Definition modify (f : World → World) : M unit := λ w, (tt, f w).

Definition modify_this (f : Device → Device) : M unit :=
  modify (λ w, set_this (f (this w)) w).

Definition when (b : bool) (m : M unit) : M unit := if b then m else ret tt.

Notation "x <-- m ;; k" := (bind m (λ x, k))
  (at level 100, m at next level, right associativity).
Notation "m ;;; k" := (bind m (λ _, k))
  (at level 100, right associativity).

(** *** What the environment answers during one call *)

(** A call of one of the two global callbacks by the transport.  [data] is
    [None] for a null pointer.  [map_lock] answers the registry's map mutex
    in [getDevice], [sync_lock] the try-lock of the device's [syncMutex],
    [tick] is [xTaskGetTickCount()]. *)
Inductive Callback : Type :=
| OnData (server fc startingAddress : Z) (data : option (list Z)) (length : Z)
    (map_lock sync_lock : bool) (tick : Z)
| OnError (server : Z) (err : esp32Modbus_Error) (map_lock sync_lock : bool).

Record Env : Type := mkEnv {
  bus_free : bool;            (* another task lets go of the bus in time *)
  sem_create_ok : bool;       (* xSemaphoreCreateBinary() is non-null *)
  mutex_create_ok : bool;     (* xSemaphoreCreateMutex() is non-null *)
  alloc_ok : bool;            (* new (std::nothrow) is non-null *)
  rtu_accepts : bool;         (* the transport's ...WithPriority returns true *)
  cb_before_wait : list Callback;  (* delivered after the dispatch returned *)
  cb_during_wait : list Callback   (* delivered while blocked on the semaphore *)
}.

(** ** ModbusDevice.cpp *)

(** [data[i]] on a buffer. *)
Definition at_ (l : list Z) (i : Z) : Z := nth (Z.to_nat i) l 0.

Definition sync_flags (w : World) : option (bool * bool) :=
  (λ c, (responseReceived c, errorOccurred c)) <$> syncContext (this w).

(** [ModbusDevice::registerDevice()] and [unregisterDevice()] *)
Definition registerDevice (lock : bool) : M ModbusError :=
  λ w, let r := ModbusRegistry.registerDevice lock (serverAddress (this w))
                  (this_ptr w) (registry w) in
       (if fst r then SUCCESS else MUTEX_ERROR, set_registry (snd r) w).

Definition unregisterDevice (lock : bool) : M ModbusError :=
  λ w, let r := ModbusRegistry.unregisterDevice lock (serverAddress (this w))
                  (registry w) in
       (SUCCESS, set_registry (snd r) w).

(** [setServerAddress(uint8_t address)]; [lock_unreg] and [lock_reg] answer
    the map mutex in the two registry calls. *)
Definition setServerAddress (lock_unreg lock_reg : bool) (address : Z)
  : M (ModbusResult unit) :=
  if (address =? 0) || (address >? MODBUS_MAX_SLAVE_ADDRESS)
  then ret (Err INVALID_ADDRESS)
  else
    unregisterDevice lock_unreg ;;;
    modify_this (set_serverAddress address) ;;;
    phase <-- gets (λ w, initPhase (this w)) ;;
    if bool_decide (phase = READY) then
      err <-- registerDevice lock_reg ;;
      if negb (bool_decide (err = SUCCESS)) then ret (Err err) else ret (Ok tt)
    else ret (Ok tt).

(** [ensureSyncReady()] *)
Definition ensureSyncReady (e : Env) : M unit :=
  ctx <-- gets (λ w, syncContext (this w)) ;;
  ready <-- match ctx with
            | Some _ => ret true
            | None =>
                if sem_create_ok e
                then modify_this (set_syncContext
                       (Some (mkSyncContext [] false false SUCCESS (Some false)))) ;;;
                     ret true
                else modify_this (set_syncContext None) ;;; ret false
            end ;;
  if negb ready then ret tt
  else
    mtx <-- gets (λ w, syncMutex (this w)) ;;
    if negb mtx then modify_this (set_syncMutex (mutex_create_ok e)) else ret tt.

(** [xSemaphoreTake(modbusMutex, ...)]: the mutex is not recursive, so the
    take fails when the calling task holds it already, and otherwise
    succeeds when the other tasks release it within the timeout. *)
Definition xSemaphoreTake_bus (e : Env) : M bool :=
  λ w, let ok := bus_free e && negb (busHeld w) in
       (ok, log_event (EvBusTake ok) (if ok then set_busHeld true w else w)).

Definition xSemaphoreGive_bus : M unit :=
  modify (λ w, log_event EvBusGive (set_busHeld false w)).

(** [acquireBusMutex(timeoutMs)] *)
Definition acquireBusMutex (e : Env) (timeoutMs : Z) : M bool :=
  cached <-- gets modbusMutex ;;
  have <-- (if negb cached
            then h <-- gets (λ w, ModbusRegistry.getBusMutex (registry w)) ;;
                 modify (set_modbusMutex h) ;;; ret h
            else ret true) ;;
  if negb have then ret false
  else
    taken <-- xSemaphoreTake_bus e ;;
    if negb taken then ret false else ret true.

(** [releaseBusMutex()] *)
Definition releaseBusMutex : M unit :=
  h <-- gets modbusMutex ;;
  if h then xSemaphoreGive_bus else ret tt.

(** A call of one of the transport's [...WithPriority] members. *)
Definition rtu_call (e : Env) (req : Request) : M esp_err_t :=
  λ w, (if rtu_accepts e then ESP_OK else ESP_FAIL,
        log_event (EvDispatch req (rtu_accepts e) (sync_flags w)) w).

(** The byte and bool buffers [sendRequestWithPriority] builds for function
    codes 0x10 and 0x0F. *)
Definition fc10_byteData (data : list Z) (count : Z) : list Z :=
  flat_map (λ i, [Z.land (Z.shiftr (at_ data i) 8) 0xFF; Z.land (at_ data i) 0xFF])
    (seqZ 0 count).

Definition fc0F_boolData (data : list Z) (count : Z) : list bool :=
  map (λ i, negb (Z.land (at_ data (i / 16)) (Z.shiftl 1 (i mod 16)) =? 0))
    (seqZ 0 count).

(** [sendRequestWithPriority(fc, addr, count, priority, data)]; [data] is
    [None] for the default null pointer. *)
Definition sendRequestWithPriority (e : Env) (fc addr count : Z)
    (priority : ModbusPriority) (data : option (list Z)) : M esp_err_t :=
  rtu <-- gets (λ w, ModbusRegistry.getModbusRTU (registry w)) ;;
  if negb rtu then ret ESP_FAIL
  else
    server <-- gets (λ w, serverAddress (this w)) ;;
    result <--
      (if fc =? 0x03 then rtu_call e (ReqReadHoldingRegisters server addr count priority)
       else if fc =? 0x04 then rtu_call e (ReqReadInputRegisters server addr count priority)
       else if fc =? 0x01 then rtu_call e (ReqReadCoils server addr count priority)
       else if fc =? 0x02 then rtu_call e (ReqReadDiscreteInputs server addr count priority)
       else if fc =? 0x06 then
         match data with
         | Some d => rtu_call e (ReqWriteSingleHoldingRegister server addr (at_ d 0) priority)
         | None => ret ESP_FAIL
         end
       else if fc =? 0x10 then
         match data with
         | Some d =>
             if 0 <? count then
               if negb (alloc_ok e) then ret ESP_ERR_NO_MEM
               else rtu_call e (ReqWriteMultHoldingRegisters server addr count
                                  (fc10_byteData d count) priority)
             else ret ESP_FAIL
         | None => ret ESP_FAIL
         end
       else if fc =? 0x05 then
         match data with
         | Some d => rtu_call e (ReqWriteSingleCoil server addr (negb (at_ d 0 =? 0)) priority)
         | None => ret ESP_FAIL
         end
       else if fc =? 0x0F then
         match data with
         | Some d =>
             if 0 <? count then
               if negb (alloc_ok e) then ret ESP_ERR_NO_MEM
               else rtu_call e (ReqWriteMultipleCoils server addr count
                                  (fc0F_boolData d count) priority)
             else ret ESP_FAIL
         | None => ret ESP_FAIL
         end
       else ret ESP_FAIL) ;;
    modify_this (λ d, set_totalRequests (incr32 (totalRequests d)) d) ;;;
    when (negb (bool_decide (result = ESP_OK)))
         (modify_this (set_lastError COMMUNICATION_ERROR)) ;;;
    ret result.

(** [sendRequestInternal]: the default [RELAY] priority. *)
Definition sendRequestInternal (e : Env) (fc addr count : Z) (data : option (list Z))
  : M esp_err_t :=
  sendRequestWithPriority e fc addr count RELAY data.

(** The legacy [sendRequest], which holds the mutex for the send only. *)
Definition sendRequest (e : Env) (fc addr count : Z) (data : option (list Z))
  : M esp_err_t :=
  got <-- acquireBusMutex e MODBUS_LEGACY_MUTEX_TIMEOUT_MS ;;
  if negb got then ret ESP_ERR_TIMEOUT
  else
    result <-- sendRequestInternal e fc addr count data ;;
    releaseBusMutex ;;;
    ret result.

(** [mapError] *)
Definition mapError (err : esp32Modbus_Error) : ModbusError :=
  match err with
  | E_SUCCESS => SUCCESS
  | E_TIMEOUT => TIMEOUT
  | E_CRC_ERROR => CRC_ERROR
  | E_INVALID_RESPONSE => INVALID_RESPONSE
  | E_QUEUE_FULL => QUEUE_FULL
  | E_MEMORY_ALLOCATION_FAILED => RESOURCE_ERROR
  | E_ILLEGAL_FUNCTION => ILLEGAL_FUNCTION
  | E_ILLEGAL_DATA_ADDRESS => ILLEGAL_DATA_ADDRESS
  | E_ILLEGAL_DATA_VALUE => ILLEGAL_DATA_VALUE
  | E_SERVER_DEVICE_FAILURE => SLAVE_DEVICE_FAILURE
  | E_INVALID_SLAVE | E_INVALID_FUNCTION | E_INVALID_PARAMETER => INVALID_PARAMETER
  | E_COMM_ERROR | OTHER_ERROR _ => COMMUNICATION_ERROR
  end.

(** *** The callback path *)

(** [xSemaphoreGive] on the binary semaphore of the sync context. *)
Definition xSemaphoreGive_sync (s : option bool) : option bool :=
  match s with Some _ => Some true | None => None end.

(** [xQueueSend(queue, &packet, 0)]: the packet is copied to the back of
    the queue unless the queue is full. *)
Definition xQueueSend (q : Queue) (p : ModbusPacket) : bool * Queue :=
  if (length (items q) <? capacity q)%nat
  then (true, mkQueue (capacity q) (items q ++ [p]))
  else (false, q).

(** The hook [onQueueFull()] only logs; its calls are counted. *)
Definition onQueueFull : M unit :=
  modify (λ w, set_queueFullCalls (S (queueFullCalls w)) w).

(** [ModbusDevice::handleModbusResponse]: a debug log, no state. *)
Definition ModbusDevice_handleModbusResponse
    (functionCode address : Z) (data : option (list Z)) (length : Z) : M unit :=
  ret tt.

(** [QueuedModbusDevice::handleModbusResponse] *)
Definition QueuedModbusDevice_handleModbusResponse (qp : QueuedPart)
    (functionCode address : Z) (data : option (list Z)) (length : Z) (tick : Z)
  : M unit :=
  phase <-- gets (λ w, getInitPhase (this w)) ;;
  match queue qp with
  | Some q =>
      if bool_decide (phase = CONFIGURING) || negb (asyncMode qp)
      then ModbusDevice_handleModbusResponse functionCode address data length
      else
        let plen := if length >? MODBUS_MAX_READ_SIZE then MODBUS_MAX_READ_SIZE
                    else length in
        let copied := match data with
                      | Some buf => if 0 <? plen then take (Z.to_nat plen) buf else []
                      | None => []
                      end in
        let packet := mkModbusPacket functionCode address copied plen tick in
        let sent := xQueueSend q packet in
        modify_this (set_dclass (QueuedDevice (mkQueuedPart (Some (snd sent))
                                                 (asyncMode qp)))) ;;;
        if negb (fst sent) then onQueueFull else ret tt
  | None => ModbusDevice_handleModbusResponse functionCode address data length
  end.

(** The virtual call [handleModbusResponse(...)]. *)
Definition handleModbusResponse
    (functionCode address : Z) (data : option (list Z)) (length : Z) (tick : Z)
  : M unit :=
  cls <-- gets (λ w, dclass (this w)) ;;
  match cls with
  | BaseDevice => ModbusDevice_handleModbusResponse functionCode address data length
  | SimpleDevice => ret tt
  | QueuedDevice qp =>
      QueuedModbusDevice_handleModbusResponse qp functionCode address data length tick
  end.

(** [ModbusDevice::handleModbusError] *)
Definition handleModbusError (err : ModbusError) : M unit :=
  modify_this (set_lastError err).

(** [ModbusDevice::handleData]; [sync_lock] answers
    [xSemaphoreTake(syncMutex, 0)]. *)
Definition handleData (server fc startingAddress : Z) (data : option (list Z))
    (length : Z) (sync_lock : bool) (tick : Z) : M unit :=
  d <-- gets this ;;
  match syncContext d with
  | Some ctx =>
      if syncMutex d && sync_lock then
        match data with
        | Some buf =>
            if negb (responseReceived ctx) then
              let isWriteOp := (fc =? FC_WRITE_HOLD_REGISTER)
                               || (fc =? FC_WRITE_MULT_REGISTERS)
                               || (fc =? FC_WRITE_COIL)
                               || (fc =? FC_WRITE_MULT_COILS) in
              if (0 <? length) || isWriteOp then
                modify_this (set_syncContext (Some (mkSyncContext
                  (if 0 <? length then take (Z.to_nat length) buf else [])
                  true (errorOccurred ctx) (error ctx)
                  (xSemaphoreGive_sync (semaphore ctx)))))
              else ret tt
            else ret tt
        | None => ret tt
        end
      else ret tt
  | None => ret tt
  end ;;;
  handleModbusResponse (fc mod 256) startingAddress data length tick.

(** [ModbusDevice::handleError] *)
Definition handleError (err : esp32Modbus_Error) (sync_lock : bool) : M unit :=
  let modbusError := mapError err in
  d <-- gets this ;;
  match syncContext d with
  | Some ctx =>
      if syncMutex d && sync_lock then
        if negb (responseReceived ctx) && negb (errorOccurred ctx) then
          modify_this (set_syncContext (Some (mkSyncContext
            (responseData ctx) (responseReceived ctx) true modbusError
            (xSemaphoreGive_sync (semaphore ctx)))))
        else ret tt
      else ret tt
  | None => ret tt
  end ;;;
  when (bool_decide (modbusError = CRC_ERROR))
       (modify_this (λ d, set_crcErrors (incr32 (crcErrors d)) d)) ;;;
  handleModbusError modbusError.

(** The global callbacks [mainHandleData] and [handleError]: the registry
    routes by address.  A pointer to another object leads to that object's
    handlers, which do not touch this world. *)
Definition mainHandleData (server fc startingAddress : Z) (data : option (list Z))
    (length : Z) (map_lock sync_lock : bool) (tick : Z) : M unit :=
  device <-- gets (λ w, ModbusRegistry.getDevice map_lock server (registry w)) ;;
  self <-- gets this_ptr ;;
  if device =? nullptr then ret tt
  else if device =? self
       then handleData server fc startingAddress data length sync_lock tick
       else ret tt.

Definition global_handleError (server : Z) (err : esp32Modbus_Error)
    (map_lock sync_lock : bool) : M unit :=
  device <-- gets (λ w, ModbusRegistry.getDevice map_lock server (registry w)) ;;
  self <-- gets this_ptr ;;
  if device =? nullptr then ret tt
  else if device =? self then handleError err sync_lock else ret tt.

Definition deliver (c : Callback) : M unit :=
  match c with
  | OnData server fc startingAddress data length map_lock sync_lock tick =>
      mainHandleData server fc startingAddress data length map_lock sync_lock tick
  | OnError server err map_lock sync_lock =>
      global_handleError server err map_lock sync_lock
  end.

(** The transport task runs and delivers the given callbacks in order. *)
Fixpoint transport_runs (cs : list Callback) : M unit :=
  match cs with
  | [] => ret tt
  | c :: rest => deliver c ;;; transport_runs rest
  end.

(** *** Waiting for the response *)

(** [xSemaphoreTake(syncContext->semaphore, timeout)]: the task blocks,
    the transport delivers [cb_during_wait], and the take succeeds when the
    semaphore has been given. *)
Definition xSemaphoreTake_sync (e : Env) : M bool :=
  modify (λ w, log_event (EvWait (sync_flags w)) w) ;;;
  transport_runs (cb_during_wait e) ;;;
  ctx <-- gets (λ w, syncContext (this w)) ;;
  match ctx with
  | Some c =>
      match semaphore c with
      | Some true =>
          modify_this (set_syncContext (Some (mkSyncContext (responseData c)
            (responseReceived c) (errorOccurred c) (error c) (Some false)))) ;;;
          ret true
      | _ => ret false
      end
  | None => ret false
  end.

(** [waitForResponse(timeout)] *)
Definition waitForResponse (e : Env) : M (ModbusResult (list Z)) :=
  ctx <-- gets (λ w, syncContext (this w)) ;;
  match ctx with
  | None => ret (Err NOT_INITIALIZED)
  | Some c =>
      match semaphore c with
      | None => ret (Err NOT_INITIALIZED)
      | Some _ =>
          modify_this (set_syncContext (Some (mkSyncContext [] false false
                                                (error c) (semaphore c)))) ;;;
          taken <-- xSemaphoreTake_sync e ;;
          now <-- gets (λ w, syncContext (this w)) ;;
          match (if taken then now else None) with
          | Some c' =>
              if errorOccurred c' then ret (Err (error c'))
              else if responseReceived c' then
                modify_this (λ d, set_successfulRequests
                                    (incr32 (successfulRequests d)) d) ;;;
                ret (Ok (responseData c'))
              else
                modify_this (λ d, set_timeouts (incr32 (timeouts d)) d) ;;;
                modify_this (set_lastError TIMEOUT) ;;;
                ret (Err TIMEOUT)
          | None =>
              modify_this (λ d, set_timeouts (incr32 (timeouts d)) d) ;;;
              modify_this (set_lastError TIMEOUT) ;;;
              ret (Err TIMEOUT)
          end
      end
  end.

(** *** Byte-to-value conversion *)

(** Conversion of an [int] to [uint16_t], as [push_back] on a
    [std::vector<uint16_t>] does. *)
Definition to_uint16 (x : Z) : Z := x mod 2 ^ 16.

(** The loop
    [for (size_t i = 0; i + 1 < data.size(); i += 2)
         values.push_back((uint16_t(data[i]) << 8) | data[i + 1]);]
    with one unit of fuel for each iteration. *)
Fixpoint registers_loop (fuel : nat) (i : Z) (data values : list Z) : list Z :=
  match fuel with
  | O => values
  | S fuel' =>
      if i + 1 <? Z.of_nat (length data)
      then registers_loop fuel' (i + 2) data
             (values ++ [to_uint16 (Z.lor (Z.shiftl (at_ data i) 8) (at_ data (i + 1)))])
      else values
  end.

Definition bytes_to_registers (data : list Z) : list Z :=
  registers_loop (length data) 0 data [].

(** The loop
    [for (uint16_t i = 0; i < count && i / 8 < data.size(); i++)
         values.push_back((data[i / 8] & (1 << (i % 8))) != 0);] *)
Fixpoint coils_loop (fuel : nat) (i count : Z) (data : list Z) (values : list bool)
  : list bool :=
  match fuel with
  | O => values
  | S fuel' =>
      if (i <? count) && (i / 8 <? Z.of_nat (length data))
      then coils_loop fuel' (i + 1) count data
             (values ++ [negb (Z.land (at_ data (i / 8)) (Z.shiftl 1 (i mod 8)) =? 0)])
      else values
  end.

Definition bytes_to_coils (count : Z) (data : list Z) : list bool :=
  coils_loop (Z.to_nat count) 0 count data [].

(** The packing loop of [writeMultipleCoils]:
    [packedData[i / 16] |= (1 << (i % 16))] for every set [values[i]]. *)
Fixpoint pack_loop (values : list bool) (i : nat) (packedData : list Z) : list Z :=
  match values with
  | [] => packedData
  | v :: rest =>
      pack_loop rest (S i)
        (if v
         then <[(i / 16)%nat :=
                 to_uint16 (Z.lor (nth (i / 16)%nat packedData 0)
                                  (Z.shiftl 1 (Z.of_nat (i mod 16))))]> packedData
         else packedData)
  end.

Definition pack_coils (values : list bool) : list Z :=
  pack_loop values 0%nat (replicate ((length values + 15) / 16)%nat 0).

(** *** The eight synchronous transactions

    Between the return of the dispatch and the call of [waitForResponse]
    the transport task may already run: [transport_runs (cb_before_wait e)]
    stands for that window. *)

Definition readHoldingRegistersWithPriority (e : Env) (address count : Z)
    (priority : ModbusPriority) : M (ModbusResult (list Z)) :=
  if (count =? 0) || (count >? MODBUS_MAX_REGISTER_COUNT)
  then ret (Err INVALID_PARAMETER)
  else
    got <-- acquireBusMutex e MODBUS_MUTEX_TIMEOUT_MS ;;
    if negb got then ret (Err MUTEX_ERROR)
    else
      ensureSyncReady e ;;;
      sent <-- sendRequestWithPriority e 0x03 address count priority None ;;
      if negb (bool_decide (sent = ESP_OK))
      then releaseBusMutex ;;; ret (Err COMMUNICATION_ERROR)
      else
        transport_runs (cb_before_wait e) ;;;
        result <-- waitForResponse e ;;
        releaseBusMutex ;;;
        match result with
        | Err err => ret (Err err)
        | Ok data => ret (Ok (bytes_to_registers data))
        end.

Definition readHoldingRegisters (e : Env) (address count : Z)
  : M (ModbusResult (list Z)) :=
  readHoldingRegistersWithPriority e address count RELAY.

Definition readInputRegistersWithPriority (e : Env) (address count : Z)
    (priority : ModbusPriority) : M (ModbusResult (list Z)) :=
  if (count =? 0) || (count >? MODBUS_MAX_REGISTER_COUNT)
  then ret (Err INVALID_PARAMETER)
  else
    got <-- acquireBusMutex e MODBUS_MUTEX_TIMEOUT_MS ;;
    if negb got then ret (Err MUTEX_ERROR)
    else
      ensureSyncReady e ;;;
      sent <-- sendRequestWithPriority e 0x04 address count priority None ;;
      if negb (bool_decide (sent = ESP_OK))
      then releaseBusMutex ;;; ret (Err COMMUNICATION_ERROR)
      else
        transport_runs (cb_before_wait e) ;;;
        result <-- waitForResponse e ;;
        releaseBusMutex ;;;
        match result with
        | Err err => ret (Err err)
        | Ok data => ret (Ok (bytes_to_registers data))
        end.

Definition readInputRegisters (e : Env) (address count : Z)
  : M (ModbusResult (list Z)) :=
  readInputRegistersWithPriority e address count RELAY.

Definition writeSingleRegisterWithPriority (e : Env) (address value : Z)
    (priority : ModbusPriority) : M (ModbusResult unit) :=
  got <-- acquireBusMutex e MODBUS_MUTEX_TIMEOUT_MS ;;
  if negb got then ret (Err MUTEX_ERROR)
  else
    ensureSyncReady e ;;;
    sent <-- sendRequestWithPriority e 0x06 address 1 priority (Some [value]) ;;
    if negb (bool_decide (sent = ESP_OK))
    then releaseBusMutex ;;; ret (Err COMMUNICATION_ERROR)
    else
      transport_runs (cb_before_wait e) ;;;
      result <-- waitForResponse e ;;
      releaseBusMutex ;;;
      match result with
      | Err err => ret (Err err)
      | Ok _ => ret (Ok tt)
      end.

Definition writeSingleRegister (e : Env) (address value : Z) : M (ModbusResult unit) :=
  writeSingleRegisterWithPriority e address value RELAY.

Definition writeMultipleRegisters (e : Env) (address : Z) (values : list Z)
  : M (ModbusResult unit) :=
  if bool_decide (values = []) || (Z.of_nat (length values) >? MODBUS_MAX_WRITE_REGISTER_COUNT)
  then ret (Err INVALID_PARAMETER)
  else
    got <-- acquireBusMutex e MODBUS_MUTEX_TIMEOUT_MS ;;
    if negb got then ret (Err MUTEX_ERROR)
    else
      ensureSyncReady e ;;;
      sent <-- sendRequestInternal e 0x10 address
                 (to_uint16 (Z.of_nat (length values))) (Some values) ;;
      if negb (bool_decide (sent = ESP_OK))
      then releaseBusMutex ;;; ret (Err COMMUNICATION_ERROR)
      else
        transport_runs (cb_before_wait e) ;;;
        result <-- waitForResponse e ;;
        releaseBusMutex ;;;
        match result with
        | Err err => ret (Err err)
        | Ok _ => ret (Ok tt)
        end.

Definition readCoils (e : Env) (address count : Z) : M (ModbusResult (list bool)) :=
  if (count =? 0) || (count >? MODBUS_MAX_COIL_COUNT)
  then ret (Err INVALID_PARAMETER)
  else
    got <-- acquireBusMutex e MODBUS_MUTEX_TIMEOUT_MS ;;
    if negb got then ret (Err MUTEX_ERROR)
    else
      ensureSyncReady e ;;;
      sent <-- sendRequestInternal e 0x01 address count None ;;
      if negb (bool_decide (sent = ESP_OK))
      then releaseBusMutex ;;; ret (Err COMMUNICATION_ERROR)
      else
        transport_runs (cb_before_wait e) ;;;
        result <-- waitForResponse e ;;
        releaseBusMutex ;;;
        match result with
        | Err err => ret (Err err)
        | Ok data => ret (Ok (bytes_to_coils count data))
        end.

Definition readDiscreteInputs (e : Env) (address count : Z)
  : M (ModbusResult (list bool)) :=
  if (count =? 0) || (count >? MODBUS_MAX_COIL_COUNT)
  then ret (Err INVALID_PARAMETER)
  else
    got <-- acquireBusMutex e MODBUS_MUTEX_TIMEOUT_MS ;;
    if negb got then ret (Err MUTEX_ERROR)
    else
      ensureSyncReady e ;;;
      sent <-- sendRequestInternal e 0x02 address count None ;;
      if negb (bool_decide (sent = ESP_OK))
      then releaseBusMutex ;;; ret (Err COMMUNICATION_ERROR)
      else
        transport_runs (cb_before_wait e) ;;;
        result <-- waitForResponse e ;;
        releaseBusMutex ;;;
        match result with
        | Err err => ret (Err err)
        | Ok data => ret (Ok (bytes_to_coils count data))
        end.

Definition writeSingleCoilWithPriority (e : Env) (address : Z) (value : bool)
    (priority : ModbusPriority) : M (ModbusResult unit) :=
  got <-- acquireBusMutex e MODBUS_MUTEX_TIMEOUT_MS ;;
  if negb got then ret (Err MUTEX_ERROR)
  else
    ensureSyncReady e ;;;
    sent <-- sendRequestWithPriority e 0x05 address 1 priority
               (Some [if value then 1 else 0]) ;;
    if negb (bool_decide (sent = ESP_OK))
    then releaseBusMutex ;;; ret (Err COMMUNICATION_ERROR)
    else
      transport_runs (cb_before_wait e) ;;;
      result <-- waitForResponse e ;;
      releaseBusMutex ;;;
      match result with
      | Err err => ret (Err err)
      | Ok _ => ret (Ok tt)
      end.

Definition writeSingleCoil (e : Env) (address : Z) (value : bool)
  : M (ModbusResult unit) :=
  writeSingleCoilWithPriority e address value RELAY.

Definition writeMultipleCoils (e : Env) (address : Z) (values : list bool)
  : M (ModbusResult unit) :=
  if bool_decide (values = []) || (Z.of_nat (length values) >? MODBUS_MAX_WRITE_COIL_COUNT)
  then ret (Err INVALID_PARAMETER)
  else
    got <-- acquireBusMutex e MODBUS_MUTEX_TIMEOUT_MS ;;
    if negb got then ret (Err MUTEX_ERROR)
    else
      ensureSyncReady e ;;;
      sent <-- sendRequestInternal e 0x0F address
                 (to_uint16 (Z.of_nat (length values))) (Some (pack_coils values)) ;;
      if negb (bool_decide (sent = ESP_OK))
      then releaseBusMutex ;;; ret (Err COMMUNICATION_ERROR)
      else
        transport_runs (cb_before_wait e) ;;;
        result <-- waitForResponse e ;;
        releaseBusMutex ;;;
        match result with
        | Err err => ret (Err err)
        | Ok _ => ret (Ok tt)
        end.

(** The shape the eight transactions share once the parameters have been
    checked; [transaction_unfold] below shows that each of them is this
    function at its own function code, payload and conversion. *)
Definition transaction {A} (e : Env) (fc addr count : Z) (priority : ModbusPriority)
    (data : option (list Z)) (convert : list Z → A) : M (ModbusResult A) :=
  got <-- acquireBusMutex e MODBUS_MUTEX_TIMEOUT_MS ;;
  if negb got then ret (Err MUTEX_ERROR)
  else
    ensureSyncReady e ;;;
    sent <-- sendRequestWithPriority e fc addr count priority data ;;
    if negb (bool_decide (sent = ESP_OK))
    then releaseBusMutex ;;; ret (Err COMMUNICATION_ERROR)
    else
      transport_runs (cb_before_wait e) ;;;
      result <-- waitForResponse e ;;
      releaseBusMutex ;;;
      match result with
      | Err err => ret (Err err)
      | Ok data => ret (Ok (convert data))
      end.

(** *** Statistics *)

Record Statistics : Type := mkStatistics {
  st_totalRequests : Z;
  st_successfulRequests : Z;
  st_failedRequests : Z;
  st_timeouts : Z;
  st_crcErrors : Z
}.

Definition getStatistics (d : Device) : Statistics :=
  mkStatistics (totalRequests d) (successfulRequests d)
    ((totalRequests d - successfulRequests d) mod 2 ^ 32)
    (timeouts d) (crcErrors d).

Definition resetStatistics (d : Device) : Device :=
  set_crcErrors 0 (set_timeouts 0 (set_successfulRequests 0 (set_totalRequests 0 d))).

(** *** Lifecycle phase and event group *)

(** [xEventGroupSetBits(group, bits)]; a group starts with no bit set. *)
Definition xEventGroupSetBits (g : nat) (bits : Z) : M unit :=
  modify (λ w, set_eventGroups
                 (<[g := Z.lor (default 0 (eventGroups w !! g)) bits]> (eventGroups w)) w).

Definition getEventBits (g : nat) (w : World) : Z := default 0 (eventGroups w !! g).

(** [setInitPhase(phase)]: the exchange stores [phase] and yields the old
    phase. *)
Definition setInitPhase (phase : InitPhase) : M unit :=
  oldPhase <-- gets (λ w, initPhase (this w)) ;;
  modify_this (set_initPhase phase) ;;;
  if bool_decide (oldPhase = phase) then ret tt
  else
    d <-- gets this ;;
    match eventGroup d with
    | Some g =>
        if bool_decide (phase = READY) && negb (readyBit d =? 0)
        then xEventGroupSetBits g (readyBit d)
        else if bool_decide (phase = ERROR) && negb (errorBit d =? 0)
             then xEventGroupSetBits g (errorBit d)
             else ret tt
    | None => ret tt
    end.

(** [setEventGroup(group, ready, error)] *)
Definition setEventGroup (group : option nat) (ready err : Z) : M unit :=
  modify_this (set_eventGroup group ready err) ;;;
  d <-- gets this ;;
  let currentPhase := getInitPhase d in
  match eventGroup d with
  | Some g =>
      if bool_decide (currentPhase = READY) && negb (readyBit d =? 0)
      then xEventGroupSetBits g (readyBit d)
      else if bool_decide (currentPhase = ERROR) && negb (errorBit d =? 0)
           then xEventGroupSetBits g (errorBit d)
           else ret tt
  | None => ret tt
  end.

(** ** QueuedModbusDevice.cpp *)

(** [enableAsync(queueDepth)] of [src/QueuedModbusDevice.cpp]; [create_ok]
    tells whether [xQueueCreate] returned a queue. *)
Definition enableAsync (create_ok : bool) (queueDepth : nat) (qp : QueuedPart)
  : bool * QueuedPart :=
  match queue qp with
  | Some _ => (true, qp)
  | None =>
      if negb create_ok then (false, qp)
      else (true, mkQueuedPart (Some (mkQueue queueDepth [])) true)
  end.

(** [getQueueDepth()] *)
Definition getQueueDepth (qp : QueuedPart) : nat :=
  match queue qp with
  | Some q => length (items q)
  | None => 0%nat
  end.

Definition queued_part (d : Device) : option QueuedPart :=
  match dclass d with
  | QueuedDevice qp => Some qp
  | _ => None
  end.

Definition queued_items (w : World) : list ModbusPacket :=
  match queued_part (this w) with
  | Some qp => match queue qp with Some q => items q | None => [] end
  | None => []
  end.

(** ** The calls of the synchronous API *)

Inductive Call : Type :=
| ReadHoldingRegisters (address count : Z) (priority : ModbusPriority)
| ReadInputRegisters (address count : Z) (priority : ModbusPriority)
| ReadCoils (address count : Z)
| ReadDiscreteInputs (address count : Z)
| WriteSingleRegister (address value : Z) (priority : ModbusPriority)
| WriteMultipleRegisters (address : Z) (values : list Z)
| WriteSingleCoil (address : Z) (value : bool) (priority : ModbusPriority)
| WriteMultipleCoils (address : Z) (values : list bool).

Inductive Value : Type :=
| VRegisters (values : list Z)
| VCoils (values : list bool)
| VVoid.

Definition with_value {A} (f : A → Value) (m : M (ModbusResult A))
  : M (ModbusResult Value) :=
  r <-- m ;;
  ret (match r with Ok v => Ok (f v) | Err err => Err err end).

Definition run_call (e : Env) (c : Call) : M (ModbusResult Value) :=
  match c with
  | ReadHoldingRegisters address count priority =>
      with_value VRegisters (readHoldingRegistersWithPriority e address count priority)
  | ReadInputRegisters address count priority =>
      with_value VRegisters (readInputRegistersWithPriority e address count priority)
  | ReadCoils address count => with_value VCoils (readCoils e address count)
  | ReadDiscreteInputs address count =>
      with_value VCoils (readDiscreteInputs e address count)
  | WriteSingleRegister address value priority =>
      with_value (λ _, VVoid) (writeSingleRegisterWithPriority e address value priority)
  | WriteMultipleRegisters address values =>
      with_value (λ _, VVoid) (writeMultipleRegisters e address values)
  | WriteSingleCoil address value priority =>
      with_value (λ _, VVoid) (writeSingleCoilWithPriority e address value priority)
  | WriteMultipleCoils address values =>
      with_value (λ _, VVoid) (writeMultipleCoils e address values)
  end.

(** The per-function limits in the words of the specification: register
    reads fail for a count of 0 or above 125, register writes for an empty
    list or more than 123 values, coil reads for a count of 0 or above
    2000, coil writes for an empty list or more than 1968 values; single
    writes have no count. *)
Definition out_of_limits (c : Call) : bool :=
  match c with
  | ReadHoldingRegisters _ count _ | ReadInputRegisters _ count _ =>
      (count =? 0) || (count >? 125)
  | ReadCoils _ count | ReadDiscreteInputs _ count =>
      (count =? 0) || (count >? 2000)
  | WriteMultipleRegisters _ values =>
      bool_decide (values = []) || (Z.of_nat (length values) >? 123)
  | WriteMultipleCoils _ values =>
      bool_decide (values = []) || (Z.of_nat (length values) >? 1968)
  | WriteSingleRegister _ _ _ | WriteSingleCoil _ _ _ => false
  end.

(** The events a call appends to the trace. *)
Definition emitted (e : Env) (c : Call) (w : World) : list Event :=
  drop (length (trace w)) (trace (snd (run_call e c w))).

Definition is_take (ev : Event) : bool :=
  match ev with EvBusTake true => true | _ => false end.

Definition is_give (ev : Event) : bool :=
  match ev with EvBusGive => true | _ => false end.

Definition count_events (p : Event → bool) (evs : list Event) : nat :=
  length (filter (λ ev, p ev = true) evs).

(** ** Sample worlds and environments *)

(** A world around device object [1000], with the transport set and the
    object registered at address 1; the bus mutex is free. *)
Definition world_of (d : Device) : World :=
  mkWorld d 1000 ModbusRegistry.registry_one false false ∅ 0 [].

Definition fresh_world : World := world_of (ModbusDevice_new BaseDevice 1).

(** Everything succeeds and the transport delivers [cbs] during the wait. *)
Definition env_of (cbs : list Callback) : Env := mkEnv true true true true true [] cbs.

Definition payload_10_40 : list Z := [0x00; 0x0A; 0x00; 0x14; 0x00; 0x1E; 0x00; 0x28].

Definition response_10_40 : Callback :=
  OnData 1 0x03 0x0010 (Some payload_10_40) 8 true true 0.

(** A device in the given phase with event group 7 and the bits 1 (ready)
    and 0x10000 (error) registered. *)
Definition notify_world (phase : InitPhase) : World :=
  world_of (set_eventGroup (Some 7%nat) 1 0x10000
              (set_initPhase phase (ModbusDevice_new BaseDevice 1))).

(** The same device before any event group is attached. *)
Definition phase_world (phase : InitPhase) : World :=
  world_of (set_initPhase phase (ModbusDevice_new BaseDevice 1)).

(** The world after one successful read of four holding registers. *)
Definition world_after_read : World :=
  snd (readHoldingRegisters (env_of [response_10_40]) 0x0010 4 fresh_world).

(** A queued device in the given phase whose async mode was enabled with a
    queue of depth 10. *)
Definition queued_world_in (phase : InitPhase) : World :=
  world_of (set_initPhase phase
    (ModbusDevice_new
       (QueuedDevice (snd (enableAsync true 10 (mkQueuedPart None false)))) 1)).

Definition queued_world : World := queued_world_in READY.

(** The same device after a read that timed out: the sync context exists
    and its flags are clear. *)
Definition queued_world_idle : World :=
  snd (readHoldingRegisters (env_of []) 0x0010 4 queued_world).

(** A queued device in [READY] whose queue of depth 1 already holds one
    packet. *)
Definition queued_world_full : World :=
  snd (handleData 1 0x03 0x0010 (Some payload_10_40) 8 true 0
         (world_of (set_initPhase READY
            (ModbusDevice_new
               (QueuedDevice (snd (enableAsync true 1 (mkQueuedPart None false))))
               1)))).

(** A world whose registry could not create its mutexes. *)
Definition no_bus_world : World :=
  mkWorld (ModbusDevice_new BaseDevice 1) 1000 (ModbusRegistry.new true false)
    false false ∅ 0 [].

(** Two bytes of coil states delivered for a read of coils. *)
Definition response_coils : Callback :=
  OnData 1 0x01 0x0000 (Some [0x05; 0xFF]) 2 true true 0.

(** The packet [QueuedModbusDevice::handleModbusResponse] builds. *)
Definition packet_of (functionCode address : Z) (data : option (list Z))
    (length tick : Z) : ModbusPacket :=
  let plen := if length >? MODBUS_MAX_READ_SIZE then MODBUS_MAX_READ_SIZE else length in
  mkModbusPacket functionCode address
    (match data with
     | Some buf => if 0 <? plen then take (Z.to_nat plen) buf else []
     | None => []
     end) plen tick.

(** The same object seen as a plain [ModbusDevice]. *)
Definition as_base (w : World) : World :=
  set_this (set_dclass BaseDevice (this w)) w.

(** ** The conversions in the words of the specification *)

(** A byte value. *)
Definition is_byte (b : Z) : Prop := 0 <= b < 256.

(** Consecutive big-endian 2-byte pairs, in order. *)
Fixpoint big_endian_pairs (data : list Z) : list Z :=
  match data with
  | hi :: lo :: rest => (hi * 256 + lo) :: big_endian_pairs rest
  | _ => []
  end.

(** Bits LSB-first within each byte, up to the requested count. *)
Definition lsb_first_bits (count : Z) (data : list Z) : list bool :=
  map (λ i, Z.testbit (at_ data (i / 8)) (i mod 8))
    (seqZ 0 (Z.min count (8 * Z.of_nat (length data)))).

(** ** Vocabulary of the statements *)

Definition result_error {A} (r : ModbusResult A) : option ModbusError :=
  match r with Ok _ => None | Err err => Some err end.

(** Whether [acquireBusMutex] succeeds: the class has or finds a bus mutex
    handle, the calling task does not hold the mutex, and the other tasks
    release it in time. *)
Definition has_bus_handle (w : World) : bool :=
  modbusMutex w || ModbusRegistry.getBusMutex (registry w).

Definition acquirable (e : Env) (w : World) : bool :=
  has_bus_handle w && (bus_free e && negb (busHeld w)).

(** Whether a call gets as far as the [switch] of
    [sendRequestWithPriority]: its parameters are accepted, the bus mutex is
    acquired and a transport is set in the registry. *)
Definition reaches_dispatch (e : Env) (c : Call) (w : World) : bool :=
  negb (out_of_limits c) && acquirable e w
  && ModbusRegistry.getModbusRTU (registry w).

(** The result flags a sync context holds when the call starts, or those of
    the context [ensureSyncReady] creates. *)
Definition flags_left (e : Env) (w : World) : option (bool * bool) :=
  match syncContext (this w) with
  | Some c => Some (responseReceived c, errorOccurred c)
  | None => if sem_create_ok e then Some (false, false) else None
  end.

(** What no callback and no step between acquire and release changes. *)
Definition bus_view (w : World) : bool * bool * ModbusRegistry.t * Z :=
  (busHeld w, modbusMutex w, registry w, this_ptr w).

(** Whether the sync context exists, and whether it has its semaphore. *)
Definition ctx_ready (w : World) : option bool :=
  (λ c, match semaphore c with Some _ => true | None => false end)
    <$> syncContext (this w).

(** What the callbacks leave alone. *)
Definition callback_view (w : World)
  : (bool * bool * ModbusRegistry.t * Z) * list Event * Z * Z * Z * option bool :=
  (bus_view w, trace w, totalRequests (this w), successfulRequests (this w),
   timeouts (this w), ctx_ready w).

(** ** More of QueuedModbusDevice.cpp *)

(** [xQueueReceive(queue, &packet, 0)]: the packet at the front, if any. *)
Definition xQueueReceive (q : Queue) : option ModbusPacket * Queue :=
  match items q with
  | [] => (None, q)
  | p :: rest => (Some p, mkQueue (capacity q) rest)
  end.

(** The loop of [processQueue(maxPackets)], one unit of fuel for each
    iteration.  The pure virtual [onAsyncResponse] has no body in the
    library: its calls are recorded, in order, in [handled]. *)
Fixpoint processQueue_loop (fuel : nat) (maxPackets processed : Z) (q : Queue)
    (handled : list ModbusPacket) : Z * Queue * list ModbusPacket :=
  match fuel with
  | O => (processed, q, handled)
  | S fuel' =>
      match xQueueReceive q with
      | (Some p, q') =>
          if (0 <? maxPackets) && (processed + 1 >=? maxPackets)
          then (processed + 1, q', handled ++ [p])
          else processQueue_loop fuel' maxPackets (processed + 1) q' (handled ++ [p])
      | (None, _) => (processed, q, handled)
      end
  end.

(** [processQueue(maxPackets)] of [src/QueuedModbusDevice.cpp], in the
    version that deletes the queue in [disableAsync], so that a queue
    implies async mode: the number of packets processed, the device
    afterwards, and the packets handed to [onAsyncResponse]. *)
Definition processQueue (maxPackets : Z) (qp : QueuedPart)
  : Z * QueuedPart * list ModbusPacket :=
  match queue qp with
  | None => (0, qp, [])
  | Some q =>
      let r := processQueue_loop (S (length (items q))) maxPackets 0 q [] in
      (fst (fst r), mkQueuedPart (Some (snd (fst r))) (asyncMode qp), snd r)
  end.

(** [isAsyncEnabled()] *)
Definition isAsyncEnabled (qp : QueuedPart) : bool :=
  match queue qp with Some _ => true | None => false end.

(** [QueuedModbusInputDevice::getDataAge()]; [now] is
    [xTaskGetTickCount() * portTICK_PERIOD_MS] as a [uint32_t]. *)
Definition UINT32_MAX : Z := 2 ^ 32 - 1.

Definition QueuedModbusInputDevice_getDataAge (lastUpdate now : Z) : Z :=
  if lastUpdate =? 0 then UINT32_MAX
  else if now >=? lastUpdate then now - lastUpdate else 0.

(** ** SimpleModbusDevice.cpp *)

(** [struct ChannelInfo]; the two [float] bounds are read by [getRange]
    and [getFloat] only, which are not modelled, and are left out. *)
Record ChannelInfo : Type := mkChannelInfo {
  ch_name : list ascii;
  ch_units : list ascii;
  ch_address : Z
}.

(** The object: the [ModbusDevice] part lives in the world [base]. *)
Record SimpleModbusDevice : Type := mkSimple {
  base : World;
  channels : list ChannelInfo;
  values : list Z;
  lastUpdateTime : Z
}.

Definition set_base (w : World) (s : SimpleModbusDevice) : SimpleModbusDevice :=
  mkSimple w (channels s) (values s) (lastUpdateTime s).

Definition set_values (v : list Z) (s : SimpleModbusDevice) : SimpleModbusDevice :=
  mkSimple (base s) (channels s) v (lastUpdateTime s).

(** [std::vector::resize(n, 0)] *)
Definition resize (n : nat) (l : list Z) : list Z :=
  take n l ++ replicate (n - length l) 0.

(** [addChannel(name, units, address)] *)
Definition addChannel (name units : list ascii) (address : Z) (s : SimpleModbusDevice)
  : SimpleModbusDevice :=
  mkSimple (base s) (channels s ++ [mkChannelInfo name units address]) (values s)
    (lastUpdateTime s).

(** [initialize()]; [configure] is the pure virtual hook of the subclass,
    [lock] answers the registry's map mutex. *)
Definition initialize (lock : bool)
    (configure : SimpleModbusDevice → bool * SimpleModbusDevice)
    (s : SimpleModbusDevice) : bool * SimpleModbusDevice :=
  let w1 := snd (setInitPhase CONFIGURING (base s)) in
  let reg := registerDevice lock w1 in
  if negb (bool_decide (fst reg = SUCCESS))
  then (false, set_base (snd (setInitPhase ERROR (snd reg))) s)
  else
    let cfg := configure (set_base (snd reg) s) in
    if negb (fst cfg)
    then (false, set_base (snd (setInitPhase ERROR (base (snd cfg)))) (snd cfg))
    else
      let s4 := set_values (resize (length (channels (snd cfg))) (values (snd cfg)))
                  (snd cfg) in
      (true, set_base (snd (setInitPhase READY (base s4))) s4).

(** The default [readChannelData()]: one read of one holding register for
    each channel, stopping at the first failure; [envs i] answers the read
    of channel [i].  [values[i] = ...] is the list update, which the source
    leaves undefined when [values] is shorter than [channels]. *)
Fixpoint readChannelData_loop (envs : nat → Env) (i : nat) (chs : list ChannelInfo)
    (w : World) (vals : list Z) : bool * World * list Z :=
  match chs with
  | [] => (true, w, vals)
  | ch :: rest =>
      let r := readHoldingRegisters (envs i) (ch_address ch) 1 w in
      match fst r with
      | Err _ => (false, snd r, vals)
      | Ok regs =>
          readChannelData_loop envs (S i) rest (snd r)
            (match regs with
             | [] => vals
             | v :: _ => <[i := v]> vals
             end)
      end
  end.

Definition readChannelData (envs : nat → Env) (s : SimpleModbusDevice)
  : bool * SimpleModbusDevice :=
  let r := readChannelData_loop envs 0 (channels s) (base s) (values s) in
  (fst (fst r), mkSimple (snd (fst r)) (channels s) (snd r) (lastUpdateTime s)).

(** [update()]; [now] is [xTaskGetTickCount() * portTICK_PERIOD_MS] as a
    [uint32_t]. *)
Definition update (envs : nat → Env) (now : Z) (s : SimpleModbusDevice)
  : ModbusResult unit * SimpleModbusDevice :=
  if negb (bool_decide (getInitPhase (this (base s)) = READY))
  then (Err NOT_INITIALIZED, s)
  else
    let r := readChannelData envs s in
    if negb (fst r) then (Err (getLastError (this (base (snd r)))), snd r)
    else (Ok tt, mkSimple (base (snd r)) (channels (snd r)) (values (snd r)) now).

(** [hasValidData()], [getChannelCount()] *)
Definition hasValidData (s : SimpleModbusDevice) : bool :=
  (0 <? lastUpdateTime s) && bool_decide (getInitPhase (this (base s)) = READY).

Definition getChannelCount (s : SimpleModbusDevice) : nat := length (channels s).

(** [getDataAge()] *)
Definition getDataAge (currentTime : Z) (s : SimpleModbusDevice) : Z :=
  if lastUpdateTime s =? 0 then UINT32_MAX
  else if currentTime >=? lastUpdateTime s then currentTime - lastUpdateTime s
       else (UINT32_MAX - lastUpdateTime s) + currentTime.

(** [getRawValue(channel)] *)
Definition getRawValue (channel : nat) (s : SimpleModbusDevice) : ModbusResult Z :=
  if (length (values s) <=? channel)%nat then Err INVALID_PARAMETER
  else if negb (hasValidData s) then Err NOT_INITIALIZED
  else Ok (nth channel (values s) 0).

(** [getChannelName(channel)]: the empty string when out of range. *)
Definition getChannelName (channel : nat) (s : SimpleModbusDevice) : list ascii :=
  match channels s !! channel with
  | Some ch => ch_name ch
  | None => []
  end.

(** ** ModbusErrorTracker.cpp *)

Module ModbusErrorTracker.

Definition MODBUS_ERROR_TRACKER_MAX_DEVICES : nat := 8.

Inductive ErrorCategory : Type :=
| Cat_CRC_ERROR
| Cat_TIMEOUT
| Cat_INVALID_DATA
| Cat_DEVICE_ERROR
| Cat_OTHER.

#[global] Instance ErrorCategory_eq_dec : EqDecision ErrorCategory.
Proof. solve_decision. Defined.

(** [struct DeviceErrorStats] *)
Record DeviceErrorStats : Type := mkStats {
  address : Z;
  crcErrors : Z;
  timeouts : Z;
  invalidData : Z;
  deviceErrors : Z;
  otherErrors : Z;
  successCount : Z;
  lastErrorTime : Z;
  initialized : bool
}.

(** The static members: the array of eight slots and [numDevices]. *)
Record t : Type := mk {
  deviceStats : list DeviceErrorStats;
  numDevices : nat
}.

(** The state at program start: zero-initialised slots, none claimed. *)
Definition init : t :=
  mk (replicate MODBUS_ERROR_TRACKER_MAX_DEVICES (mkStats 0 0 0 0 0 0 0 0 false)) 0.

(** The search loop shared by [findStats] and [findOrCreateStats]:
    [for (i = 0; i < count; i++)
       if (deviceStats[i].initialized && deviceStats[i].address == address)
         return &deviceStats[i];]
    over the slots from index [i] on. *)
Fixpoint find_from (i count : nat) (a : Z) (slots : list DeviceErrorStats)
  : option nat :=
  match slots with
  | [] => None
  | s :: rest =>
      if (i <? count)%nat then
        if initialized s && (address s =? a) then Some i
        else find_from (S i) count a rest
      else None
  end.

(** [findStats(address)]: the index of the slot, [None] for [nullptr]. *)
Definition findStats (a : Z) (tr : t) : option nat :=
  find_from 0 (numDevices tr) a (deviceStats tr).

(** [findOrCreateStats(address)].  With one task the compare-exchange
    claims slot [numDevices] at its first success. *)
Definition findOrCreateStats (a : Z) (tr : t) : option nat * t :=
  match findStats a tr with
  | Some i => (Some i, tr)
  | None =>
      if (numDevices tr <? MODBUS_ERROR_TRACKER_MAX_DEVICES)%nat
      then (Some (numDevices tr),
            mk (<[numDevices tr := mkStats a 0 0 0 0 0 0 0 true]> (deviceStats tr))
               (S (numDevices tr)))
      else (None, tr)
  end.

(** [categorizeError(error)] *)
Definition categorizeError (err : ModbusError) : ErrorCategory :=
  match err with
  | CRC_ERROR => Cat_CRC_ERROR
  | TIMEOUT => Cat_TIMEOUT
  | INVALID_RESPONSE | INVALID_DATA_LENGTH | INVALID_PARAMETER => Cat_INVALID_DATA
  | SLAVE_DEVICE_FAILURE | ILLEGAL_FUNCTION | ILLEGAL_DATA_ADDRESS
  | ILLEGAL_DATA_VALUE => Cat_DEVICE_ERROR
  | _ => Cat_OTHER
  end.

(** The counter a category increments, and the time stamp. *)
Definition bump (category : ErrorCategory) (now : Z) (s : DeviceErrorStats)
  : DeviceErrorStats :=
  match category with
  | Cat_CRC_ERROR =>
      mkStats (address s) (incr32 (crcErrors s)) (timeouts s) (invalidData s)
        (deviceErrors s) (otherErrors s) (successCount s) now (initialized s)
  | Cat_TIMEOUT =>
      mkStats (address s) (crcErrors s) (incr32 (timeouts s)) (invalidData s)
        (deviceErrors s) (otherErrors s) (successCount s) now (initialized s)
  | Cat_INVALID_DATA =>
      mkStats (address s) (crcErrors s) (timeouts s) (incr32 (invalidData s))
        (deviceErrors s) (otherErrors s) (successCount s) now (initialized s)
  | Cat_DEVICE_ERROR =>
      mkStats (address s) (crcErrors s) (timeouts s) (invalidData s)
        (incr32 (deviceErrors s)) (otherErrors s) (successCount s) now (initialized s)
  | Cat_OTHER =>
      mkStats (address s) (crcErrors s) (timeouts s) (invalidData s)
        (deviceErrors s) (incr32 (otherErrors s)) (successCount s) now (initialized s)
  end.

Definition succeed (s : DeviceErrorStats) : DeviceErrorStats :=
  mkStats (address s) (crcErrors s) (timeouts s) (invalidData s) (deviceErrors s)
    (otherErrors s) (incr32 (successCount s)) (lastErrorTime s) (initialized s).

Definition zero (s : DeviceErrorStats) : DeviceErrorStats :=
  mkStats (address s) 0 0 0 0 0 0 0 (initialized s).

(** [stats->... = ...] on the slot a pointer designates. *)
Definition on_slot (f : DeviceErrorStats → DeviceErrorStats) (i : nat) (tr : t) : t :=
  mk (alter f i (deviceStats tr)) (numDevices tr).

(** [recordError(deviceAddress, category)]; [now] is [millis()]. *)
Definition recordError (a : Z) (category : ErrorCategory) (now : Z) (tr : t) : t :=
  match findOrCreateStats a tr with
  | (Some i, tr') => on_slot (bump category now) i tr'
  | (None, tr') => tr'
  end.

(** [recordSuccess(deviceAddress)] *)
Definition recordSuccess (a : Z) (tr : t) : t :=
  match findOrCreateStats a tr with
  | (Some i, tr') => on_slot succeed i tr'
  | (None, tr') => tr'
  end.

(** [resetDevice(deviceAddress)] *)
Definition resetDevice (a : Z) (tr : t) : t :=
  match findOrCreateStats a tr with
  | (Some i, tr') => on_slot zero i tr'
  | (None, tr') => tr'
  end.

(** The loop of [resetAll()] over the slots from index [i] on. *)
Fixpoint resetAll_from (i count : nat) (slots : list DeviceErrorStats)
  : list DeviceErrorStats :=
  match slots with
  | [] => []
  | s :: rest =>
      if (i <? count)%nat
      then (if initialized s then zero s else s) :: resetAll_from (S i) count rest
      else s :: rest
  end.

Definition resetAll (tr : t) : t :=
  mk (resetAll_from 0 (numDevices tr) (deviceStats tr)) (numDevices tr).

(** The slot [findStats] designates. *)
Definition stats_of (a : Z) (tr : t) : option DeviceErrorStats :=
  match findStats a tr with
  | Some i => deviceStats tr !! i
  | None => None
  end.

Definition add32 (x y : Z) : Z := (x + y) mod 2 ^ 32.

(** The getters: 0 when the device is not tracked. *)
Definition getTotalErrors (a : Z) (tr : t) : Z :=
  match stats_of a tr with
  | Some s =>
      add32 (add32 (add32 (add32 (crcErrors s) (timeouts s)) (invalidData s))
               (deviceErrors s)) (otherErrors s)
  | None => 0
  end.

Definition getCrcErrors (a : Z) (tr : t) : Z :=
  match stats_of a tr with Some s => crcErrors s | None => 0 end.

Definition getTimeouts (a : Z) (tr : t) : Z :=
  match stats_of a tr with Some s => timeouts s | None => 0 end.

Definition getInvalidDataErrors (a : Z) (tr : t) : Z :=
  match stats_of a tr with Some s => invalidData s | None => 0 end.

Definition getDeviceErrors (a : Z) (tr : t) : Z :=
  match stats_of a tr with Some s => deviceErrors s | None => 0 end.

Definition getOtherErrors (a : Z) (tr : t) : Z :=
  match stats_of a tr with Some s => otherErrors s | None => 0 end.

Definition getSuccessCount (a : Z) (tr : t) : Z :=
  match stats_of a tr with Some s => successCount s | None => 0 end.

Definition getLastErrorTime (a : Z) (tr : t) : Z :=
  match stats_of a tr with Some s => lastErrorTime s | None => 0 end.

Definition getTrackedDeviceCount (tr : t) : nat := numDevices tr.

Definition isDeviceTracked (a : Z) (tr : t) : bool :=
  match findStats a tr with Some _ => true | None => false end.

(** The count of one category. *)
Definition getCategory (category : ErrorCategory) (a : Z) (tr : t) : Z :=
  match category with
  | Cat_CRC_ERROR => getCrcErrors a tr
  | Cat_TIMEOUT => getTimeouts a tr
  | Cat_INVALID_DATA => getInvalidDataErrors a tr
  | Cat_DEVICE_ERROR => getDeviceErrors a tr
  | Cat_OTHER => getOtherErrors a tr
  end.

(** The trackers a program can reach with one task. *)
Inductive Op : Type :=
| OpError (a : Z) (category : ErrorCategory) (now : Z)
| OpSuccess (a : Z)
| OpResetDevice (a : Z)
| OpResetAll.

Definition step (tr : t) (op : Op) : t :=
  match op with
  | OpError a category now => recordError a category now tr
  | OpSuccess a => recordSuccess a tr
  | OpResetDevice a => resetDevice a tr
  | OpResetAll => resetAll tr
  end.

Definition run (ops : list Op) : t := fold_left step ops init.

(** What the operations keep true: eight slots, at most eight claimed, the
    claimed ones initialised and of pairwise different addresses. *)
Definition wf (tr : t) : Prop :=
  length (deviceStats tr) = MODBUS_ERROR_TRACKER_MAX_DEVICES ∧
  (numDevices tr <= MODBUS_ERROR_TRACKER_MAX_DEVICES)%nat ∧
  (∀ i s, (i < numDevices tr)%nat → deviceStats tr !! i = Some s →
          initialized s = true) ∧
  (∀ i j s1 s2, (i < numDevices tr)%nat → (j < numDevices tr)%nat →
          deviceStats tr !! i = Some s1 → deviceStats tr !! j = Some s2 →
          address s1 = address s2 → i = j).

End ModbusErrorTracker.

(** The shape [recordError], [recordSuccess] and [resetDevice] share: find
    or claim the slot of the device, then write to it. *)
Definition tracker_touch
    (f : ModbusErrorTracker.DeviceErrorStats → ModbusErrorTracker.DeviceErrorStats)
    (a : Z) (tr : ModbusErrorTracker.t) : ModbusErrorTracker.t :=
  match ModbusErrorTracker.findOrCreateStats a tr with
  | (Some i, tr') => ModbusErrorTracker.on_slot f i tr'
  | (None, tr') => tr'
  end.

(** A write that keeps the address and the initialised mark of a slot. *)
Definition keeps_identity
    (f : ModbusErrorTracker.DeviceErrorStats → ModbusErrorTracker.DeviceErrorStats)
  : Prop :=
  ∀ s, ModbusErrorTracker.address (f s) = ModbusErrorTracker.address s ∧
       ModbusErrorTracker.initialized (f s) = ModbusErrorTracker.initialized s.

(** Whether a device is tracked already or a slot is left for it. *)
Definition trackable (a : Z) (tr : ModbusErrorTracker.t) : Prop :=
  ModbusErrorTracker.isDeviceTracked a tr = true ∨
  (ModbusErrorTracker.numDevices tr < ModbusErrorTracker.MODBUS_ERROR_TRACKER_MAX_DEVICES)%nat.

(** Nine devices, one more than the tracker has slots for. *)
Definition tracker_full : ModbusErrorTracker.t :=
  ModbusErrorTracker.run
    (map (λ a, ModbusErrorTracker.OpSuccess a) [1; 2; 3; 4; 5; 6; 7; 8]).

Definition tracker_two : ModbusErrorTracker.t :=
  ModbusErrorTracker.run
    [ModbusErrorTracker.OpError 1 ModbusErrorTracker.Cat_CRC_ERROR 100;
     ModbusErrorTracker.OpSuccess 2;
     ModbusErrorTracker.OpError 1 ModbusErrorTracker.Cat_TIMEOUT 250].

(** A [uint16_t] and a [uint32_t] value. *)
Definition is_uint16 (v : Z) : Prop := 0 <= v < 2 ^ 16.

Definition is_uint32 (v : Z) : Prop := 0 <= v <= UINT32_MAX.

(** The milliseconds that passed between two readings of the 32-bit
    millisecond clock. *)
Definition elapsed_ms (since now : Z) : Z := (now - since) mod 2 ^ 32.

(** How many packets [processQueue(maxPackets)] takes from a queue of
    [waiting] packets: all of them for [maxPackets = 0]. *)
Definition drained (maxPackets : Z) (waiting : nat) : nat :=
  if maxPackets =? 0 then waiting else Nat.min (Z.to_nat maxPackets) waiting.

(** A simple device last updated at [t]. *)
Definition simple_at (t : Z) : SimpleModbusDevice :=
  mkSimple (phase_world READY) [] [] t.

(** A queue of depth 4 holding three packets. *)
Definition three_packets : QueuedPart :=
  mkQueuedPart
    (Some (mkQueue 4 [mkModbusPacket 3 0x10 [0; 1] 2 5;
                      mkModbusPacket 3 0x20 [0; 2] 2 6;
                      mkModbusPacket 4 0x30 [0; 3] 2 7])) true.

(** The device the registry yields for a callback, and whether the
    callback is handed to this object. *)
Definition callback_target (c : Callback) (w : World) : Z :=
  match c with
  | OnData server _ _ _ _ map_lock _ _ | OnError server _ map_lock _ =>
      ModbusRegistry.getDevice map_lock server (registry w)
  end.

Definition routed_here (c : Callback) (w : World) : bool :=
  negb (callback_target c w =? nullptr) && (callback_target c w =? this_ptr w).

(** The queue, if the device has one, holds no more than its depth. *)
Definition queue_within_capacity (w : World) : Prop :=
  ∀ qp q, queued_part (this w) = Some qp → queue qp = Some q →
          (length (items q) <= capacity q)%nat.

(** Whether [handleError] finds a waiter it can wake: the sync context and
    its mutex exist, the try-lock succeeds and no result flag is set. *)
Definition can_wake (sync_lock : bool) (d : Device) : bool :=
  match syncContext d with
  | Some ctx => syncMutex d && sync_lock
                && negb (responseReceived ctx) && negb (errorOccurred ctx)
  | None => false
  end.

(** Two responses for address 2, where no device is registered, and one
    that finds the registry's map mutex taken. *)
Definition stray_callbacks : list Callback :=
  [OnData 2 0x03 0 (Some [0; 1]) 2 true true 0;
   OnError 2 E_CRC_ERROR true true;
   OnData 1 0x03 0 (Some [0; 1]) 2 false true 0].

(** A response and an error that arrive after [response_10_40]. *)
Definition late_callbacks : list Callback :=
  [OnData 1 0x03 0x0010 (Some [0xFF; 0xFF]) 2 true true 9;
   OnError 1 E_TIMEOUT true true].

(** The world in which [response_10_40] has been stored and not yet been
    collected. *)
Definition world_with_response : World :=
  snd (deliver response_10_40 queued_world_idle).

(** ** The calls as transactions *)

(** The function code, address, count, priority and data pointer each
    operation passes to [sendRequestWithPriority]. *)
Definition call_parts (c : Call) : Z * Z * Z * ModbusPriority * option (list Z) :=
  match c with
  | ReadHoldingRegisters address count priority => (0x03, address, count, priority, None)
  | ReadInputRegisters address count priority => (0x04, address, count, priority, None)
  | ReadCoils address count => (0x01, address, count, RELAY, None)
  | ReadDiscreteInputs address count => (0x02, address, count, RELAY, None)
  | WriteSingleRegister address value priority =>
      (0x06, address, 1, priority, Some [value])
  | WriteMultipleRegisters address values =>
      (0x10, address, to_uint16 (Z.of_nat (length values)), RELAY, Some values)
  | WriteSingleCoil address value priority =>
      (0x05, address, 1, priority, Some [if value then 1 else 0])
  | WriteMultipleCoils address values =>
      (0x0F, address, to_uint16 (Z.of_nat (length values)), RELAY,
       Some (pack_coils values))
  end.

(** The value an operation makes of the payload of the response. *)
Definition call_value (c : Call) (payload : list Z) : Value :=
  match c with
  | ReadHoldingRegisters _ _ _ | ReadInputRegisters _ _ _ =>
      VRegisters (bytes_to_registers payload)
  | ReadCoils _ count | ReadDiscreteInputs _ count =>
      VCoils (bytes_to_coils count payload)
  | WriteSingleRegister _ _ _ | WriteMultipleRegisters _ _
  | WriteSingleCoil _ _ _ | WriteMultipleCoils _ _ => VVoid
  end.

(** The operation as one transaction. *)
Definition call_transaction (e : Env) (c : Call) : M (ModbusResult Value) :=
  transaction e (call_parts c).1.1.1.1 (call_parts c).1.1.1.2 (call_parts c).1.1.2
    (call_parts c).1.2 (call_parts c).2 (call_value c).

(** The request the caller means: the values of a multiple write as
    big-endian byte pairs, the coils as they are. *)
Definition request_of (server : Z) (c : Call) : Request :=
  match c with
  | ReadHoldingRegisters address count priority =>
      ReqReadHoldingRegisters server address count priority
  | ReadInputRegisters address count priority =>
      ReqReadInputRegisters server address count priority
  | ReadCoils address count => ReqReadCoils server address count RELAY
  | ReadDiscreteInputs address count => ReqReadDiscreteInputs server address count RELAY
  | WriteSingleRegister address value priority =>
      ReqWriteSingleHoldingRegister server address value priority
  | WriteMultipleRegisters address values =>
      ReqWriteMultHoldingRegisters server address (Z.of_nat (length values))
        (flat_map (λ v, [Z.land (Z.shiftr v 8) 0xFF; Z.land v 0xFF]) values) RELAY
  | WriteSingleCoil address value priority =>
      ReqWriteSingleCoil server address value priority
  | WriteMultipleCoils address values =>
      ReqWriteMultipleCoils server address (Z.of_nat (length values)) values RELAY
  end.

(** The two multiple writes allocate a buffer before the dispatch. *)
Definition needs_alloc (c : Call) : bool :=
  match c with
  | WriteMultipleRegisters _ _ | WriteMultipleCoils _ _ => true
  | _ => false
  end.

(** Whether a call hands its request to the transport and the transport
    accepts it. *)
Definition dispatches (e : Env) (c : Call) (w : World) : bool :=
  reaches_dispatch e c w && (negb (needs_alloc c) || alloc_ok e) && rtu_accepts e.

(** Whether the call finds or creates a sync context with its semaphore,
    and whether the device then has its sync mutex. *)
Definition sync_available (e : Env) (w : World) : bool :=
  match syncContext (this w) with
  | Some c => match semaphore c with Some _ => true | None => false end
  | None => sem_create_ok e
  end.

Definition sync_lockable (e : Env) (w : World) : bool :=
  syncMutex (this w) || mutex_create_ok e.

(** The function codes [handleData] takes for writes. *)
Definition isWriteOp (fc : Z) : bool :=
  (fc =? FC_WRITE_HOLD_REGISTER) || (fc =? FC_WRITE_MULT_REGISTERS)
  || (fc =? FC_WRITE_COIL) || (fc =? FC_WRITE_MULT_COILS).

(** The bookkeeping of the device that only the wait and the error
    callback touch. *)
Definition counters (d : Device) : ModbusError * Z * Z :=
  (lastError d, timeouts d, crcErrors d).

(** The payload [handleData] stores for a response of [len] bytes. *)
Definition stored_payload (buf : list Z) (len : Z) : list Z :=
  if 0 <? len then take (Z.to_nat len) buf else [].

(** The transport reports a CRC error for device 1 during the wait. *)
Definition env_crc_error : Env := env_of [OnError 1 E_CRC_ERROR true true].

(** Responses for address 2 only, before and during the wait. *)
Definition env_strangers : Env :=
  mkEnv true true true true true [OnData 2 0x03 0 (Some [0; 1]) 2 true true 0]
    [OnError 2 E_TIMEOUT true true].

(** What only [setServerAddress], [setInitPhase] and [setEventGroup]
    write. *)
Definition identity (d : Device) : Z * InitPhase * option nat * Z * Z :=
  (serverAddress d, initPhase d, eventGroup d, readyBit d, errorBit d).

(** A simple device at address 1 before [initialize], a [configure] that
    adds one channel at register 0x10, and the device after
    [initialize]. *)
Definition simple_new : SimpleModbusDevice :=
  mkSimple
    (mkWorld (ModbusDevice_new SimpleDevice 1) 1000
       (ModbusRegistry.setModbusRTU true true (ModbusRegistry.new true true))
       false false ∅ 0 [])
    [] [] 0.

Definition configure_one (s : SimpleModbusDevice) : bool * SimpleModbusDevice :=
  (true, addChannel ["t"%char] ["C"%char] 0x10 s).

Definition simple_ready : SimpleModbusDevice :=
  snd (initialize true configure_one simple_new).

(** Every read is answered with the register value 42. *)
Definition answers_42 : nat → Env :=
  λ _, env_of [OnData 1 0x03 0x10 (Some [0; 42]) 2 true true 0].

(** A ready simple device with one channel whose registry has no bus
    mutex. *)
Definition simple_no_bus : SimpleModbusDevice :=
  mkSimple (set_this (set_initPhase READY (this no_bus_world)) no_bus_world)
    [mkChannelInfo [] [] 0x10] [0] 0.

(** The transport answers a read of device 1 at once: the response is
    delivered after the dispatch has returned and before the caller waits,
    and nothing arrives during the wait. *)
Definition env_early_response : Env :=
  mkEnv true true true true true [response_10_40] [].

(** What a call returns for a payload, in the words of the
    specification: a register read the big-endian pairs, a coil or
    discrete-input read the bits LSB-first up to its count, a write
    nothing. *)
Definition decoded (c : Call) (payload : list Z) : Value :=
  match c with
  | ReadHoldingRegisters _ _ _ | ReadInputRegisters _ _ _ =>
      VRegisters (big_endian_pairs payload)
  | ReadCoils _ count | ReadDiscreteInputs _ count =>
      VCoils (lsb_first_bits count payload)
  | WriteSingleRegister _ _ _ | WriteMultipleRegisters _ _
  | WriteSingleCoil _ _ _ | WriteMultipleCoils _ _ => VVoid
  end.

(** The payload of the scenario delivered for a read of input registers,
    and two bytes of input states delivered for a read of discrete
    inputs. *)
Definition response_input : Callback :=
  OnData 1 0x04 0x0010 (Some payload_10_40) 8 true true 0.

Definition response_discrete : Callback :=
  OnData 1 0x02 0x0000 (Some [0x05; 0xFF]) 2 true true 0.

(** * Properties *)

(** Unfolding of the monad's operations. *)
Ltac run_monad :=
  unfold bind, ret, gets, modify_this, modify, when; cbn.

(** Case analysis on a membership in an explicit list. *)
Ltac split_in H :=
  repeat (apply elem_of_cons in H; destruct H as [H|H]);
  try (apply elem_of_nil in H; contradiction).

(** ** The constructor and the address accessor *)

(** C9: a device constructed with address 0 or with an address above 247
    reports address 1 through [getServerAddress]; a device constructed with
    an address in [1,247] reports that address. *)
Theorem constructor_effective_address (cls : DeviceClass) (a : Z) :
  (a = 0 ∨ 247 < a → getServerAddress (ModbusDevice_new cls a) = 1) ∧
  (1 <= a <= 247 → getServerAddress (ModbusDevice_new cls a) = a).
Proof.
  unfold getServerAddress, ModbusDevice_new, MODBUS_MAX_SLAVE_ADDRESS.
  split; intros H.
  - destruct (a =? 0) eqn:E0; [reflexivity|].
    destruct (a >? 247) eqn:E1; [reflexivity|].
    apply Z.eqb_neq in E0. rewrite Z.gtb_ltb in E1. apply Z.ltb_ge in E1. lia.
  - destruct (a =? 0) eqn:E0; [apply Z.eqb_eq in E0; lia|].
    destruct (a >? 247) eqn:E1; [|reflexivity].
    rewrite Z.gtb_ltb in E1. apply Z.ltb_lt in E1. lia.
Qed.

Lemma constructor_effective_address_witness :
  getServerAddress (ModbusDevice_new BaseDevice 0) = 1 ∧
  getServerAddress (ModbusDevice_new BaseDevice 250) = 1 ∧
  getServerAddress (ModbusDevice_new BaseDevice 17) = 17.
Proof.
  split; [|split].
  - apply (proj1 (constructor_effective_address BaseDevice 0)). left. reflexivity.
  - apply (proj1 (constructor_effective_address BaseDevice 250)). right. lia.
  - apply (proj2 (constructor_effective_address BaseDevice 17)). lia.
Defined.

(** ** The registry *)

Module RegistryFacts.
Import ModbusRegistry.

Lemma new_map c1 c2 : deviceMap_ (new c1 c2) = ∅.
Proof. unfold new. destruct c1, c2; reflexivity. Qed.

Lemma registerDevice_cases lock a d r :
  registerDevice lock a d r = (false, r) ∨
  (d ≠ nullptr ∧ 1 <= a <= 247 ∧ mutex_ r = true ∧ lock = true ∧
   registerDevice lock a d r = (true, set_deviceMap (<[a := d]> (deviceMap_ r)) r))
  ∨ a < 0.
Proof.
  unfold registerDevice.
  destruct (d =? nullptr) eqn:Ed; simpl; [by left|].
  destruct (a =? 0) eqn:E0; simpl; [by left|].
  destruct (a >? 247) eqn:E1; simpl; [by left|].
  destruct (mutex_ r) eqn:Em; simpl; [|by left].
  destruct lock; simpl; [|by left].
  apply Z.eqb_neq in Ed, E0. rewrite Z.gtb_ltb in E1. apply Z.ltb_ge in E1.
  destruct (Z_lt_ge_dec a 0) as [Hneg|Hpos]; [by right; right|].
  right; left. repeat split; try done; lia.
Qed.

Lemma unregisterDevice_cases lock a r :
  unregisterDevice lock a r = (false, r) ∨
  (mutex_ r = true ∧ lock = true ∧ is_Some (deviceMap_ r !! a) ∧
   unregisterDevice lock a r = (true, set_deviceMap (delete a (deviceMap_ r)) r)).
Proof.
  unfold unregisterDevice.
  destruct (mutex_ r) eqn:Em; simpl; [|by left].
  destruct lock; simpl; [|by left].
  destruct (deviceMap_ r !! a) eqn:El; [|by left].
  right. repeat split; eauto.
Qed.

Lemma reachable_wf r : reachable r → wf r ∧ guarded r.
Proof.
  induction 1 as [c1 c2|lock rtu r _ IH|lock a d r Ha _ IH|lock a r Ha _ IH].
  - split.
    + intros a d. rewrite new_map, lookup_empty. discriminate.
    + intros _. apply new_map.
  - unfold setModbusRTU. destruct (mutex_ r) eqn:Em, lock; simpl; exact IH.
  - destruct (registerDevice_cases lock a d r) as [->|[(Hd & Hr & Hm & _ & ->)|Hneg]];
      [exact IH| |lia].
    destruct IH as [IH1 IH2]. split.
    + intros a' d'. simpl. rewrite lookup_insert. case_decide as Heq.
      * intros [= <-]. subst a'. split; [exact Hr|exact Hd].
      * apply IH1.
    + unfold guarded. simpl. rewrite Hm. discriminate.
  - destruct (unregisterDevice_cases lock a r) as [->|(Hm & _ & _ & ->)]; [exact IH|].
    destruct IH as [IH1 IH2]. split.
    + intros a' d'. simpl. rewrite lookup_delete. case_decide; [discriminate|apply IH1].
    + unfold guarded. simpl. rewrite Hm. discriminate.
Qed.

(** C8: in a registry built by the public operations, and with the map
    mutex obtained: registering at an occupied address succeeds, a lookup
    then yields the new device and the device count is unchanged;
    unregistering a free address returns false and leaves the registry as it
    was (whatever the mutex answers); [getDeviceCount] is the number of
    distinct registered addresses; and a lookup yields the one device
    mapped at the address, or null. *)
Theorem registry_replace_unregister_count (r : t) :
  reachable r →
  (∀ a old new_dev, deviceMap_ r !! a = Some old → new_dev ≠ nullptr →
     fst (registerDevice true a new_dev r) = true ∧
     getDevice true a (snd (registerDevice true a new_dev r)) = new_dev ∧
     getDeviceCount true (snd (registerDevice true a new_dev r))
       = getDeviceCount true r) ∧
  (∀ lock a, deviceMap_ r !! a = None → unregisterDevice lock a r = (false, r)) ∧
  getDeviceCount true r = Z.of_nat (size (dom (deviceMap_ r))) ∧
  (∀ a, getDevice true a r = default nullptr (deviceMap_ r !! a)).
Proof.
  intros Hr. destruct (reachable_wf r Hr) as [Hwf Hg].
  split; [|split; [|split]].
  - intros a old new_dev Hold Hnew.
    destruct (Hwf a old Hold) as [Ha _].
    assert (Hm : mutex_ r = true).
    { destruct (mutex_ r) eqn:Em; [done|]. rewrite (Hg Em) in Hold.
      rewrite lookup_empty in Hold. discriminate. }
    unfold registerDevice, getDevice, getDeviceCount.
    replace (new_dev =? nullptr) with false by (symmetry; by apply Z.eqb_neq).
    replace (a =? 0) with false by (symmetry; apply Z.eqb_neq; lia).
    replace (a >? 247) with false by (symmetry; rewrite Z.gtb_ltb; apply Z.ltb_ge; lia).
    rewrite Hm. simpl. rewrite Hm. rewrite lookup_insert_eq.
    split; [done|split; [done|]].
    f_equal. rewrite <- !size_dom, dom_insert_L.
    f_equal. apply subseteq_union_1_L, singleton_subseteq_l.
    by apply elem_of_dom_2 in Hold.
  - intros lock a Hnone. unfold unregisterDevice. rewrite Hnone.
    destruct (mutex_ r), lock; reflexivity.
  - unfold getDeviceCount. rewrite size_dom.
    destruct (mutex_ r) eqn:Em; simpl; [done|].
    rewrite (Hg Em). reflexivity.
  - intros a. unfold getDevice.
    destruct (mutex_ r) eqn:Em; simpl; [by destruct (deviceMap_ r !! a)|].
    rewrite (Hg Em), lookup_empty. reflexivity.
Qed.

Lemma registry_one_reachable : reachable registry_one.
Proof.
  apply reach_register; [lia|]. apply reach_rtu. apply reach_new.
Qed.

Lemma registry_replace_unregister_count_witness :
  (fst (registerDevice true 1 2000 registry_one) = true ∧
   getDevice true 1 (snd (registerDevice true 1 2000 registry_one)) = 2000 ∧
   getDeviceCount true (snd (registerDevice true 1 2000 registry_one))
     = getDeviceCount true registry_one) ∧
  unregisterDevice true 0x99 registry_one = (false, registry_one) ∧
  getDeviceCount true registry_one = Z.of_nat (size (dom (deviceMap_ registry_one))).
Proof.
  pose proof (registry_replace_unregister_count registry_one registry_one_reachable)
    as (Hrep & Hunreg & Hcount & _).
  split; [|split].
  - apply (Hrep 1 1000 2000); [reflexivity|discriminate].
  - apply Hunreg. reflexivity.
  - exact Hcount.
Defined.

End RegistryFacts.

(** ** Changing the address *)

(** C10: [setServerAddress] with 0 or with an address above 247 returns
    [INVALID_ADDRESS] and changes nothing: the stored address and the
    registry are as before.  With an address in [1,247] the old address is
    unregistered, the stored address becomes the new one, and the device is
    registered again when its phase is [READY]. *)
Theorem setServerAddress_guard (lock_unreg lock_reg : bool) (a : Z) (w : World) :
  (a = 0 ∨ 247 < a →
     setServerAddress lock_unreg lock_reg a w = (Err INVALID_ADDRESS, w)) ∧
  (1 <= a <= 247 →
     let r1 := snd (ModbusRegistry.unregisterDevice lock_unreg
                      (serverAddress (this w)) (registry w)) in
     let w' := snd (setServerAddress lock_unreg lock_reg a w) in
     getServerAddress (this w') = a ∧
     registry w' =
       if bool_decide (initPhase (this w) = READY)
       then snd (ModbusRegistry.registerDevice lock_reg a (this_ptr w) r1)
       else r1).
Proof.
  unfold setServerAddress, MODBUS_MAX_SLAVE_ADDRESS. split.
  - intros H.
    destruct (a =? 0) eqn:E0; [reflexivity|].
    destruct (a >? 247) eqn:E1; [reflexivity|].
    apply Z.eqb_neq in E0. rewrite Z.gtb_ltb in E1. apply Z.ltb_ge in E1. lia.
  - intros H.
    replace (a =? 0) with false by (symmetry; apply Z.eqb_neq; lia).
    replace (a >? 247) with false by (symmetry; rewrite Z.gtb_ltb; apply Z.ltb_ge; lia).
    unfold bind, ret, gets, modify_this, modify, unregisterDevice, registerDevice.
    cbn -[ModbusRegistry.unregisterDevice ModbusRegistry.registerDevice].
    destruct (bool_decide (initPhase (this w) = READY));
      cbn -[ModbusRegistry.unregisterDevice ModbusRegistry.registerDevice].
    + case_bool_decide; split; reflexivity.
    + split; reflexivity.
Qed.

Lemma setServerAddress_guard_witness :
  setServerAddress true true 0 fresh_world = (Err INVALID_ADDRESS, fresh_world) ∧
  setServerAddress true true 248 fresh_world = (Err INVALID_ADDRESS, fresh_world) ∧
  getServerAddress (this (snd (setServerAddress true true 5 fresh_world))) = 5 ∧
  ModbusRegistry.deviceMap_ (registry (snd (setServerAddress true true 5 fresh_world)))
    = ∅.
Proof.
  split; [|split; [|split]].
  - apply (proj1 (setServerAddress_guard true true 0 fresh_world)). left. reflexivity.
  - apply (proj1 (setServerAddress_guard true true 248 fresh_world)). right. lia.
  - apply (proj2 (setServerAddress_guard true true 5 fresh_world)). lia.
  - destruct (proj2 (setServerAddress_guard true true 5 fresh_world)) as [_ ->]; [lia|].
    vm_compute. reflexivity.
Defined.

(** ** The lifecycle phase *)

(** C7: [setInitPhase] stores the new phase; when the new phase is the old
    one the world is unchanged; a change into [READY] sets the registered
    ready bit, and a change into [ERROR] the registered error bit, in the
    configured event group; and [setEventGroup] on a device that is already
    [READY] or [ERROR] sets the corresponding bit at once.  (The exchange
    is one step here: the model has a single task.) *)
Theorem setInitPhase_notifies (w : World) (phase : InitPhase) :
  initPhase (this (snd (setInitPhase phase w))) = phase ∧
  (initPhase (this w) = phase → snd (setInitPhase phase w) = w) ∧
  (∀ g, initPhase (this w) ≠ phase → eventGroup (this w) = Some g →
     (phase = READY → readyBit (this w) ≠ 0 →
        getEventBits g (snd (setInitPhase phase w))
          = Z.lor (getEventBits g w) (readyBit (this w))) ∧
     (phase = ERROR → errorBit (this w) ≠ 0 →
        getEventBits g (snd (setInitPhase phase w))
          = Z.lor (getEventBits g w) (errorBit (this w)))) ∧
  (∀ g ready err,
     (initPhase (this w) = READY → ready ≠ 0 →
        getEventBits g (snd (setEventGroup (Some g) ready err w))
          = Z.lor (getEventBits g w) ready) ∧
     (initPhase (this w) = ERROR → err ≠ 0 →
        getEventBits g (snd (setEventGroup (Some g) ready err w))
          = Z.lor (getEventBits g w) err)).
Proof.
  split; [|split; [|split]].
  - unfold setInitPhase, xEventGroupSetBits. run_monad.
    destruct (bool_decide (initPhase (this w) = phase)); cbn; [reflexivity|].
    destruct (eventGroup (this w)); cbn; [|reflexivity].
    destruct (bool_decide (phase = READY) && negb (readyBit (this w) =? 0)); cbn;
      [reflexivity|].
    destruct (bool_decide (phase = ERROR) && negb (errorBit (this w) =? 0)); reflexivity.
  - intros Hsame. unfold setInitPhase. run_monad.
    rewrite bool_decide_eq_true_2 by exact Hsame. cbn.
    destruct w as [d p r m b g q t]. destruct d. cbn in *. subst phase. reflexivity.
  - intros g Hne Hg. unfold setInitPhase, xEventGroupSetBits. run_monad.
    rewrite bool_decide_eq_false_2 by exact Hne. cbn. rewrite Hg. cbn. split.
    + intros -> Hbit. rewrite bool_decide_eq_true_2 by reflexivity.
      replace (readyBit (this w) =? 0) with false by (symmetry; by apply Z.eqb_neq).
      cbn. unfold getEventBits. cbn. rewrite lookup_insert_eq. reflexivity.
    + intros -> Hbit. rewrite (bool_decide_eq_false_2 (ERROR = READY)) by discriminate.
      rewrite bool_decide_eq_true_2 by reflexivity.
      replace (errorBit (this w) =? 0) with false by (symmetry; by apply Z.eqb_neq).
      cbn. unfold getEventBits. cbn. rewrite lookup_insert_eq. reflexivity.
  - intros g ready err. unfold setEventGroup, getInitPhase, xEventGroupSetBits.
    run_monad. split.
    + intros -> Hbit. rewrite bool_decide_eq_true_2 by reflexivity.
      replace (ready =? 0) with false by (symmetry; by apply Z.eqb_neq).
      cbn. unfold getEventBits. cbn. rewrite lookup_insert_eq. reflexivity.
    + intros -> Hbit. rewrite (bool_decide_eq_false_2 (ERROR = READY)) by discriminate.
      rewrite bool_decide_eq_true_2 by reflexivity.
      replace (err =? 0) with false by (symmetry; by apply Z.eqb_neq).
      cbn. unfold getEventBits. cbn. rewrite lookup_insert_eq. reflexivity.
Qed.

Lemma setInitPhase_notifies_witness :
  snd (setInitPhase READY (notify_world READY)) = notify_world READY ∧
  getEventBits 7 (snd (setInitPhase READY (notify_world CONFIGURING))) = 1 ∧
  getEventBits 7 (snd (setInitPhase ERROR (notify_world CONFIGURING))) = 0x10000 ∧
  getEventBits 7 (snd (setEventGroup (Some 7%nat) 1 0x10000 (phase_world READY))) = 1 ∧
  getEventBits 7 (snd (setEventGroup (Some 7%nat) 1 0x10000 (phase_world ERROR)))
    = 0x10000.
Proof.
  split; [|split; [|split; [|split]]].
  - apply (proj1 (proj2 (setInitPhase_notifies (notify_world READY) READY))).
    reflexivity.
  - destruct (setInitPhase_notifies (notify_world CONFIGURING) READY) as (_ & _ & H & _).
    destruct (H 7%nat) as [Hready _]; [discriminate|reflexivity|].
    rewrite Hready; [reflexivity|reflexivity|discriminate].
  - destruct (setInitPhase_notifies (notify_world CONFIGURING) ERROR) as (_ & _ & H & _).
    destruct (H 7%nat) as [_ Herror]; [discriminate|reflexivity|].
    rewrite Herror; [reflexivity|reflexivity|discriminate].
  - destruct (setInitPhase_notifies (phase_world READY) READY) as (_ & _ & _ & H).
    destruct (H 7%nat 1 0x10000) as [Hready _].
    rewrite Hready; [reflexivity|reflexivity|discriminate].
  - destruct (setInitPhase_notifies (phase_world ERROR) ERROR) as (_ & _ & _ & H).
    destruct (H 7%nat 1 0x10000) as [_ Herror].
    rewrite Herror; [reflexivity|reflexivity|discriminate].
Defined.

(** ** Byte-to-value conversion *)

Lemma at_middle (pre suf : list Z) (x : Z) :
  at_ (pre ++ x :: suf) (Z.of_nat (length pre)) = x.
Proof. unfold at_. rewrite Nat2Z.id. apply nth_middle. Qed.

Lemma at_middle_next (pre suf : list Z) (x y : Z) :
  at_ (pre ++ x :: y :: suf) (Z.of_nat (length pre) + 1) = y.
Proof.
  replace (pre ++ x :: y :: suf) with ((pre ++ [x]) ++ y :: suf)
    by (rewrite <- app_assoc; reflexivity).
  replace (Z.of_nat (length pre) + 1) with (Z.of_nat (length (pre ++ [x])))
    by (rewrite length_app; simpl; lia).
  apply at_middle.
Qed.

Lemma byte_high_bits (b n : Z) : is_byte b → 8 <= n → Z.testbit b n = false.
Proof.
  intros [Hlo Hhi] Hn.
  destruct (Z.eq_dec b 0) as [->|Hnz]; [apply Z.bits_0|].
  apply Z.bits_above_log2; [exact Hlo|].
  apply Z.lt_le_trans with 8; [|exact Hn].
  apply Z.log2_lt_pow2; lia.
Qed.

Lemma big_endian_word (hi lo : Z) :
  is_byte hi → is_byte lo → to_uint16 (Z.lor (Z.shiftl hi 8) lo) = hi * 256 + lo.
Proof.
  intros Hhi Hlo.
  assert (Hdisj : Z.land (Z.shiftl hi 8) lo = 0).
  { apply Z.bits_inj'. intros n Hn. rewrite Z.land_spec, Z.bits_0.
    destruct (Z_lt_ge_dec n 8) as [Hlt|Hge].
    - rewrite Z.shiftl_spec_low by exact Hlt. reflexivity.
    - rewrite (byte_high_bits lo n) by (try exact Hlo; lia).
      apply andb_false_r. }
  rewrite <- Z.lxor_lor by exact Hdisj.
  rewrite <- Z.add_nocarry_lxor by exact Hdisj.
  rewrite Z.shiftl_mul_pow2 by lia.
  unfold to_uint16. change (2 ^ 8) with 256.
  destruct Hhi, Hlo. apply Z.mod_small. lia.
Qed.

Lemma registers_loop_pairs (fuel : nat) :
  ∀ (pre suf values : list Z),
    Forall is_byte suf → (length suf <= fuel)%nat →
    registers_loop fuel (Z.of_nat (length pre)) (pre ++ suf) values
      = values ++ big_endian_pairs suf.
Proof.
  induction fuel as [|fuel IH]; intros pre suf values Hb Hlen.
  - destruct suf; [|simpl in Hlen; lia]. simpl. by rewrite app_nil_r.
  - destruct suf as [|hi [|lo rest]].
    + cbn [registers_loop big_endian_pairs]. rewrite !app_nil_r.
      replace (_ <? _) with false; [reflexivity|]. symmetry. apply Z.ltb_ge. lia.
    + cbn [registers_loop big_endian_pairs]. rewrite app_nil_r.
      replace (_ <? _) with false; [reflexivity|]. symmetry. apply Z.ltb_ge.
      rewrite length_app. simpl. lia.
    + cbn [registers_loop big_endian_pairs].
      replace (_ <? _) with true
        by (symmetry; apply Z.ltb_lt; rewrite length_app; simpl; lia).
      inversion Hb as [|? ? Hhi Hb']; subst. inversion Hb' as [|? ? Hlo Hrest]; subst.
      rewrite at_middle, at_middle_next, big_endian_word by assumption.
      replace (pre ++ hi :: lo :: rest) with ((pre ++ [hi; lo]) ++ rest)
        by (rewrite <- app_assoc; reflexivity).
      replace (Z.of_nat (length pre) + 2) with (Z.of_nat (length (pre ++ [hi; lo])))
        by (rewrite length_app; simpl; lia).
      rewrite IH by (try assumption; simpl in Hlen; lia).
      rewrite <- app_assoc. reflexivity.
Qed.

Lemma bytes_to_registers_pairs (data : list Z) :
  Forall is_byte data → bytes_to_registers data = big_endian_pairs data.
Proof.
  intros Hb. unfold bytes_to_registers.
  apply (registers_loop_pairs (length data) [] data [] Hb). lia.
Qed.

Lemma mask_test (b k : Z) :
  0 <= k → negb (Z.land b (Z.shiftl 1 k) =? 0) = Z.testbit b k.
Proof.
  intros Hk. rewrite Z.shiftl_1_l.
  destruct (Z.testbit b k) eqn:Hbit.
  - apply negb_true_iff, Z.eqb_neq. intros Hz.
    assert (Ht : Z.testbit (Z.land b (2 ^ k)) k = true).
    { rewrite Z.land_spec, Hbit, Z.pow2_bits_true by exact Hk. reflexivity. }
    rewrite Hz, Z.bits_0 in Ht. discriminate.
  - apply negb_false_iff, Z.eqb_eq. apply Z.bits_inj'. intros n Hn.
    rewrite Z.land_spec, Z.bits_0, Z.pow2_bits_eqb by exact Hk.
    destruct (Z.eqb_spec k n) as [->|_]; [by rewrite Hbit|apply andb_false_r].
Qed.

Lemma coils_loop_bits (count : Z) (data : list Z) (fuel : nat) :
  ∀ (i : Z) (values : list bool),
    0 <= i → (Z.to_nat (count - i) <= fuel)%nat →
    coils_loop fuel i count data values
      = values ++ map (λ j, Z.testbit (at_ data (j / 8)) (j mod 8))
                      (seqZ i (Z.min count (8 * Z.of_nat (length data)) - i)).
Proof.
  induction fuel as [|fuel IH]; intros i values Hi Hfuel.
  - cbn [coils_loop]. rewrite seqZ_nil by lia. by rewrite app_nil_r.
  - cbn [coils_loop].
    destruct ((i <? count) && (i / 8 <? Z.of_nat (length data))) eqn:Hc.
    + apply andb_true_iff in Hc as [H1 H2].
      apply Z.ltb_lt in H1, H2.
      assert (i < 8 * Z.of_nat (length data)).
      { pose proof (Z.mul_div_le i 8 ltac:(lia)).
        pose proof (Z.mod_pos_bound i 8 ltac:(lia)).
        pose proof (Z.div_mod i 8 ltac:(lia)). lia. }
      rewrite IH by lia.
      rewrite (seqZ_cons i) by lia.
      rewrite mask_test by (apply Z.mod_pos_bound; lia).
      cbn [map]. rewrite <- app_assoc. cbn [app].
      replace (Z.succ i) with (i + 1) by lia.
      replace (Z.pred (Z.min count (8 * Z.of_nat (length data)) - i))
        with (Z.min count (8 * Z.of_nat (length data)) - (i + 1)) by lia.
      reflexivity.
    + rewrite seqZ_nil; [by rewrite app_nil_r|].
      apply andb_false_iff in Hc as [H1|H2].
      * apply Z.ltb_ge in H1. lia.
      * apply Z.ltb_ge in H2.
        assert (8 * Z.of_nat (length data) <= i); [|lia].
        pose proof (Z.mul_div_le i 8 ltac:(lia)). lia.
Qed.

Lemma bytes_to_coils_bits (count : Z) (data : list Z) :
  bytes_to_coils count data = lsb_first_bits count data.
Proof.
  unfold bytes_to_coils, lsb_first_bits.
  rewrite coils_loop_bits by lia.
  rewrite Z.sub_0_r. reflexivity.
Qed.

(** ** The steps of a transaction *)

Lemma deliver_view (c : Callback) (w : World) :
  callback_view (snd (deliver c w)) = callback_view w.
Proof.
  destruct c as [server fc start data len ml sl tick|server err ml sl];
    unfold deliver, mainHandleData, global_handleError, handleData, handleError,
      handleModbusResponse, QueuedModbusDevice_handleModbusResponse,
      ModbusDevice_handleModbusResponse, handleModbusError, onQueueFull;
    run_monad; unfold callback_view, ctx_ready, bus_view;
    destruct w as [d ptr reg mm held eg qf tr];
    destruct d as [sa ph le tot suc tmo crc [[rd rr eo er [tok|]]|] sm g rb eb cls];
    cbn; repeat (case_match; cbn; try reflexivity).
Qed.

Lemma transport_runs_view (cs : list Callback) (w : World) :
  callback_view (snd (transport_runs cs w)) = callback_view w.
Proof.
  revert w. induction cs as [|c cs IH]; intros w; [reflexivity|].
  cbn [transport_runs]. unfold bind. rewrite IH. apply deliver_view.
Qed.

Lemma view_parts (w w' : World) :
  callback_view w' = callback_view w →
  bus_view w' = bus_view w ∧ trace w' = trace w ∧
  totalRequests (this w') = totalRequests (this w) ∧
  successfulRequests (this w') = successfulRequests (this w) ∧
  timeouts (this w') = timeouts (this w) ∧
  ctx_ready w' = ctx_ready w.
Proof.
  unfold callback_view, bus_view. intros H. injection H. intros.
  repeat split; congruence.
Qed.

(** The steps are stated for one fixed environment. *)
Section Steps.
Variable e : Env.

Lemma acquire_fail (t : Z) (w : World) :
  acquirable e w = false →
  fst (acquireBusMutex e t w) = false ∧
  this (snd (acquireBusMutex e t w)) = this w ∧
  busHeld (snd (acquireBusMutex e t w)) = busHeld w ∧
  trace (snd (acquireBusMutex e t w))
    = trace w ++ (if has_bus_handle w then [EvBusTake false] else []).
Proof.
  unfold acquirable, has_bus_handle, acquireBusMutex, xSemaphoreTake_bus,
    ModbusRegistry.getBusMutex.
  run_monad. destruct w as [d ptr [dm mx bm rtu] mm held eg qf tr]. cbn.
  destruct mm, bm, (bus_free e), held; cbn;
    intros H; try discriminate H; rewrite ?app_nil_r; repeat split.
Qed.

Lemma acquire_ok (t : Z) (w : World) :
  acquirable e w = true →
  fst (acquireBusMutex e t w) = true ∧
  this (snd (acquireBusMutex e t w)) = this w ∧
  bus_view (snd (acquireBusMutex e t w)) = (true, true, registry w, this_ptr w) ∧
  busHeld w = false ∧
  trace (snd (acquireBusMutex e t w)) = trace w ++ [EvBusTake true].
Proof.
  unfold acquirable, has_bus_handle, acquireBusMutex, xSemaphoreTake_bus,
    ModbusRegistry.getBusMutex, bus_view.
  run_monad. destruct w as [d ptr [dm mx bm rtu] mm held eg qf tr]. cbn.
  destruct mm, bm, (bus_free e), held; cbn;
    intros H; try discriminate H; repeat split.
Qed.

Lemma ensure_facts (w : World) :
  bus_view (snd (ensureSyncReady e w)) = bus_view w ∧
  trace (snd (ensureSyncReady e w)) = trace w ∧
  totalRequests (this (snd (ensureSyncReady e w))) = totalRequests (this w) ∧
  timeouts (this (snd (ensureSyncReady e w))) = timeouts (this w) ∧
  lastError (this (snd (ensureSyncReady e w))) = lastError (this w) ∧
  sync_flags (snd (ensureSyncReady e w)) = flags_left e w.
Proof.
  unfold ensureSyncReady, flags_left, sync_flags, bus_view. run_monad.
  destruct (syncContext (this w)) as [c|] eqn:Ec; cbn.
  - destruct (syncMutex (this w)); cbn; rewrite ?Ec; repeat split.
  - destruct (sem_create_ok e); cbn; [|repeat split].
    destruct (syncMutex (this w)); cbn; repeat split.
Qed.

Lemma release_facts (w : World) :
  modbusMutex w = true →
  this (snd (releaseBusMutex w)) = this w ∧
  busHeld (snd (releaseBusMutex w)) = false ∧
  trace (snd (releaseBusMutex w)) = trace w ++ [EvBusGive].
Proof.
  unfold releaseBusMutex, xSemaphoreGive_bus. run_monad. intros ->. cbn.
  repeat split.
Qed.

Lemma send_facts (fc addr count : Z) (priority : ModbusPriority)
    (data : option (list Z)) (w : World) :
  let r := fst (sendRequestWithPriority e fc addr count priority data w) in
  let w' := snd (sendRequestWithPriority e fc addr count priority data w) in
  bus_view w' = bus_view w ∧
  syncContext (this w') = syncContext (this w) ∧
  timeouts (this w') = timeouts (this w) ∧
  ((ModbusRegistry.getModbusRTU (registry w) = false ∧ r = ESP_FAIL ∧ w' = w) ∨
   (ModbusRegistry.getModbusRTU (registry w) = true ∧
    totalRequests (this w') = incr32 (totalRequests (this w)) ∧
    ((r ≠ ESP_OK ∧ lastError (this w') = COMMUNICATION_ERROR ∧
      (trace w' = trace w ∨
       ∃ req, trace w' = trace w ++ [EvDispatch req false (sync_flags w)])) ∨
     (r = ESP_OK ∧ rtu_accepts e = true ∧
      lastError (this w') = lastError (this w) ∧
      ∃ req, trace w' = trace w ++ [EvDispatch req true (sync_flags w)])))).
Proof.
  unfold sendRequestWithPriority, rtu_call, bus_view. run_monad.
  destruct (ModbusRegistry.getModbusRTU (registry w)) eqn:Er; cbn;
    [|repeat split; left; repeat split].
  repeat (match goal with
          | |- context [if ?fc' =? ?k then _ else _] => destruct (fc' =? k)
          end);
    repeat (match goal with
            | |- context [match data with _ => _ end] => destruct data
            | |- context [if 0 <? count then _ else _] => destruct (0 <? count)
            | |- context [alloc_ok e] => destruct (alloc_ok e)
            end; cbn);
    destruct (rtu_accepts e); cbn;
    (split; [reflexivity|]); (split; [reflexivity|]); (split; [reflexivity|]);
    right; (split; [reflexivity|]); (split; [reflexivity|]);
    first
      [ right; repeat split; eexists; reflexivity
      | left; split; [discriminate|]; split; [reflexivity|];
        first [ left; reflexivity | right; eexists; reflexivity ] ].
Qed.

Lemma wait_facts (w : World) :
  let r := fst (waitForResponse e w) in
  let w' := snd (waitForResponse e w) in
  bus_view w' = bus_view w ∧
  totalRequests (this w') = totalRequests (this w) ∧
  ((ctx_ready w ≠ Some true ∧ r = Err NOT_INITIALIZED ∧ w' = w) ∨
   (ctx_ready w = Some true ∧
    trace w' = trace w ++ [EvWait (Some (false, false))] ∧
    (timeouts (this w') = timeouts (this w) ∨
     (timeouts (this w') = incr32 (timeouts (this w)) ∧ r = Err TIMEOUT ∧
      lastError (this w') = TIMEOUT)))).
Proof.
  unfold waitForResponse, xSemaphoreTake_sync, ctx_ready. run_monad.
  destruct (syncContext (this w)) as [c|] eqn:Ec; cbn;
    [|split; [reflexivity|split; [reflexivity|left; repeat split; discriminate]]].
  destruct (semaphore c) as [tok|] eqn:Es; cbn;
    [|split; [reflexivity|split; [reflexivity|left; repeat split; discriminate]]].
  match goal with
  | |- context [transport_runs ?cs ?w1] =>
      pose proof (view_parts _ _ (transport_runs_view cs w1)) as (Hb & Ht & Htot & _ & Hto & _);
      remember (snd (transport_runs cs w1)) as w2 eqn:Hw2; clear Hw2
  end.
  unfold bus_view, sync_flags in *. cbn in Hb, Ht, Htot, Hto.
  destruct (syncContext (this w2)) as [c2|] eqn:Ec2; cbn.
  - destruct (semaphore c2) as [[|]|] eqn:Es2; cbn; rewrite ?Ec2; cbn.
    + destruct (errorOccurred c2); cbn;
        [split; [exact Hb|split; [exact Htot|right; split; [reflexivity|split; [exact Ht|left; exact Hto]]]]|].
      destruct (responseReceived c2); cbn;
        [split; [exact Hb|split; [exact Htot|right; split; [reflexivity|split; [exact Ht|left; exact Hto]]]]|].
      split; [exact Hb|split; [exact Htot|right; split; [reflexivity|split; [exact Ht|]]]].
      right. rewrite Hto. repeat split.
    + split; [exact Hb|split; [exact Htot|right; split; [reflexivity|split; [exact Ht|]]]].
      right. rewrite Hto. repeat split.
    + split; [exact Hb|split; [exact Htot|right; split; [reflexivity|split; [exact Ht|]]]].
      right. rewrite Hto. repeat split.
  - split; [exact Hb|split; [exact Htot|right; split; [reflexivity|split; [exact Ht|]]]].
    right. rewrite Hto. repeat split.
Qed.

End Steps.

Lemma bus_view_parts (w : World) (h m : bool) (r : ModbusRegistry.t) (p : Z) :
  bus_view w = (h, m, r, p) → busHeld w = h ∧ modbusMutex w = m ∧ registry w = r.
Proof. unfold bus_view. intros [= -> -> -> _]. repeat split. Qed.

(** What one transaction does, whatever the environment answers.  The bus
    mutex is held afterwards exactly if it was held before; and either the
    mutex was not acquired and the device is untouched, or the trace grows
    by a take, the events [mid] of the dispatch and the wait, and a give. *)
Lemma transaction_outcome {A} (e : Env) (fc addr count : Z) (priority : ModbusPriority)
    (data : option (list Z)) (convert : list Z → A) (w : World) :
  let r := result_error (fst (transaction e fc addr count priority data convert w)) in
  let w' := snd (transaction e fc addr count priority data convert w) in
  let rtu := ModbusRegistry.getModbusRTU (registry w) in
  busHeld w' = busHeld w ∧
  ((acquirable e w = false ∧ r = Some MUTEX_ERROR ∧ this w' = this w ∧
    trace w' = trace w ++ (if has_bus_handle w then [EvBusTake false] else [])) ∨
   (acquirable e w = true ∧
    totalRequests (this w')
      = (if rtu then incr32 (totalRequests (this w)) else totalRequests (this w)) ∧
    ∃ mid, trace w' = trace w ++ [EvBusTake true] ++ mid ++ [EvBusGive] ∧
      ((mid = [] ∧ r = Some COMMUNICATION_ERROR ∧
        timeouts (this w') = timeouts (this w) ∧
        lastError (this w')
          = (if rtu then COMMUNICATION_ERROR else lastError (this w))) ∨
       (∃ req, mid = [EvDispatch req false (flags_left e w)] ∧ rtu = true ∧
          r = Some COMMUNICATION_ERROR ∧
          timeouts (this w') = timeouts (this w) ∧
          lastError (this w') = COMMUNICATION_ERROR) ∨
       (∃ req, mid = [EvDispatch req true (flags_left e w)] ∧ rtu = true ∧
          rtu_accepts e = true ∧ r = Some NOT_INITIALIZED ∧
          timeouts (this w') = timeouts (this w)) ∨
       (∃ req, mid = [EvDispatch req true (flags_left e w); EvWait (Some (false, false))] ∧
          rtu = true ∧ rtu_accepts e = true ∧
          (timeouts (this w') = timeouts (this w) ∨
           (timeouts (this w') = incr32 (timeouts (this w)) ∧ r = Some TIMEOUT ∧
            lastError (this w') = TIMEOUT)))))).
Proof.
  cbn zeta. unfold transaction, bind.
  destruct (acquirable e w) eqn:Ea.
  2: { destruct (acquire_fail e MODBUS_MUTEX_TIMEOUT_MS w Ea) as (Hr & Hthis & Hheld & Htr).
       rewrite Hr. cbn. split; [exact Hheld|]. left. repeat split; assumption. }
  destruct (acquire_ok e MODBUS_MUTEX_TIMEOUT_MS w Ea) as (Hr & Hthis & Hbv & Hfree & Htr).
  rewrite Hr. cbn [negb].
  set (w1 := snd (acquireBusMutex e MODBUS_MUTEX_TIMEOUT_MS w)) in *.
  assert (Hfl : flags_left e w1 = flags_left e w) by (unfold flags_left; by rewrite Hthis).
  destruct (ensure_facts e w1) as (Hb2 & Ht2 & Htot2 & Hto2 & Hle2 & Hfl2).
  set (w2 := snd (ensureSyncReady e w1)) in *.
  rewrite Hbv in Hb2. rewrite Hfl in Hfl2.
  destruct (send_facts e fc addr count priority data w2) as (Hb3 & Hc3 & Hto3 & Hs).
  cbn zeta in Hs.
  set (sent := fst (sendRequestWithPriority e fc addr count priority data w2)) in *.
  set (w3 := snd (sendRequestWithPriority e fc addr count priority data w2)) in *.
  rewrite Hb2 in Hb3. rewrite Hfl2 in Hs.
  destruct (bus_view_parts _ _ _ _ _ Hb2) as (_ & _ & Hreg2).
  rewrite Hreg2 in Hs.
  destruct (bus_view_parts _ _ _ _ _ Hb3) as (Hh3 & Hm3 & _).
  rewrite Hthis in Htot2, Hto2, Hle2.
  destruct Hs as [(Hrtu & Hres & Hw3)|(Hrtu & Htot3 & [(Hne & Hle3 & Htr3)|(Hok & Hacc & Hle3 & req & Htr3)])].
  - (* no transport *)
    rewrite Hres, bool_decide_eq_false_2 by discriminate.
    destruct (release_facts w3 Hm3) as (Hth4 & Hh4 & Htr4).
    unfold ret. cbn [negb fst snd result_error]. rewrite Hh4, Hfree. split; [reflexivity|]. right.
    split; [reflexivity|]. rewrite Hth4, Htr4, Hw3, Hrtu, Ht2, Htr, Htot2, Hto2, Hle2.
    split; [reflexivity|]. exists []. split; [by rewrite <- app_assoc|].
    left. repeat split.
  - (* the request was not accepted *)
    rewrite bool_decide_eq_false_2 by exact Hne.
    destruct (release_facts w3 Hm3) as (Hth4 & Hh4 & Htr4).
    unfold ret. cbn [negb fst snd result_error]. rewrite Hh4, Hfree. split; [reflexivity|]. right.
    split; [reflexivity|]. rewrite Hth4, Htr4, Hrtu, Htot3, Hto3, Hle3, Htot2, Hto2.
    split; [reflexivity|].
    destruct Htr3 as [Htr3|[req Htr3]]; rewrite Htr3, Ht2, Htr.
    + exists []. split; [by rewrite <- app_assoc|]. left. repeat split.
    + exists [EvDispatch req false (flags_left e w)].
      split; [by rewrite <- !app_assoc|]. right; left.
      exists req. repeat split.
  - (* the request was accepted *)
    rewrite bool_decide_eq_true_2 by exact Hok. cbn [negb].
    destruct (view_parts _ _ (transport_runs_view (cb_before_wait e) w3))
      as (Hb5 & Ht5 & Htot5 & _ & Hto5 & _).
    set (w5 := snd (transport_runs (cb_before_wait e) w3)) in *.
    destruct (wait_facts e w5) as (Hb6 & Htot6 & Hwait). cbn zeta in Hwait.
    set (res := fst (waitForResponse e w5)) in *.
    set (w6 := snd (waitForResponse e w5)) in *.
    rewrite Hb5, Hb3 in Hb6.
    destruct (bus_view_parts _ _ _ _ _ Hb6) as (_ & Hm6 & _).
    destruct (release_facts w6 Hm6) as (Hth7 & Hh7 & Htr7).
    assert (Hworld :
              snd ((match res with
                    | Ok d => ret (Ok (convert d))
                    | Err err => ret (Err err)
                    end : M (ModbusResult A)) (snd (releaseBusMutex w6)))
              = snd (releaseBusMutex w6)) by (destruct res; reflexivity).
    assert (Herr : result_error
              (fst ((match res with
                     | Ok d => ret (Ok (convert d))
                     | Err err => ret (Err err)
                     end : M (ModbusResult A)) (snd (releaseBusMutex w6))))
              = result_error res) by (destruct res; reflexivity).
    rewrite Herr, Hworld, Hh7, Hfree, Hth7, Htr7. split; [reflexivity|]. right.
    split; [reflexivity|]. rewrite Htot6, Htot5, Htot3, Htot2, Hrtu.
    split; [reflexivity|].
    destruct Hwait as [(_ & Hres & Hw6)|(_ & Htr6 & Hto6)].
    + rewrite Hw6, Ht5, Htr3, Ht2, Htr, Hres, Hto5, Hto3, Hto2.
      exists [EvDispatch req true (flags_left e w)].
      split; [by rewrite <- !app_assoc|]. right; right; left.
      exists req. repeat split. exact Hacc.
    + rewrite Htr6, Ht5, Htr3, Ht2, Htr.
      exists [EvDispatch req true (flags_left e w); EvWait (Some (false, false))].
      split; [by rewrite <- !app_assoc|]. right; right; right.
      exists req. split; [reflexivity|]. split; [reflexivity|]. split; [exact Hacc|].
      rewrite Hto5, Hto3, Hto2 in Hto6.
      destruct Hto6 as [Hsame|(Hinc & -> & Hlast)]; [by left|by right].
Qed.

Lemma with_value_facts {A} (f : A → Value) (m : M (ModbusResult A)) (w : World) :
  snd (with_value f m w) = snd (m w) ∧
  result_error (fst (with_value f m w)) = result_error (fst (m w)).
Proof.
  unfold with_value, bind, ret. cbn. split; [reflexivity|].
  destruct (fst (m w)); reflexivity.
Qed.

(** Each of the eight operations checks its parameters and then runs
    [transaction] at its own function code, payload and conversion. *)
Lemma transaction_unfold (e : Env) (c : Call) (w : World) :
  (out_of_limits c = true ∧ run_call e c w = (Err INVALID_PARAMETER, w)) ∨
  (out_of_limits c = false ∧
   ∃ (A : Type) (fc addr count : Z) (priority : ModbusPriority)
     (data : option (list Z)) (convert : list Z → A),
     snd (run_call e c w)
       = snd (transaction e fc addr count priority data convert w) ∧
     result_error (fst (run_call e c w))
       = result_error (fst (transaction e fc addr count priority data convert w))).
Proof.
  destruct c as [address count priority|address count priority|address count
                |address count|address value priority|address values
                |address value priority|address values];
    cbn [run_call out_of_limits].
  - unfold readHoldingRegistersWithPriority, MODBUS_MAX_REGISTER_COUNT.
    destruct ((count =? 0) || (count >? 125)); [by left|right; split; [done|]].
    exists (list Z), 0x03, address, count, priority, None, bytes_to_registers.
    apply with_value_facts.
  - unfold readInputRegistersWithPriority, MODBUS_MAX_REGISTER_COUNT.
    destruct ((count =? 0) || (count >? 125)); [by left|right; split; [done|]].
    exists (list Z), 0x04, address, count, priority, None, bytes_to_registers.
    apply with_value_facts.
  - unfold readCoils, MODBUS_MAX_COIL_COUNT.
    destruct ((count =? 0) || (count >? 2000)); [by left|right; split; [done|]].
    exists (list bool), 0x01, address, count, RELAY, None, (bytes_to_coils count).
    apply with_value_facts.
  - unfold readDiscreteInputs, MODBUS_MAX_COIL_COUNT.
    destruct ((count =? 0) || (count >? 2000)); [by left|right; split; [done|]].
    exists (list bool), 0x02, address, count, RELAY, None, (bytes_to_coils count).
    apply with_value_facts.
  - right; split; [done|].
    exists unit, 0x06, address, 1, priority, (Some [value]), (λ _, tt).
    apply with_value_facts.
  - unfold writeMultipleRegisters, MODBUS_MAX_WRITE_REGISTER_COUNT.
    destruct (bool_decide (values = []) || (Z.of_nat (length values) >? 123));
      [by left|right; split; [done|]].
    exists unit, 0x10, address, (to_uint16 (Z.of_nat (length values))), RELAY,
      (Some values), (λ _, tt).
    apply with_value_facts.
  - right; split; [done|].
    exists unit, 0x05, address, 1, priority, (Some [if value then 1 else 0]), (λ _, tt).
    apply with_value_facts.
  - unfold writeMultipleCoils, MODBUS_MAX_WRITE_COIL_COUNT.
    destruct (bool_decide (values = []) || (Z.of_nat (length values) >? 1968));
      [by left|right; split; [done|]].
    exists unit, 0x0F, address, (to_uint16 (Z.of_nat (length values))), RELAY,
      (Some (pack_coils values)), (λ _, tt).
    apply with_value_facts.
Qed.

Lemma emitted_of (e : Env) (c : Call) (w : World) (evs : list Event) :
  trace (snd (run_call e c w)) = trace w ++ evs → emitted e c w = evs.
Proof. unfold emitted. intros ->. apply drop_app_length. Qed.

(** The events a call can append: nothing, a failed take, or a take and a
    give around the dispatch and the wait. *)
Lemma emitted_shape (e : Env) (c : Call) (w : World) :
  trace (snd (run_call e c w)) = trace w ++ emitted e c w ∧
  (emitted e c w = [] ∨
   emitted e c w = [EvBusTake false] ∨
   ∃ mid, emitted e c w = EvBusTake true :: mid ++ [EvBusGive] ∧
     (mid = [] ∨
      (∃ req accepted, mid = [EvDispatch req accepted (flags_left e w)]) ∨
      (∃ req, mid = [EvDispatch req true (flags_left e w);
                     EvWait (Some (false, false))]))).
Proof.
  destruct (transaction_unfold e c w)
    as [(_ & Hrun)|(_ & A & fc & addr & count & prio & data & conv & Hw & Hr)].
  - assert (Htr : trace (snd (run_call e c w)) = trace w ++ [])
      by (rewrite Hrun, app_nil_r; reflexivity).
    rewrite (emitted_of _ _ _ _ Htr). split; [exact Htr|by left].
  - pose proof (transaction_outcome e fc addr count prio data conv w) as Hout.
    cbn zeta in Hout. rewrite <- Hw in Hout.
    destruct Hout as (_ & [(_ & _ & _ & Htr)|(_ & _ & mid & Htr & Hmid)]).
    + rewrite (emitted_of _ _ _ _ Htr). split; [exact Htr|].
      destruct (has_bus_handle w); [by right; left|by left].
    + rewrite (emitted_of _ _ _ _ Htr). split; [exact Htr|].
      right; right. exists mid. split; [reflexivity|].
      destruct Hmid as [(-> & _)|[(req & -> & _)|[(req & -> & _)|(req & -> & _)]]];
        eauto.
Qed.

(** ** The bus mutex *)

(** C1: for each of the eight operations and every outcome, the successful
    takes of the bus mutex during the call are matched one for one by
    gives, and the calling task holds the mutex after the call exactly if
    it held it before: a call never returns with a mutex it acquired. *)
Theorem bus_mutex_released (e : Env) (c : Call) (w : World) :
  trace (snd (run_call e c w)) = trace w ++ emitted e c w ∧
  count_events is_take (emitted e c w) = count_events is_give (emitted e c w) ∧
  (count_events is_take (emitted e c w) <= 1)%nat ∧
  busHeld (snd (run_call e c w)) = busHeld w.
Proof.
  destruct (emitted_shape e c w) as (Htr & Hshape).
  split; [exact Htr|].
  assert (Hheld : busHeld (snd (run_call e c w)) = busHeld w).
  { destruct (transaction_unfold e c w)
      as [(_ & ->)|(_ & A & fc & addr & count & prio & data & conv & -> & _)];
      [reflexivity|].
    apply (transaction_outcome e fc addr count prio data conv w). }
  destruct Hshape as [->|[->|(mid & -> & [->|[(req & acc & ->)|(req & ->)]])]];
    (split; [reflexivity|]; split; [|exact Hheld]); vm_compute; lia.
Qed.

(** ** Parameter limits *)

(** C2: a call outside the per-function limits returns
    [INVALID_PARAMETER] and leaves the whole world as it was, so the bus
    mutex is not touched and the transport is not called; a call inside
    the limits goes on to the bus mutex: its first event is the take, or,
    when there is no bus mutex at all, it fails with [MUTEX_ERROR]. *)
Theorem limits_fail_fast (e : Env) (c : Call) (w : World) :
  (out_of_limits c = true →
     run_call e c w = (Err INVALID_PARAMETER, w) ∧ emitted e c w = []) ∧
  (out_of_limits c = false →
     (has_bus_handle w = true → ∃ ok rest, emitted e c w = EvBusTake ok :: rest) ∧
     (has_bus_handle w = false →
        result_error (fst (run_call e c w)) = Some MUTEX_ERROR)).
Proof.
  destruct (transaction_unfold e c w)
    as [(Hout & Hrun)|(Hin & A & fc & addr & count & prio & data & conv & Hw & Hr)].
  - split; [|rewrite Hout; discriminate]. intros _. split; [exact Hrun|].
    apply emitted_of. rewrite Hrun, app_nil_r. reflexivity.
  - split; [rewrite Hin; discriminate|]. intros _.
    pose proof (transaction_outcome e fc addr count prio data conv w) as Hout.
    cbn zeta in Hout. rewrite <- Hw, <- Hr in Hout.
    destruct Hout as (_ & [(Ha & Herr & _ & Htr)|(Ha & _ & mid & Htr & _)]).
    + split.
      * intros Hh. rewrite Hh in Htr. rewrite (emitted_of _ _ _ _ Htr). eauto.
      * intros _. exact Herr.
    + split.
      * intros _. rewrite (emitted_of _ _ _ _ Htr). cbn. eauto.
      * intros Hh. unfold acquirable in Ha. rewrite Hh in Ha. discriminate.
Qed.

Lemma limits_fail_fast_witness :
  (run_call (env_of []) (WriteMultipleCoils 0 []) fresh_world
     = (Err INVALID_PARAMETER, fresh_world) ∧
   emitted (env_of []) (WriteMultipleCoils 0 []) fresh_world = []) ∧
  (∃ ok rest,
     emitted (env_of []) (ReadHoldingRegisters 0x0010 125 RELAY) fresh_world
       = EvBusTake ok :: rest) ∧
  result_error
    (fst (run_call (env_of []) (ReadHoldingRegisters 0x0010 125 RELAY) no_bus_world))
    = Some MUTEX_ERROR.
Proof.
  split; [|split].
  - apply (proj1 (limits_fail_fast (env_of []) (WriteMultipleCoils 0 []) fresh_world)).
    reflexivity.
  - apply (proj2 (limits_fail_fast (env_of []) (ReadHoldingRegisters 0x0010 125 RELAY)
                    fresh_world)); reflexivity.
  - apply (proj2 (limits_fail_fast (env_of []) (ReadHoldingRegisters 0x0010 125 RELAY)
                    no_bus_world)); reflexivity.
Defined.

(** ** Counters and the last error *)

(** C3, as stated, fails: a read of zero registers returns
    [INVALID_PARAMETER], yet the total-request counter stays at 0 and the
    last error stays [SUCCESS]. *)
Lemma invalid_call_is_not_counted :
  fst (run_call (env_of []) (ReadHoldingRegisters 0x0010 0 RELAY) fresh_world)
    = Err INVALID_PARAMETER ∧
  totalRequests
    (this (snd (run_call (env_of []) (ReadHoldingRegisters 0x0010 0 RELAY) fresh_world)))
    = 0 ∧
  totalRequests (this fresh_world) = 0 ∧
  lastError
    (this (snd (run_call (env_of []) (ReadHoldingRegisters 0x0010 0 RELAY) fresh_world)))
    = SUCCESS.
Proof. vm_compute. repeat split. Qed.

(** C3, amended: a call that fails parameter validation or fails to
    acquire the bus mutex returns an error and leaves the total-request
    counter as it was; a call that reaches the dispatch (parameters
    accepted, bus mutex acquired, transport set) increments the
    total-request counter by exactly one (modulo 2^32), and when the
    transport rejects its request it returns [COMMUNICATION_ERROR] and
    leaves that as the last error; and whenever the timeout counter moves,
    the call returns [TIMEOUT] and leaves that as the last error.  What the
    last error is after a failed validation or a failed take of the bus
    mutex is not part of the statement. *)
Theorem request_counter_and_last_error (e : Env) (c : Call) (w : World) :
  (out_of_limits c = true ∨ acquirable e w = false →
     is_Some (result_error (fst (run_call e c w))) ∧
     totalRequests (this (snd (run_call e c w))) = totalRequests (this w)) ∧
  (reaches_dispatch e c w = true →
     totalRequests (this (snd (run_call e c w))) = incr32 (totalRequests (this w)) ∧
     (rtu_accepts e = false →
        result_error (fst (run_call e c w)) = Some COMMUNICATION_ERROR ∧
        lastError (this (snd (run_call e c w))) = COMMUNICATION_ERROR)) ∧
  (timeouts (this (snd (run_call e c w))) ≠ timeouts (this w) →
     result_error (fst (run_call e c w)) = Some TIMEOUT ∧
     lastError (this (snd (run_call e c w))) = TIMEOUT).
Proof.
  unfold reaches_dispatch.
  destruct (transaction_unfold e c w)
    as [(Hout & Hrun)|(Hin & A & fc & addr & count & prio & data & conv & Hw & Hr)].
  - rewrite Hout, Hrun. cbn. split; [|split].
    + intros _. split; [eauto|reflexivity].
    + discriminate.
    + intros Hne. by destruct Hne.
  - rewrite Hin. cbn [negb andb].
    pose proof (transaction_outcome e fc addr count prio data conv w) as Hout.
    cbn zeta in Hout. rewrite <- Hw, <- Hr in Hout.
    destruct Hout as (_ & [(Ha & Herr & Hthis & _)|(Ha & Htot & mid & _ & Hmid)]);
      rewrite Ha; cbn [andb].
    + rewrite Hthis, Herr. split; [|split].
      * intros _. split; [eauto|reflexivity].
      * discriminate.
      * intros Hne. by destruct Hne.
    + split; [intros [Hf|Hf]; discriminate Hf|].
      rewrite Htot.
      destruct (ModbusRegistry.getModbusRTU (registry w)) eqn:Ertu.
      * destruct Hmid as [(_ & Herr & Hto & Hle)
                         |[(req & _ & _ & Herr & Hto & Hle)
                          |[(req & _ & _ & Hacc & Herr & Hto)
                           |(req & _ & _ & Hacc & Hto)]]].
        -- split; [by intros _|]. intros Hne. by destruct Hne.
        -- split; [by intros _|]. intros Hne. by destruct Hne.
        -- split; [intros _; split; [reflexivity|intros Hrej; congruence]|].
           intros Hne. by destruct Hne.
        -- split; [intros _; split; [reflexivity|intros Hrej; congruence]|].
           intros Hne.
           destruct Hto as [Hsame|(_ & Herr & Hle)]; [by destruct Hne|done].
      * split; [discriminate|].
        destruct Hmid as [(_ & Herr & Hto & Hle)
                         |[(req & _ & Hn & _)
                          |[(req & _ & Hn & _)|(req & _ & Hn & _)]]];
          try discriminate Hn.
        intros Hne. by destruct Hne.
Qed.

Lemma request_counter_and_last_error_witness :
  (is_Some (result_error
     (fst (run_call (env_of []) (ReadHoldingRegisters 0x0010 0 RELAY) fresh_world))) ∧
   totalRequests
     (this (snd (run_call (env_of []) (ReadHoldingRegisters 0x0010 0 RELAY) fresh_world)))
     = totalRequests (this fresh_world)) ∧
  (totalRequests
     (this (snd (run_call (mkEnv true true true true false [] [])
                   (ReadHoldingRegisters 0x0010 4 RELAY) fresh_world)))
     = incr32 (totalRequests (this fresh_world)) ∧
   result_error
     (fst (run_call (mkEnv true true true true false [] [])
             (ReadHoldingRegisters 0x0010 4 RELAY) fresh_world))
     = Some COMMUNICATION_ERROR ∧
   lastError
     (this (snd (run_call (mkEnv true true true true false [] [])
                   (ReadHoldingRegisters 0x0010 4 RELAY) fresh_world)))
     = COMMUNICATION_ERROR) ∧
  (result_error
     (fst (run_call (env_of []) (ReadHoldingRegisters 0x0010 4 RELAY) fresh_world))
     = Some TIMEOUT ∧
   lastError
     (this (snd (run_call (env_of []) (ReadHoldingRegisters 0x0010 4 RELAY) fresh_world)))
     = TIMEOUT).
Proof.
  split; [|split].
  - apply (request_counter_and_last_error (env_of [])
             (ReadHoldingRegisters 0x0010 0 RELAY) fresh_world).
    left. reflexivity.
  - destruct (request_counter_and_last_error (mkEnv true true true true false [] [])
                (ReadHoldingRegisters 0x0010 4 RELAY) fresh_world)
      as (_ & Hreach & _).
    destruct (Hreach eq_refl) as [Htot Hrej]. split; [exact Htot|].
    apply Hrej. reflexivity.
  - apply (request_counter_and_last_error (env_of [])
             (ReadHoldingRegisters 0x0010 4 RELAY) fresh_world).
    vm_compute. discriminate.
Defined.

(** ** The order of clearing and dispatching *)

(** C4: the code clears the two result flags after the dispatch, at the
    start of [waitForResponse], not before it.  So after a successful read
    the next read hands its request to the transport with the received flag
    still set; and a response that the transport delivers after the
    dispatch has returned and before the caller has entered
    [waitForResponse] is lost.  On a fresh sync context it is stored and
    then wiped by the clear, on a context with the stale flag [handleData]
    ignores it; either way the answered read returns [TIMEOUT] and counts a
    time-out, while the same response delivered during the wait is
    returned. *)
Theorem response_before_wait_is_lost :
  emitted (env_of []) (ReadHoldingRegisters 0x0010 4 RELAY) world_after_read
    = [EvBusTake true;
       EvDispatch (ReqReadHoldingRegisters 1 0x0010 4 RELAY) true (Some (true, false));
       EvWait (Some (false, false));
       EvBusGive] ∧
  fst (run_call env_early_response (ReadHoldingRegisters 0x0010 4 RELAY) fresh_world)
    = Err TIMEOUT ∧
  timeouts
    (this (snd (run_call env_early_response (ReadHoldingRegisters 0x0010 4 RELAY)
                  fresh_world))) = 1 ∧
  fst (run_call env_early_response (ReadHoldingRegisters 0x0010 4 RELAY)
         world_after_read)
    = Err TIMEOUT ∧
  fst (run_call (env_of [response_10_40]) (ReadHoldingRegisters 0x0010 4 RELAY)
         fresh_world)
    = Ok (VRegisters [10; 20; 30; 40]).
Proof. vm_compute. repeat split. Qed.

(** Where the clear stands in the code: in every call the request is
    dispatched with the result flags as the earlier transaction left them
    (or as [ensureSyncReady] created them), every wait starts with both
    flags clear, and the wait comes after an accepted dispatch of the same
    call. *)
Lemma clear_follows_dispatch (e : Env) (c : Call) (w : World) :
  (∀ req accepted flags,
     EvDispatch req accepted flags ∈ emitted e c w → flags = flags_left e w) ∧
  (∀ flags, EvWait flags ∈ emitted e c w → flags = Some (false, false)) ∧
  (∀ pre flags post,
     emitted e c w = pre ++ EvWait flags :: post →
     ∃ req, EvDispatch req true (flags_left e w) ∈ pre).
Proof.
  destruct (emitted_shape e c w)
    as (_ & [->|[->|(mid & -> & [->|[(req & acc & ->)|(req & ->)]])]]);
    (split; [|split]);
    try (intros req' accepted flags Hin; split_in Hin; congruence);
    try (intros flags Hin; split_in Hin; congruence).
  - intros pre flags post Heq. by destruct pre.
  - intros [|e1 [|e2 pre]] flags post Heq; discriminate.
  - intros [|e1 [|e2 [|e3 pre]]] flags post Heq; simplify_eq/=.
  - intros [|e1 [|e2 [|e3 [|e4 pre]]]] flags post Heq; simplify_eq/=.
  - intros [|e1 [|e2 [|e3 [|e4 [|e5 pre]]]]] flags post Heq; simplify_eq/=.
    exists req. apply elem_of_cons. right. apply elem_of_cons. by left.
Qed.

(** ** Responses of a queued device *)

(** C5, as stated, fails: on a queued device in [READY] with async mode
    enabled, a response that arrives during a synchronous read wakes the
    waiter (the read returns the decoded registers) and is also put in the
    queue; and a response that arrives while the sync context is idle sets
    the received flag and gives the semaphore. *)
Lemma async_response_wakes_sync_waiter :
  queued_part (this queued_world) = Some (mkQueuedPart (Some (mkQueue 10 [])) true) ∧
  initPhase (this queued_world) = READY ∧
  fst (readHoldingRegisters (env_of [response_10_40]) 0x0010 4 queued_world)
    = Ok [10; 20; 30; 40] ∧
  length (queued_items
            (snd (readHoldingRegisters (env_of [response_10_40]) 0x0010 4 queued_world)))
    = 1%nat ∧
  (responseReceived <$> syncContext (this queued_world_idle)) = Some false ∧
  (responseReceived <$>
     syncContext (this (snd (handleData 1 0x03 0x0010 (Some payload_10_40) 8 true 0
                               queued_world_idle)))) = Some true ∧
  (semaphore <$>
     syncContext (this (snd (handleData 1 0x03 0x0010 (Some payload_10_40) 8 true 0
                               queued_world_idle)))) = Some (Some true).
Proof. vm_compute. repeat split. Qed.

(** C5, amended: on a queued device with async mode enabled and a queue,
    outside [CONFIGURING] every response is offered to the queue as a copy
    (function code, address, at most 252 payload bytes, tick): it is
    appended when the queue has room, and otherwise the queue is unchanged
    and [onQueueFull] is called; in [CONFIGURING] the queue is untouched.
    In every phase the sync context is updated first, exactly as on a plain
    [ModbusDevice]: the queued variant adds the queue, it does not replace
    the synchronous path. *)
Theorem queued_response_routing (w : World) (q : Queue) (server fc start : Z)
    (data : option (list Z)) (len : Z) (sync_lock : bool) (tick : Z) :
  dclass (this w) = QueuedDevice (mkQueuedPart (Some q) true) →
  (initPhase (this w) ≠ CONFIGURING → (length (items q) < capacity q)%nat →
     queued_part (this (snd (handleData server fc start data len sync_lock tick w)))
       = Some (mkQueuedPart
                 (Some (mkQueue (capacity q)
                          (items q ++ [packet_of (fc mod 256) start data len tick])))
                 true) ∧
     queueFullCalls (snd (handleData server fc start data len sync_lock tick w))
       = queueFullCalls w) ∧
  (initPhase (this w) ≠ CONFIGURING → (capacity q <= length (items q))%nat →
     queued_part (this (snd (handleData server fc start data len sync_lock tick w)))
       = queued_part (this w) ∧
     queueFullCalls (snd (handleData server fc start data len sync_lock tick w))
       = S (queueFullCalls w)) ∧
  (initPhase (this w) = CONFIGURING →
     queued_part (this (snd (handleData server fc start data len sync_lock tick w)))
       = queued_part (this w) ∧
     queueFullCalls (snd (handleData server fc start data len sync_lock tick w))
       = queueFullCalls w) ∧
  syncContext (this (snd (handleData server fc start data len sync_lock tick w)))
    = syncContext
        (this (snd (handleData server fc start data len sync_lock tick (as_base w)))).
Proof.
  intros Hcls.
  unfold handleData, handleModbusResponse, QueuedModbusDevice_handleModbusResponse,
    ModbusDevice_handleModbusResponse, onQueueFull, xQueueSend, queued_part, as_base,
    packet_of, getInitPhase.
  unfold bind, ret, gets, modify_this, modify, when.
  destruct w as [d ptr reg mm held eg qf tr].
  destruct d as [sa ph le tot suc tmo crc ctx sm g rb eb cls].
  cbn in Hcls. subst cls. cbn -[Nat.ltb].
  destruct ctx as [[rd rr eo er sem]|], sm, sync_lock, data as [buf|];
    cbn -[Nat.ltb];
    try destruct rr; cbn -[Nat.ltb];
    try destruct ((0 <? len) || _); cbn -[Nat.ltb];
    destruct (Nat.ltb_spec (length (items q)) (capacity q)) as [Hroom|Hfull];
    destruct (bool_decide_reflect (ph = CONFIGURING)) as [Hconf|Hconf];
    cbn -[Nat.ltb];
    (split; [|split; [|split]]);
    try reflexivity;
    intros; try lia; try contradiction; split; reflexivity.
Qed.

Lemma queued_response_routing_witness :
  (queued_part
     (this (snd (handleData 1 0x03 0x0010 (Some payload_10_40) 8 true 0 queued_world)))
     = Some (mkQueuedPart
               (Some (mkQueue 10 [mkModbusPacket 0x03 0x0010 payload_10_40 8 0])) true) ∧
   queueFullCalls (snd (handleData 1 0x03 0x0010 (Some payload_10_40) 8 true 0
                          queued_world)) = 0%nat) ∧
  (queued_part
     (this (snd (handleData 1 0x03 0x0010 (Some payload_10_40) 8 true 0
                   (queued_world_in CONFIGURING))))
     = Some (mkQueuedPart (Some (mkQueue 10 [])) true) ∧
   queueFullCalls (snd (handleData 1 0x03 0x0010 (Some payload_10_40) 8 true 0
                          (queued_world_in CONFIGURING))) = 0%nat) ∧
  (queued_part
     (this (snd (handleData 1 0x03 0x0012 (Some [0x00; 0x01]) 2 true 5
                   queued_world_full)))
     = queued_part (this queued_world_full) ∧
   queueFullCalls (snd (handleData 1 0x03 0x0012 (Some [0x00; 0x01]) 2 true 5
                          queued_world_full))
     = S (queueFullCalls queued_world_full)).
Proof.
  split; [|split].
  - destruct (queued_response_routing queued_world (mkQueue 10 []) 1 0x03 0x0010
                (Some payload_10_40) 8 true 0 eq_refl) as (Hroom & _).
    apply Hroom; [discriminate|cbn; lia].
  - destruct (queued_response_routing (queued_world_in CONFIGURING) (mkQueue 10 [])
                1 0x03 0x0010 (Some payload_10_40) 8 true 0 eq_refl)
      as (_ & _ & Hconf & _).
    apply Hconf. reflexivity.
  - destruct (queued_response_routing queued_world_full
                (mkQueue 1 [mkModbusPacket 0x03 0x0010 payload_10_40 8 0])
                1 0x03 0x0012 (Some [0x00; 0x01]) 2 true 5 eq_refl)
      as (_ & Hfull & _).
    apply Hfull; [discriminate|cbn; lia].
Defined.

(** ** Decoding the response *)

Lemma release_this (w : World) : this (snd (releaseBusMutex w)) = this w.
Proof.
  unfold releaseBusMutex, xSemaphoreGive_bus. run_monad.
  destruct (modbusMutex w); reflexivity.
Qed.

Lemma wait_ok (e : Env) (w : World) (data : list Z) :
  fst (waitForResponse e w) = Ok data →
  responseData <$> syncContext (this (snd (waitForResponse e w))) = Some data.
Proof.
  unfold waitForResponse, xSemaphoreTake_sync. run_monad.
  destruct (syncContext (this w)) as [c|]; cbn; [|discriminate].
  destruct (semaphore c) as [tok|]; cbn; [|discriminate].
  match goal with
  | |- context [transport_runs ?cs ?w1] =>
      generalize (snd (transport_runs cs w1)); intros w2
  end.
  destruct (syncContext (this w2)) as [c2|] eqn:Ec2; cbn; [|discriminate].
  destruct (semaphore c2) as [[|]|]; cbn; rewrite ?Ec2; cbn; try discriminate.
  destruct (errorOccurred c2); cbn; [discriminate|].
  destruct (responseReceived c2); cbn; [|discriminate].
  intros [= <-]. reflexivity.
Qed.

(** A transaction that returns a value returns the conversion of the
    payload that [handleData] stored in the sync context. *)
Lemma transaction_ok {A} (e : Env) (fc addr count : Z) (priority : ModbusPriority)
    (data : option (list Z)) (convert : list Z → A) (w : World) (v : A) :
  fst (transaction e fc addr count priority data convert w) = Ok v →
  ∃ payload, v = convert payload ∧
    responseData <$>
      syncContext (this (snd (transaction e fc addr count priority data convert w)))
      = Some payload.
Proof.
  unfold transaction, bind.
  destruct (fst (acquireBusMutex e MODBUS_MUTEX_TIMEOUT_MS w)); cbn [negb];
    [|discriminate].
  match goal with
  | |- context [bool_decide ?P] => destruct (bool_decide P)
  end; cbn [negb]; [|discriminate].
  match goal with
  | |- context [waitForResponse e ?w5] =>
      pose proof (wait_ok e w5) as Hok;
      destruct (fst (waitForResponse e w5)) as [payload|err]
  end; unfold ret; cbn [fst snd]; [|discriminate].
  intros [= <-]. exists payload. split; [reflexivity|].
  rewrite release_this. apply Hok. reflexivity.
Qed.

(** A call that returns a value ran a transaction whose conversion is
    that of its operation. *)
Lemma with_value_ok (e : Env) (c : Call) (w : World) :
  ∀ v, fst (run_call e c w) = Ok v →
    (∃ payload,
       responseData <$> syncContext (this (snd (run_call e c w))) = Some payload ∧
       v = VRegisters (bytes_to_registers payload)) ∨
    (∃ count payload,
       (∃ address, c = ReadCoils address count ∨ c = ReadDiscreteInputs address count) ∧
       responseData <$> syncContext (this (snd (run_call e c w))) = Some payload ∧
       v = VCoils (bytes_to_coils count payload)) ∨
    v = VVoid.
Proof.
  intros v.
  destruct c as [address count priority|address count priority|address count
                |address count|address value priority|address values
                |address value priority|address values];
    cbn [run_call]; unfold with_value, bind, ret; cbn [fst snd].
  - unfold readHoldingRegistersWithPriority, MODBUS_MAX_REGISTER_COUNT.
    destruct ((count =? 0) || (count >? 125)); [discriminate|].
    pose proof (transaction_ok e 0x03 address count priority None bytes_to_registers w) as Hok.
    unfold transaction, sendRequestInternal in *.
    match type of Hok with
    | ∀ v, ?r = Ok v → _ => set (res := r) in *
    end.
    destruct res as [x|err]; [|discriminate].
    intros [= <-]. destruct (Hok x eq_refl) as (payload & -> & Hp). left. eauto.
  - unfold readInputRegistersWithPriority, MODBUS_MAX_REGISTER_COUNT.
    destruct ((count =? 0) || (count >? 125)); [discriminate|].
    pose proof (transaction_ok e 0x04 address count priority None bytes_to_registers w) as Hok.
    unfold transaction, sendRequestInternal in *.
    match type of Hok with
    | ∀ v, ?r = Ok v → _ => set (res := r) in *
    end.
    destruct res as [x|err]; [|discriminate].
    intros [= <-]. destruct (Hok x eq_refl) as (payload & -> & Hp). left. eauto.
  - unfold readCoils, MODBUS_MAX_COIL_COUNT.
    destruct ((count =? 0) || (count >? 2000)); [discriminate|].
    pose proof (transaction_ok e 0x01 address count RELAY None (bytes_to_coils count) w) as Hok.
    unfold transaction, sendRequestInternal in *.
    match type of Hok with
    | ∀ v, ?r = Ok v → _ => set (res := r) in *
    end.
    destruct res as [x|err]; [|discriminate].
    intros [= <-]. destruct (Hok x eq_refl) as (payload & -> & Hp).
    right; left. exists count, payload. eauto.
  - unfold readDiscreteInputs, MODBUS_MAX_COIL_COUNT.
    destruct ((count =? 0) || (count >? 2000)); [discriminate|].
    pose proof (transaction_ok e 0x02 address count RELAY None (bytes_to_coils count) w) as Hok.
    unfold transaction, sendRequestInternal in *.
    match type of Hok with
    | ∀ v, ?r = Ok v → _ => set (res := r) in *
    end.
    destruct res as [x|err]; [|discriminate].
    intros [= <-]. destruct (Hok x eq_refl) as (payload & -> & Hp).
    right; left. exists count, payload. eauto.
  - match goal with
    | |- context [match ?r with Ok _ => _ | Err _ => _ end] => destruct r
    end; [|discriminate]. intros [= <-]. by right; right.
  - match goal with
    | |- context [match ?r with Ok _ => _ | Err _ => _ end] => destruct r
    end; [|discriminate]. intros [= <-]. by right; right.
  - match goal with
    | |- context [match ?r with Ok _ => _ | Err _ => _ end] => destruct r
    end; [|discriminate]. intros [= <-]. by right; right.
  - match goal with
    | |- context [match ?r with Ok _ => _ | Err _ => _ end] => destruct r
    end; [|discriminate]. intros [= <-]. by right; right.
Qed.

(** A call that returns register values returns the conversion of the
    payload stored in the sync context, and one that returns coil values is
    a coil or discrete-input read and returns the bits of the stored payload
    up to its count. *)
Lemma returned_values_decode_the_payload (e : Env) (c : Call) (w : World) :
  (∀ values, fst (run_call e c w) = Ok (VRegisters values) →
     ∃ payload,
       responseData <$> syncContext (this (snd (run_call e c w))) = Some payload ∧
       values = bytes_to_registers payload) ∧
  (∀ values, fst (run_call e c w) = Ok (VCoils values) →
     ∃ address count payload,
       (c = ReadCoils address count ∨ c = ReadDiscreteInputs address count) ∧
       responseData <$> syncContext (this (snd (run_call e c w))) = Some payload ∧
       values = bytes_to_coils count payload).
Proof.
  split.
  - intros values Hok.
    destruct (with_value_ok e c w _ Hok)
      as [(payload & Hp & Hv)|[(count & payload & _ & Hp & Hv)|Hv]];
      [|discriminate Hv|discriminate Hv].
    injection Hv as ->. eauto.
  - intros values Hok.
    destruct (with_value_ok e c w _ Hok)
      as [(payload & Hp & Hv)|[(count & payload & (address & Hc) & Hp & Hv)|Hv]];
      [discriminate Hv| |discriminate Hv].
    injection Hv as ->. eauto 10.
Qed.

(** ** The error tracker *)

Module TrackerFacts.
Import ModbusErrorTracker.

Lemma find_from_Some (slots : list DeviceErrorStats) :
  ∀ i n a j, find_from i n a slots = Some j →
    (i <= j < n)%nat ∧
    ∃ s, slots !! (j - i)%nat = Some s ∧ initialized s = true ∧ address s = a.
Proof.
  induction slots as [|s rest IH]; intros i n a j; cbn [find_from]; [discriminate|].
  destruct (Nat.ltb_spec i n) as [Hlt|Hge]; [|discriminate].
  destruct (initialized s && (address s =? a)) eqn:Hm.
  - intros [= <-]. apply andb_true_iff in Hm as [Hi Ha]. apply Z.eqb_eq in Ha.
    split; [lia|]. exists s. rewrite Nat.sub_diag. eauto.
  - intros Hf. destruct (IH _ _ _ _ Hf) as (Hr & s' & Hl & Hi & Ha).
    split; [lia|]. exists s'. split; [|done].
    replace (j - i)%nat with (S (j - S i)) by lia. exact Hl.
Qed.

Lemma find_from_None (slots : list DeviceErrorStats) :
  ∀ i n a, find_from i n a slots = None →
    ∀ k s, slots !! k = Some s → (i + k < n)%nat → initialized s = true →
           address s ≠ a.
Proof.
  induction slots as [|s rest IH]; intros i n a; cbn [find_from]; [by intros _ []|].
  destruct (Nat.ltb_spec i n) as [Hlt|Hge]; [|intros _ k s' _ Hk; lia].
  destruct (initialized s && (address s =? a)) eqn:Hm; [discriminate|].
  intros Hf [|k] s' Hl Hk Hi.
  - injection Hl as <-. rewrite Hi in Hm. cbn in Hm. by apply Z.eqb_neq in Hm.
  - apply (IH _ _ _ Hf k s' Hl); [lia|exact Hi].
Qed.

(** Under the invariant, [findStats] yields the one claimed slot that
    carries the address. *)
Lemma findStats_spec (tr : t) (a : Z) (i : nat) :
  wf tr →
  findStats a tr = Some i ↔
  (i < numDevices tr)%nat ∧ ∃ s, deviceStats tr !! i = Some s ∧ address s = a.
Proof.
  intros (Hlen & Hn & Hinit & Hdist). unfold findStats. split.
  - intros Hf. destruct (find_from_Some _ _ _ _ _ Hf) as (Hr & s & Hl & _ & Ha).
    rewrite Nat.sub_0_r in Hl. split; [lia|eauto].
  - intros (Hi & s & Hl & Ha).
    destruct (find_from 0 (numDevices tr) a (deviceStats tr)) as [j|] eqn:Hf.
    + destruct (find_from_Some _ _ _ _ _ Hf) as (Hr & s' & Hl' & _ & Ha').
      rewrite Nat.sub_0_r in Hl'. f_equal.
      apply (Hdist j i s' s); try done; [lia|congruence].
    + exfalso. apply (find_from_None _ _ _ _ Hf i s Hl); [lia| |exact Ha].
      by apply (Hinit i).
Qed.

Lemma option_ext (x y : option nat) : (∀ i, x = Some i ↔ y = Some i) → x = y.
Proof.
  intros H. destruct x as [i|].
  - symmetry. by apply (H i).
  - destruct y as [j|]; [|done]. by apply (H j).
Qed.

Lemma find_from_alter (f : DeviceErrorStats → DeviceErrorStats) (k : nat)
    (slots : list DeviceErrorStats) :
  keeps_identity f →
  ∀ i n a, find_from i n a (alter f k slots) = find_from i n a slots.
Proof.
  intros Hf. revert k. induction slots as [|s rest IH]; intros k i n a; [done|].
  destruct k as [|k]; cbn [alter list_alter find_from].
  - destruct (Hf s) as [-> ->]. reflexivity.
  - fold (alter f k rest). rewrite IH. reflexivity.
Qed.

Lemma alter_lookup_inv (f : DeviceErrorStats → DeviceErrorStats) (k i : nat)
    (slots : list DeviceErrorStats) (s : DeviceErrorStats) :
  keeps_identity f → alter f k slots !! i = Some s →
  ∃ s0, slots !! i = Some s0 ∧ address s0 = address s ∧
        initialized s0 = initialized s.
Proof.
  intros Hf. rewrite list_lookup_alter. destruct (decide (k = i)) as [->|Hne].
  - destruct (slots !! i) as [s0|]; [|discriminate]. cbn. intros [= <-].
    exists s0. destruct (Hf s0) as [-> ->]. done.
  - intros Hl. by exists s.
Qed.

Lemma on_slot_wf (f : DeviceErrorStats → DeviceErrorStats) (k : nat) (tr : t) :
  keeps_identity f → wf tr → wf (on_slot f k tr).
Proof.
  intros Hf (Hlen & Hn & Hinit & Hdist). unfold on_slot, wf. cbn.
  split; [by rewrite length_alter|]. split; [exact Hn|]. split.
  - intros i s Hi Hl.
    destruct (alter_lookup_inv f k i _ s Hf Hl) as (s0 & Hl0 & _ & <-).
    by apply (Hinit i).
  - intros i j s1 s2 Hi Hj Hl1 Hl2 Ha.
    destruct (alter_lookup_inv f k i _ s1 Hf Hl1) as (t1 & Ht1 & Ha1 & _).
    destruct (alter_lookup_inv f k j _ s2 Hf Hl2) as (t2 & Ht2 & Ha2 & _).
    apply (Hdist i j t1 t2); try done. congruence.
Qed.

Lemma on_slot_find (f : DeviceErrorStats → DeviceErrorStats) (k : nat) (tr : t) (a : Z) :
  keeps_identity f → findStats a (on_slot f k tr) = findStats a tr.
Proof. intros Hf. unfold findStats, on_slot. cbn. by apply find_from_alter. Qed.

(** Claiming a slot for an untracked device. *)
Lemma create_facts (tr : t) (a : Z) :
  wf tr → findStats a tr = None →
  (numDevices tr < MODBUS_ERROR_TRACKER_MAX_DEVICES)%nat →
  let tr' := mk (<[numDevices tr := mkStats a 0 0 0 0 0 0 0 true]> (deviceStats tr))
                (S (numDevices tr)) in
  wf tr' ∧ findStats a tr' = Some (numDevices tr) ∧
  (∀ a', a' ≠ a → findStats a' tr' = findStats a' tr).
Proof.
  intros Hwf Hnone Hroom tr'.
  pose proof Hwf as (Hlen & Hn & Hinit & Hdist).
  assert (Hfresh : ∀ j s, (j < numDevices tr)%nat → deviceStats tr !! j = Some s →
                          address s ≠ a).
  { intros j s Hj Hl. apply (find_from_None _ _ _ _ Hnone j s Hl); [lia|].
    by apply (Hinit j). }
  assert (Hlook : ∀ i s, (i < S (numDevices tr))%nat → deviceStats tr' !! i = Some s →
            (i = numDevices tr ∧ s = mkStats a 0 0 0 0 0 0 0 true) ∨
            ((i < numDevices tr)%nat ∧ deviceStats tr !! i = Some s)).
  { intros i s Hi Hl. subst tr'. cbn in Hl.
    destruct (decide (i = numDevices tr)) as [->|Hne].
    - left. rewrite list_lookup_insert_eq in Hl by lia. by injection Hl as <-.
    - right. rewrite list_lookup_insert_ne in Hl by done. split; [lia|done]. }
  assert (Hwf' : wf tr').
  { split; [subst tr'; cbn; by rewrite length_insert|].
    split; [subst tr'; cbn; lia|]. split.
    - intros i s Hi Hl. destruct (Hlook i s Hi Hl) as [(_ & ->)|(Hi' & Hl')];
        [done|by apply (Hinit i)].
    - intros i j s1 s2 Hi Hj Hl1 Hl2 Ha.
      destruct (Hlook i s1 Hi Hl1) as [(-> & ->)|(Hi' & Hl1')];
        destruct (Hlook j s2 Hj Hl2) as [(-> & ->)|(Hj' & Hl2')]; try done.
      + exfalso. by apply (Hfresh j s2).
      + exfalso. by apply (Hfresh i s1).
      + by apply (Hdist i j s1 s2). }
  split; [exact Hwf'|]. split.
  - apply (findStats_spec tr' a _ Hwf'). split; [subst tr'; cbn; lia|].
    exists (mkStats a 0 0 0 0 0 0 0 true). split; [|done].
    subst tr'. cbn. apply list_lookup_insert_eq. lia.
  - intros a' Hne. apply option_ext. intros i.
    rewrite (findStats_spec tr' a' i Hwf'), (findStats_spec tr a' i Hwf). split.
    + intros (Hi & s & Hl & Ha).
      destruct (Hlook i s Hi Hl) as [(_ & ->)|(Hi' & Hl')]; [by destruct Hne|eauto].
    + intros (Hi & s & Hl & Ha). split; [subst tr'; cbn; lia|].
      exists s. split; [|done]. subst tr'. cbn.
      rewrite list_lookup_insert_ne by lia. done.
Qed.

(** What finding or claiming the slot and writing [f] to it does. *)
Lemma touch_facts (f : DeviceErrorStats → DeviceErrorStats) (a : Z) (tr : t) :
  keeps_identity f → wf tr →
  wf (tracker_touch f a tr) ∧
  (numDevices tr <= numDevices (tracker_touch f a tr))%nat ∧
  (∀ a', a' ≠ a → stats_of a' (tracker_touch f a tr) = stats_of a' tr) ∧
  (trackable a tr →
     stats_of a (tracker_touch f a tr)
       = Some (f (default (mkStats a 0 0 0 0 0 0 0 true) (stats_of a tr)))) ∧
  (¬ trackable a tr → tracker_touch f a tr = tr).
Proof.
  intros Hf Hwf. unfold tracker_touch, findOrCreateStats, trackable, isDeviceTracked.
  destruct (findStats a tr) as [i|] eqn:Hfind.
  - (* the device is tracked *)
    pose proof (proj1 (findStats_spec tr a i Hwf) Hfind) as (Hi & s & Hl & Ha).
    split; [by apply on_slot_wf|]. split; [cbn; lia|]. split; [|split].
    + intros a' Hne. unfold stats_of. rewrite on_slot_find by done.
      destruct (findStats a' tr) as [j|] eqn:Hfind'; [|done].
      pose proof (proj1 (findStats_spec tr a' j Hwf) Hfind') as (Hj & s' & Hl' & Ha').
      cbn. apply list_lookup_alter_ne. intros ->. congruence.
    + intros _. unfold stats_of. rewrite on_slot_find, Hfind by done. cbn.
      rewrite list_lookup_alter_eq, Hl. reflexivity.
    + intros Hnot. destruct Hnot. by left.
  - destruct (Nat.ltb_spec (numDevices tr) MODBUS_ERROR_TRACKER_MAX_DEVICES)
      as [Hroom|Hfull].
    + (* a slot is claimed *)
      destruct (create_facts tr a Hwf Hfind Hroom) as (Hwf' & Hnew & Hother).
      cbn zeta in *.
      set (tr' := mk (<[numDevices tr := mkStats a 0 0 0 0 0 0 0 true]> (deviceStats tr))
                     (S (numDevices tr))) in *.
      split; [by apply on_slot_wf|]. split; [cbn; lia|]. split; [|split].
      * intros a' Hne. unfold stats_of. rewrite on_slot_find, Hother by done.
        destruct (findStats a' tr) as [j|] eqn:Hfind'; [|done].
        pose proof (proj1 (findStats_spec tr a' j Hwf) Hfind') as (Hj & s' & Hl' & Ha').
        cbn. rewrite list_lookup_alter_ne by lia.
        rewrite list_lookup_insert_ne by lia. done.
      * intros _. unfold stats_of. rewrite on_slot_find, Hnew, Hfind by done. cbn.
        rewrite list_lookup_alter_eq, list_lookup_insert_eq; [done|].
        destruct Hwf as (-> & _). exact Hroom.
      * intros Hnot. destruct Hnot. by right.
    + (* the array is full *)
      split; [exact Hwf|]. split; [lia|]. split; [done|]. split; [|done].
      intros [Ht|Hr]; [discriminate|lia].
Qed.

Lemma bump_keeps (category : ErrorCategory) (now : Z) : keeps_identity (bump category now).
Proof. intros s. destruct category; split; reflexivity. Qed.

Lemma succeed_keeps : keeps_identity succeed.
Proof. intros s. split; reflexivity. Qed.

Lemma zero_keeps : keeps_identity zero.
Proof. intros s. split; reflexivity. Qed.

Lemma resetAll_from_lookup (slots : list DeviceErrorStats) :
  ∀ i n k, resetAll_from i n slots !! k
    = (λ s, if (i + k <? n)%nat && initialized s then zero s else s) <$> slots !! k.
Proof.
  induction slots as [|s rest IH]; intros i n k; [done|]. cbn [resetAll_from].
  destruct (Nat.ltb_spec i n) as [Hlt|Hge].
  - destruct k as [|k]; cbn [lookup list_lookup fmap option_fmap option_map].
    + rewrite Nat.add_0_r. destruct (Nat.ltb_spec i n); [|lia].
      by destruct (initialized s).
    + fold (resetAll_from (S i) n rest !! k). fold (rest !! k).
      rewrite IH. by replace (S i + k)%nat with (i + S k)%nat by lia.
  - destruct ((s :: rest) !! k) as [s'|] eqn:Hl; [|done].
    cbn [fmap option_fmap option_map].
    by destruct (Nat.ltb_spec (i + k) n); [lia|].
Qed.

Lemma find_from_resetAll (slots : list DeviceErrorStats) :
  ∀ i n m a, find_from i n a (resetAll_from i m slots) = find_from i n a slots.
Proof.
  induction slots as [|s rest IH]; intros i n m a; [done|]. cbn [resetAll_from].
  destruct (i <? m)%nat; [|done]. cbn [find_from]. rewrite IH.
  destruct (initialized s) eqn:Hi; [|by rewrite Hi].
  cbn [zero initialized address]. by rewrite Hi.
Qed.

Lemma resetAll_find (tr : t) (a : Z) : findStats a (resetAll tr) = findStats a tr.
Proof. unfold findStats, resetAll. cbn. apply find_from_resetAll. Qed.

Lemma resetAll_stats (tr : t) (a : Z) :
  stats_of a (resetAll tr) = zero <$> stats_of a tr.
Proof.
  unfold stats_of. rewrite resetAll_find. unfold findStats.
  destruct (find_from 0 (numDevices tr) a (deviceStats tr)) as [i|] eqn:Hf; [|done].
  destruct (find_from_Some _ _ _ _ _ Hf) as (Hr & s & Hl & Hi & Ha).
  rewrite Nat.sub_0_r in Hl. unfold resetAll. cbn [deviceStats].
  rewrite resetAll_from_lookup, Hl. cbn [fmap option_fmap option_map Nat.add].
  destruct (Nat.ltb_spec i (numDevices tr)); [|lia]. by rewrite Hi.
Qed.

Lemma resetAll_wf (tr : t) : wf tr → wf (resetAll tr).
Proof.
  intros (Hlen & Hn & Hinit & Hdist).
  assert (Hinv : ∀ i s, resetAll_from 0 (numDevices tr) (deviceStats tr) !! i = Some s →
            ∃ s0, deviceStats tr !! i = Some s0 ∧ address s0 = address s ∧
                  initialized s0 = initialized s).
  { intros i s. rewrite resetAll_from_lookup.
    destruct (deviceStats tr !! i) as [s0|]; [|discriminate].
    cbn [fmap option_fmap option_map]. intros [= <-].
    exists s0. split; [done|].
    by destruct ((i <? numDevices tr)%nat && initialized s0). }
  unfold wf, resetAll. cbn. split.
  - rewrite <- Hlen. apply Nat.le_antisymm.
    + apply Nat.nlt_ge. intros Hlt. apply lookup_lt_is_Some_2 in Hlt as [s Hs].
      rewrite resetAll_from_lookup in Hs. rewrite lookup_ge_None_2 in Hs; [done|lia].
    + apply Nat.nlt_ge. intros Hlt. apply lookup_lt_is_Some_2 in Hlt as [s Hs].
      pose proof (resetAll_from_lookup (deviceStats tr) 0 (numDevices tr)
                    (length (resetAll_from 0 (numDevices tr) (deviceStats tr)))) as Hl.
      rewrite Hs in Hl. rewrite lookup_ge_None_2 in Hl; [done|lia].
  - split; [exact Hn|]. split.
    + intros i s Hi Hl. destruct (Hinv i s Hl) as (s0 & Hl0 & _ & <-).
      by apply (Hinit i).
    + intros i j s1 s2 Hi Hj Hl1 Hl2 Ha.
      destruct (Hinv i s1 Hl1) as (t1 & Ht1 & Ha1 & _).
      destruct (Hinv j s2 Hl2) as (t2 & Ht2 & Ha2 & _).
      apply (Hdist i j t1 t2); try done. congruence.
Qed.

Lemma init_wf : wf init.
Proof.
  split; [reflexivity|]. split; [cbn; unfold MODBUS_ERROR_TRACKER_MAX_DEVICES; lia|].
  split; intros; cbn in *; lia.
Qed.

Lemma step_wf (tr : t) (op : Op) : wf tr → wf (step tr op).
Proof.
  intros Hwf. destruct op as [a c now|a|a|]; cbn [step].
  - apply (touch_facts (bump c now) a tr (bump_keeps c now) Hwf).
  - apply (touch_facts succeed a tr succeed_keeps Hwf).
  - apply (touch_facts zero a tr zero_keeps Hwf).
  - by apply resetAll_wf.
Qed.

Lemma fold_wf (ops : list Op) : ∀ tr, wf tr → wf (fold_left step ops tr).
Proof.
  induction ops as [|op ops IH]; intros tr Hwf; [done|].
  cbn [fold_left]. apply IH. by apply step_wf.
Qed.

Lemma run_wf (ops : list Op) : wf (run ops).
Proof. apply fold_wf, init_wf. Qed.

Lemma tracked_stats (tr : t) (a : Z) :
  isDeviceTracked a tr = true ↔ is_Some (stats_of a tr).
Proof.
  unfold isDeviceTracked, stats_of, findStats.
  destruct (find_from 0 (numDevices tr) a (deviceStats tr)) as [i|] eqn:Hf.
  - destruct (find_from_Some _ _ _ _ _ Hf) as (_ & s & Hl & _).
    rewrite Nat.sub_0_r in Hl. rewrite Hl. split; eauto.
  - split; [discriminate|]. by intros [? ?].
Qed.

Lemma stats_address (tr : t) (a : Z) (s : DeviceErrorStats) :
  stats_of a tr = Some s → address s = a ∧ initialized s = true.
Proof.
  unfold stats_of, findStats.
  destruct (find_from 0 (numDevices tr) a (deviceStats tr)) as [i|] eqn:Hf; [|done].
  destruct (find_from_Some _ _ _ _ _ Hf) as (_ & s' & Hl & Hi & Ha).
  rewrite Nat.sub_0_r in Hl. rewrite Hl. by intros [= <-].
Qed.

Lemma step_keeps_tracked (tr : t) (op : Op) (a : Z) :
  wf tr → isDeviceTracked a tr = true → isDeviceTracked a (step tr op) = true.
Proof.
  intros Hwf Ht.
  assert (Htouch : ∀ f b, keeps_identity f →
            isDeviceTracked a (tracker_touch f b tr) = true).
  { intros f b Hf. destruct (touch_facts f b tr Hf Hwf) as (_ & _ & Hoth & Hsame & _).
    apply tracked_stats. destruct (decide (a = b)) as [->|Hne].
    - rewrite Hsame by (by left). eauto.
    - rewrite Hoth by done. by apply tracked_stats. }
  destruct op as [b c now|b|b|]; cbn [step].
  - apply (Htouch _ b (bump_keeps c now)).
  - apply (Htouch _ b succeed_keeps).
  - apply (Htouch _ b zero_keeps).
  - unfold isDeviceTracked in *. by rewrite resetAll_find.
Qed.

Lemma step_count (tr : t) (op : Op) :
  wf tr → (numDevices tr <= numDevices (step tr op))%nat.
Proof.
  intros Hwf. destruct op as [a c now|a|a|]; cbn [step].
  - apply (touch_facts (bump c now) a tr (bump_keeps c now) Hwf).
  - apply (touch_facts succeed a tr succeed_keeps Hwf).
  - apply (touch_facts zero a tr zero_keeps Hwf).
  - reflexivity.
Qed.

Lemma run_snoc (ops : list Op) (op : Op) : run (ops ++ [op]) = step (run ops) op.
Proof. unfold run. by rewrite fold_left_app. Qed.

Lemma total_bump (category : ErrorCategory) (now : Z) (s : DeviceErrorStats) :
  add32 (add32 (add32 (add32 (crcErrors (bump category now s))
                             (timeouts (bump category now s)))
                      (invalidData (bump category now s)))
               (deviceErrors (bump category now s)))
        (otherErrors (bump category now s))
  = incr32 (add32 (add32 (add32 (add32 (crcErrors s) (timeouts s)) (invalidData s))
                         (deviceErrors s)) (otherErrors s)).
Proof.
  destruct category; cbn [bump crcErrors timeouts invalidData deviceErrors otherErrors];
    unfold add32, incr32; change (2 ^ 32) with 4294967296;
    Z.div_mod_to_equations; lia.
Qed.

Lemma tracker_two_wf : wf tracker_two.
Proof. apply run_wf. Qed.

Lemma tracker_full_wf : wf tracker_full.
Proof. apply run_wf. Qed.

(** X1: whatever sequence of [recordError], [recordSuccess], [resetDevice]
    and [resetAll] calls one task makes from program start, the tracker
    keeps its eight slots, claims at most eight of them, the claimed slots
    are initialised and carry pairwise different addresses, and a further
    call never lowers the count of tracked devices nor forgets a tracked
    device. *)
Theorem tracker_invariant (ops : list Op) (op : Op) (a : Z) :
  wf (run ops) ∧
  (getTrackedDeviceCount (run ops) <= MODBUS_ERROR_TRACKER_MAX_DEVICES)%nat ∧
  (getTrackedDeviceCount (run ops) <= getTrackedDeviceCount (run (ops ++ [op])))%nat ∧
  (isDeviceTracked a (run ops) = true →
   isDeviceTracked a (run (ops ++ [op])) = true).
Proof.
  pose proof (run_wf ops) as Hwf. rewrite run_snoc.
  split; [exact Hwf|]. split; [apply Hwf|]. split.
  - by apply step_count.
  - by apply step_keeps_tracked.
Qed.

Lemma tracker_invariant_witness :
  isDeviceTracked 1 (run [OpError 1 Cat_CRC_ERROR 100]) = true ∧
  isDeviceTracked 1 (run ([OpError 1 Cat_CRC_ERROR 100] ++ [OpResetAll])) = true.
Proof.
  split; [reflexivity|].
  apply (tracker_invariant [OpError 1 Cat_CRC_ERROR 100] OpResetAll 1).
  reflexivity.
Defined.

(** X2: [recordError] on a device that is tracked, or for which a slot is
    left, adds one (modulo 2^32) to the counter of the given category and to
    the total, leaves the other categories and the success count as they
    were, stamps the time of the call, and changes no other device. *)
Theorem recordError_effect (a : Z) (category : ErrorCategory) (now : Z) (tr : t) :
  wf tr → trackable a tr →
  isDeviceTracked a (recordError a category now tr) = true ∧
  getCategory category a (recordError a category now tr)
    = incr32 (getCategory category a tr) ∧
  (∀ c', c' ≠ category →
     getCategory c' a (recordError a category now tr) = getCategory c' a tr) ∧
  getTotalErrors a (recordError a category now tr) = incr32 (getTotalErrors a tr) ∧
  getSuccessCount a (recordError a category now tr) = getSuccessCount a tr ∧
  getLastErrorTime a (recordError a category now tr) = now ∧
  (∀ a', a' ≠ a → stats_of a' (recordError a category now tr) = stats_of a' tr).
Proof.
  intros Hwf Htr.
  destruct (touch_facts (bump category now) a tr (bump_keeps category now) Hwf)
    as (_ & _ & Hoth & Hsame & _).
  specialize (Hsame Htr). change (tracker_touch (bump category now) a tr)
    with (recordError a category now tr) in *.
  split; [apply tracked_stats; rewrite Hsame; eauto|].
  unfold getCategory, getTotalErrors, getSuccessCount, getLastErrorTime,
    getCrcErrors, getTimeouts, getInvalidDataErrors, getDeviceErrors, getOtherErrors.
  rewrite Hsame.
  destruct (stats_of a tr) as [s|]; cbn [default].
  - split; [by destruct category|]. split; [intros c' Hne; by destruct category, c'|].
    split; [apply total_bump|]. split; [by destruct category|].
    split; [by destruct category|exact Hoth].
  - split; [by destruct category|]. split; [intros c' Hne; by destruct category, c'|].
    split; [by destruct category|]. split; [by destruct category|].
    split; [by destruct category|exact Hoth].
Qed.

Lemma recordError_effect_witness :
  getCategory Cat_TIMEOUT 1 (recordError 1 Cat_TIMEOUT 300 tracker_two) = 2 ∧
  getTotalErrors 1 (recordError 1 Cat_TIMEOUT 300 tracker_two) = 3 ∧
  getCategory Cat_CRC_ERROR 3 (recordError 3 Cat_CRC_ERROR 300 tracker_two) = 1.
Proof.
  pose proof (recordError_effect 1 Cat_TIMEOUT 300 tracker_two tracker_two_wf
                (or_introl eq_refl)) as (_ & H1 & _ & H2 & _).
  assert (Hroom : trackable 3 tracker_two) by (right; vm_compute; lia).
  pose proof (recordError_effect 3 Cat_CRC_ERROR 300 tracker_two tracker_two_wf Hroom)
    as (_ & H3 & _).
  rewrite H1, H2, H3. by vm_compute.
Defined.

(** X3: [recordSuccess] on a device that is tracked, or for which a slot is
    left, adds one (modulo 2^32) to its success count and leaves every error
    counter, the time of the last error and every other device as they
    were. *)
Theorem recordSuccess_effect (a : Z) (tr : t) :
  wf tr → trackable a tr →
  isDeviceTracked a (recordSuccess a tr) = true ∧
  getSuccessCount a (recordSuccess a tr) = incr32 (getSuccessCount a tr) ∧
  (∀ c, getCategory c a (recordSuccess a tr) = getCategory c a tr) ∧
  getTotalErrors a (recordSuccess a tr) = getTotalErrors a tr ∧
  getLastErrorTime a (recordSuccess a tr) = getLastErrorTime a tr ∧
  (∀ a', a' ≠ a → stats_of a' (recordSuccess a tr) = stats_of a' tr).
Proof.
  intros Hwf Htr.
  destruct (touch_facts succeed a tr succeed_keeps Hwf) as (_ & _ & Hoth & Hsame & _).
  specialize (Hsame Htr).
  change (tracker_touch succeed a tr) with (recordSuccess a tr) in *.
  split; [apply tracked_stats; rewrite Hsame; eauto|].
  unfold getCategory, getTotalErrors, getSuccessCount, getLastErrorTime,
    getCrcErrors, getTimeouts, getInvalidDataErrors, getDeviceErrors, getOtherErrors.
  rewrite Hsame.
  destruct (stats_of a tr) as [s|]; cbn [default];
    (split; [done|]); (split; [by intros []|]); (split; [done|]);
    (split; [done|exact Hoth]).
Qed.

Lemma recordSuccess_effect_witness :
  getSuccessCount 2 (recordSuccess 2 tracker_two) = 2 ∧
  getTotalErrors 2 (recordSuccess 2 tracker_two) = 0.
Proof.
  pose proof (recordSuccess_effect 2 tracker_two tracker_two_wf (or_introl eq_refl))
    as (_ & H1 & _ & H2 & _).
  rewrite H1, H2. by vm_compute.
Defined.

(** X4: [resetDevice] on a device that is tracked, or for which a slot is
    left, leaves that device tracked with every counter and the time of the
    last error at zero; so it claims a slot for a device never seen before.
    No other device changes. *)
Theorem resetDevice_effect (a : Z) (tr : t) :
  wf tr → trackable a tr →
  stats_of a (resetDevice a tr) = Some (mkStats a 0 0 0 0 0 0 0 true) ∧
  isDeviceTracked a (resetDevice a tr) = true ∧
  getTotalErrors a (resetDevice a tr) = 0 ∧
  getSuccessCount a (resetDevice a tr) = 0 ∧
  getLastErrorTime a (resetDevice a tr) = 0 ∧
  (∀ a', a' ≠ a → stats_of a' (resetDevice a tr) = stats_of a' tr).
Proof.
  intros Hwf Htr.
  destruct (touch_facts zero a tr zero_keeps Hwf) as (_ & _ & Hoth & Hsame & _).
  specialize (Hsame Htr).
  change (tracker_touch zero a tr) with (resetDevice a tr) in *.
  assert (Hz : stats_of a (resetDevice a tr) = Some (mkStats a 0 0 0 0 0 0 0 true)).
  { rewrite Hsame. destruct (stats_of a tr) as [s|] eqn:Hs; [|done].
    destruct (stats_address _ _ _ Hs) as [Ha Hi]. cbn. unfold zero.
    by rewrite Ha, Hi. }
  split; [exact Hz|]. split; [apply tracked_stats; rewrite Hz; eauto|].
  unfold getTotalErrors, getSuccessCount, getLastErrorTime. rewrite Hz.
  repeat split; try reflexivity. exact Hoth.
Qed.

Lemma resetDevice_effect_witness :
  getTotalErrors 1 (resetDevice 1 tracker_two) = 0 ∧
  isDeviceTracked 7 tracker_two = false ∧
  isDeviceTracked 7 (resetDevice 7 tracker_two) = true.
Proof.
  pose proof (resetDevice_effect 1 tracker_two tracker_two_wf (or_introl eq_refl))
    as (_ & _ & H1 & _).
  assert (Hroom : trackable 7 tracker_two) by (right; vm_compute; lia).
  pose proof (resetDevice_effect 7 tracker_two tracker_two_wf Hroom) as (_ & H2 & _).
  split; [exact H1|]. split; [reflexivity|exact H2].
Defined.

(** X5: once eight devices are tracked, [recordError], [recordSuccess] and
    [resetDevice] for a ninth address change nothing at all, and every
    getter answers 0 for that address: its errors are silently dropped. *)
Theorem full_tracker_drops (a : Z) (category : ErrorCategory) (now : Z) (tr : t) :
  isDeviceTracked a tr = false →
  numDevices tr = MODBUS_ERROR_TRACKER_MAX_DEVICES →
  recordError a category now tr = tr ∧
  recordSuccess a tr = tr ∧
  resetDevice a tr = tr ∧
  getTotalErrors a (recordError a category now tr) = 0 ∧
  getSuccessCount a (recordSuccess a tr) = 0.
Proof.
  unfold isDeviceTracked. intros Ht Hn.
  destruct (findStats a tr) as [i|] eqn:Hf; [discriminate|].
  assert (Hc : findOrCreateStats a tr = (None, tr)).
  { unfold findOrCreateStats. rewrite Hf, Hn. reflexivity. }
  unfold recordError, recordSuccess, resetDevice. rewrite Hc.
  unfold getTotalErrors, getSuccessCount, stats_of. rewrite Hf. done.
Qed.

Lemma full_tracker_drops_witness :
  recordError 9 Cat_CRC_ERROR 500 tracker_full = tracker_full ∧
  getTotalErrors 9 (recordError 9 Cat_CRC_ERROR 500 tracker_full) = 0.
Proof.
  pose proof (full_tracker_drops 9 Cat_CRC_ERROR 500 tracker_full eq_refl eq_refl)
    as (H1 & _ & _ & H2 & _).
  split; [exact H1|exact H2].
Defined.

(** X6: [resetAll] zeroes every counter and the time of the last error of
    every device, and forgets none: the same devices are tracked before and
    after, in the same number. *)
Theorem resetAll_effect (a : Z) (tr : t) :
  isDeviceTracked a (resetAll tr) = isDeviceTracked a tr ∧
  getTrackedDeviceCount (resetAll tr) = getTrackedDeviceCount tr ∧
  getTotalErrors a (resetAll tr) = 0 ∧
  (∀ c, getCategory c a (resetAll tr) = 0) ∧
  getSuccessCount a (resetAll tr) = 0 ∧
  getLastErrorTime a (resetAll tr) = 0.
Proof.
  split; [unfold isDeviceTracked; by rewrite resetAll_find|]. split; [done|].
  unfold getCategory, getTotalErrors, getSuccessCount, getLastErrorTime,
    getCrcErrors, getTimeouts, getInvalidDataErrors, getDeviceErrors, getOtherErrors.
  rewrite resetAll_stats.
  destruct (stats_of a tr) as [s|]; cbn; repeat split; try done; by intros [].
Qed.

(** X7: the transport's error codes land in the tracker's categories
    through [mapError] and [categorizeError] as follows: a CRC error in
    CRC_ERROR, a time-out in TIMEOUT, an invalid response, slave, function
    or parameter in INVALID_DATA, the four Modbus exception codes (illegal
    function, data address, data value, server device failure) in
    DEVICE_ERROR, and success, a full queue, a failed allocation, a
    communication error and every unknown code in OTHER. *)
Theorem transport_error_category (err : esp32Modbus_Error) :
  categorizeError (mapError err) =
    match err with
    | E_CRC_ERROR => Cat_CRC_ERROR
    | E_TIMEOUT => Cat_TIMEOUT
    | E_INVALID_RESPONSE | E_INVALID_SLAVE | E_INVALID_FUNCTION
    | E_INVALID_PARAMETER => Cat_INVALID_DATA
    | E_ILLEGAL_FUNCTION | E_ILLEGAL_DATA_ADDRESS | E_ILLEGAL_DATA_VALUE
    | E_SERVER_DEVICE_FAILURE => Cat_DEVICE_ERROR
    | E_SUCCESS | E_QUEUE_FULL | E_MEMORY_ALLOCATION_FAILED | E_COMM_ERROR
    | OTHER_ERROR _ => Cat_OTHER
    end.
Proof. by destruct err. Qed.

End TrackerFacts.

(** ** More of the registry *)

Module RegistryMore.
Import ModbusRegistry.

Lemma reachable_handles (r : t) : reachable r → mutex_ r = busMutex_ r.
Proof.
  induction 1 as [c1 c2|lock rtu r _ IH|lock a d r Ha _ IH|lock a r Ha _ IH].
  - unfold new. by destruct c1, c2.
  - unfold setModbusRTU. destruct (mutex_ r) eqn:Em, lock; cbn; congruence.
  - destruct (RegistryFacts.registerDevice_cases lock a d r)
      as [->|[(_ & _ & _ & _ & ->)|Hneg]]; [exact IH|exact IH|lia].
  - destruct (RegistryFacts.unregisterDevice_cases lock a r)
      as [->|(_ & _ & _ & ->)]; exact IH.
Qed.

Lemma size_bound (m : gmap Z Z) :
  (∀ a d, m !! a = Some d → 1 <= a <= 247) → (size m <= 247)%nat.
Proof.
  intros Hkeys. rewrite <- size_dom.
  transitivity (size (list_to_set (seqZ 1 247) : gset Z)).
  - apply subseteq_size. intros a Ha. apply elem_of_dom in Ha as [d Hd].
    apply elem_of_list_to_set, elem_of_seqZ. specialize (Hkeys a d Hd). lia.
  - rewrite size_list_to_set by apply NoDup_seqZ. by rewrite length_seqZ.
Qed.

(** X8: [registerDevice] accepts a call exactly when the device pointer is
    not null, the address lies in 1..247, the registry has its map mutex and
    the mutex is obtained.  A refused call leaves the registry as it was; an
    accepted one makes a lookup of the address yield the device and changes
    no other address, nor the transport, nor the bus mutex. *)
Theorem registerDevice_outcome (lock : bool) (a d : Z) (r : t) :
  0 <= a <= 255 →
  (fst (registerDevice lock a d r) = true ↔
     d ≠ nullptr ∧ 1 <= a <= 247 ∧ mutex_ r = true ∧ lock = true) ∧
  (fst (registerDevice lock a d r) = false → snd (registerDevice lock a d r) = r) ∧
  (fst (registerDevice lock a d r) = true →
     getDevice true a (snd (registerDevice lock a d r)) = d ∧
     (∀ a', a' ≠ a → getDevice true a' (snd (registerDevice lock a d r))
                     = getDevice true a' r) ∧
     getModbusRTU (snd (registerDevice lock a d r)) = getModbusRTU r ∧
     getBusMutex (snd (registerDevice lock a d r)) = getBusMutex r).
Proof.
  intros Ha.
  destruct (RegistryFacts.registerDevice_cases lock a d r)
    as [Hno|[(Hd & Hr & Hm & Hl & Hyes)|Hneg]]; [| |lia].
  - rewrite Hno. cbn [fst snd]. split; [|split; [done|discriminate]].
    split; [discriminate|]. intros (Hd & Hr & Hm & ->).
    unfold registerDevice in Hno. rewrite Hm in Hno.
    replace (d =? nullptr) with false in Hno by (symmetry; by apply Z.eqb_neq).
    replace (a =? 0) with false in Hno by (symmetry; apply Z.eqb_neq; lia).
    replace (a >? 247) with false in Hno
      by (symmetry; rewrite Z.gtb_ltb; apply Z.ltb_ge; lia).
    discriminate.
  - rewrite Hyes. cbn [fst snd]. split; [done|]. split; [discriminate|].
    intros _. unfold getDevice, getModbusRTU, getBusMutex. cbn. rewrite Hm. cbn.
    rewrite lookup_insert_eq. split; [done|]. split; [|done].
    intros a' Hne. by rewrite lookup_insert_ne.
Qed.

Lemma registerDevice_outcome_witness :
  fst (registerDevice true 5 2000 registry_one) = true ∧
  getDevice true 5 (snd (registerDevice true 5 2000 registry_one)) = 2000 ∧
  getDevice true 1 (snd (registerDevice true 5 2000 registry_one)) = 1000 ∧
  snd (registerDevice true 0 2000 registry_one) = registry_one.
Proof.
  assert (H5 : 0 <= 5 <= 255) by lia. assert (H0 : 0 <= 0 <= 255) by lia.
  pose proof (registerDevice_outcome true 5 2000 registry_one H5) as (_ & _ & Hok).
  pose proof (registerDevice_outcome true 0 2000 registry_one H0) as (_ & Hno & _).
  destruct (Hok eq_refl) as (Hd & Hoth & _).
  split; [reflexivity|]. split; [exact Hd|]. split.
  - rewrite (Hoth 1) by lia. reflexivity.
  - apply Hno. reflexivity.
Defined.

(** X9: [unregisterDevice] returns true exactly when the registry has its
    map mutex, the mutex is obtained and the address is registered.  Then a
    lookup of the address yields null, [hasDevice] is false, every other
    address keeps its device and the device count drops by one. *)
Theorem unregisterDevice_outcome (lock : bool) (a : Z) (r : t) :
  (fst (unregisterDevice lock a r) = true ↔
     mutex_ r = true ∧ lock = true ∧ is_Some (deviceMap_ r !! a)) ∧
  (fst (unregisterDevice lock a r) = true →
     getDevice true a (snd (unregisterDevice lock a r)) = nullptr ∧
     hasDevice true a (snd (unregisterDevice lock a r)) = false ∧
     (∀ a', a' ≠ a → getDevice true a' (snd (unregisterDevice lock a r))
                     = getDevice true a' r) ∧
     getDeviceCount true (snd (unregisterDevice lock a r))
       = getDeviceCount true r - 1).
Proof.
  destruct (RegistryFacts.unregisterDevice_cases lock a r)
    as [Hno|(Hm & Hl & Hsome & Hyes)].
  - rewrite Hno. cbn [fst snd]. split; [|discriminate].
    split; [discriminate|]. intros (Hm & -> & [d Hd]).
    unfold unregisterDevice in Hno. rewrite Hm, Hd in Hno. discriminate.
  - rewrite Hyes. cbn [fst snd]. split; [done|]. intros _.
    unfold hasDevice, getDevice, getDeviceCount. cbn. rewrite Hm. cbn.
    rewrite lookup_delete_eq. split; [done|]. split; [done|]. split.
    + intros a' Hne. by rewrite lookup_delete_ne.
    + rewrite map_size_delete_Some by done.
      assert (size (deviceMap_ r) ≠ 0%nat).
      { apply map_size_ne_0_lookup. by exists a. }
      lia.
Qed.

Lemma unregisterDevice_outcome_witness :
  getDevice true 1 (snd (unregisterDevice true 1 registry_one)) = nullptr ∧
  getDeviceCount true (snd (unregisterDevice true 1 registry_one)) = 0.
Proof.
  pose proof (unregisterDevice_outcome true 1 registry_one) as (_ & Hok).
  destruct (Hok eq_refl) as (Hd & _ & _ & Hc).
  split; [exact Hd|]. rewrite Hc. reflexivity.
Defined.

(** X10: registering a device at a free address and unregistering the
    address again gives back the registry one started from; in between the
    device count is one higher. *)
Theorem register_unregister_round_trip (a d : Z) (r : t) :
  deviceMap_ r !! a = None → d ≠ nullptr → 1 <= a <= 247 → mutex_ r = true →
  fst (registerDevice true a d r) = true ∧
  getDeviceCount true (snd (registerDevice true a d r)) = getDeviceCount true r + 1 ∧
  unregisterDevice true a (snd (registerDevice true a d r)) = (true, r).
Proof.
  intros Hfree Hd Ha Hm. unfold registerDevice.
  replace (d =? nullptr) with false by (symmetry; by apply Z.eqb_neq).
  replace (a =? 0) with false by (symmetry; apply Z.eqb_neq; lia).
  replace (a >? 247) with false by (symmetry; rewrite Z.gtb_ltb; apply Z.ltb_ge; lia).
  rewrite Hm. cbn. split; [done|]. split.
  - unfold getDeviceCount. cbn. rewrite Hm. cbn.
    rewrite map_size_insert_None by done. lia.
  - unfold unregisterDevice. cbn. rewrite Hm. cbn. rewrite lookup_insert_eq.
    unfold set_deviceMap. cbn. rewrite delete_insert_id by done.
    destruct r. cbn in *. by subst.
Qed.

Lemma register_unregister_round_trip_witness :
  unregisterDevice true 5 (snd (registerDevice true 5 2000 registry_one))
  = (true, registry_one).
Proof.
  apply (register_unregister_round_trip 5 2000 registry_one);
    [reflexivity|discriminate|lia|reflexivity].
Defined.

(** X11: in a registry built by the public operations the device count is
    at most 247, only addresses 1..247 have a device (so address 0 never
    has one), and the map mutex and the bus mutex exist together or not at
    all. *)
Theorem registry_bounds (lock : bool) (r : t) :
  reachable r →
  0 <= getDeviceCount lock r <= 247 ∧
  (∀ a, hasDevice lock a r = true → 1 <= a <= 247) ∧
  hasDevice lock 0 r = false ∧
  mutex_ r = getBusMutex r.
Proof.
  intros Hr. destruct (RegistryFacts.reachable_wf r Hr) as [Hwf _].
  assert (Hhas : ∀ a, hasDevice lock a r = true → 1 <= a <= 247).
  { intros a. unfold hasDevice, getDevice.
    destruct (mutex_ r), lock; cbn; try discriminate.
    destruct (deviceMap_ r !! a) as [d|] eqn:Hd; [|discriminate].
    intros _. by destruct (Hwf a d Hd). }
  split; [|split; [exact Hhas|split]].
  - unfold getDeviceCount. destruct (mutex_ r), lock; cbn; try lia.
    assert (size (deviceMap_ r) <= 247)%nat; [|lia].
    apply size_bound. intros a d Hd. by destruct (Hwf a d Hd).
  - destruct (hasDevice lock 0 r) eqn:H0; [|done]. specialize (Hhas 0 H0). lia.
  - by apply reachable_handles.
Qed.

Lemma registry_bounds_witness :
  0 <= getDeviceCount true registry_one <= 247 ∧ hasDevice true 0 registry_one = false.
Proof.
  pose proof (registry_bounds true registry_one RegistryFacts.registry_one_reachable)
    as (Hc & _ & H0 & _).
  split; [exact Hc|exact H0].
Defined.

End RegistryMore.

(** ** Data age *)

(** X12: for a device updated at a non-zero time, [getDataAge] of
    [SimpleModbusDevice] stays within [uint32_t]; it is the elapsed
    milliseconds while the clock has not wrapped, and one millisecond less
    than the elapsed time once the clock has wrapped past the update.
    [QueuedModbusInputDevice::getDataAge] agrees before the wrap and
    reports 0 after it. *)
Theorem data_age_elapsed (currentTime : Z) (s : SimpleModbusDevice) :
  is_uint32 (lastUpdateTime s) → lastUpdateTime s ≠ 0 → is_uint32 currentTime →
  is_uint32 (getDataAge currentTime s) ∧
  (lastUpdateTime s <= currentTime →
     getDataAge currentTime s = elapsed_ms (lastUpdateTime s) currentTime ∧
     QueuedModbusInputDevice_getDataAge (lastUpdateTime s) currentTime
       = elapsed_ms (lastUpdateTime s) currentTime) ∧
  (currentTime < lastUpdateTime s →
     getDataAge currentTime s = elapsed_ms (lastUpdateTime s) currentTime - 1 ∧
     QueuedModbusInputDevice_getDataAge (lastUpdateTime s) currentTime = 0).
Proof.
  unfold is_uint32, UINT32_MAX, getDataAge, QueuedModbusInputDevice_getDataAge,
    elapsed_ms, UINT32_MAX.
  change (2 ^ 32) with 4294967296. intros Hl Hnz Hc.
  destruct (Z.eqb_spec (lastUpdateTime s) 0) as [?|_]; [done|].
  destruct (Z.geb_spec currentTime (lastUpdateTime s)) as [Hge|Hlt].
  - split; [lia|]. split; [|lia]. intros _. rewrite Z.mod_small by lia. done.
  - split; [lia|]. split; [lia|]. intros _. split; [|done].
    replace (currentTime - lastUpdateTime s)
      with (currentTime - lastUpdateTime s + 4294967296 + (-1) * 4294967296) by lia.
    rewrite Z.mod_add by lia. rewrite Z.mod_small by lia. lia.
Qed.

Lemma data_age_elapsed_witness :
  getDataAge 1500 (simple_at 1000) = 500 ∧
  getDataAge 99 (simple_at 4294967196) = 198 ∧
  QueuedModbusInputDevice_getDataAge 4294967196 99 = 0.
Proof.
  assert (H1 : is_uint32 1000) by (vm_compute; split; discriminate).
  assert (H2 : is_uint32 1500) by (vm_compute; split; discriminate).
  assert (H3 : is_uint32 4294967196) by (vm_compute; split; discriminate).
  assert (H4 : is_uint32 99) by (vm_compute; split; discriminate).
  pose proof (data_age_elapsed 1500 (simple_at 1000) H1 ltac:(discriminate) H2)
    as (_ & Hbefore & _).
  pose proof (data_age_elapsed 99 (simple_at 4294967196) H3 ltac:(discriminate) H4)
    as (_ & _ & Hafter).
  destruct (Hbefore ltac:(cbn; lia)) as [Ha _].
  destruct (Hafter ltac:(cbn; lia)) as [Hb Hc].
  split; [rewrite Ha; by vm_compute|]. split; [rewrite Hb; by vm_compute|exact Hc].
Defined.

(** ** The payload of the multiple writes *)

Lemma at_map_seqZ (suf pre : list Z) :
  map (at_ (pre ++ suf)) (seqZ (Z.of_nat (length pre)) (Z.of_nat (length suf))) = suf.
Proof.
  revert pre. induction suf as [|x suf IH]; intros pre; [done|].
  cbn [length]. rewrite Nat2Z.inj_succ, seqZ_cons by lia. cbn [map].
  rewrite at_middle. f_equal.
  replace (Z.succ (Z.of_nat (length pre))) with (Z.of_nat (length (pre ++ [x])))
    by (rewrite length_app; cbn; lia).
  replace (Z.pred (Z.succ (Z.of_nat (length suf)))) with (Z.of_nat (length suf)) by lia.
  replace (pre ++ x :: suf) with ((pre ++ [x]) ++ suf) by (by rewrite <- app_assoc).
  apply IH.
Qed.

Lemma flat_map_at (f : Z → list Z) (data : list Z) :
  flat_map (λ i, f (at_ data i)) (seqZ 0 (Z.of_nat (length data))) = flat_map f data.
Proof.
  transitivity (flat_map f (map (at_ data) (seqZ 0 (Z.of_nat (length data))))).
  - generalize (seqZ 0 (Z.of_nat (length data))). intros l.
    induction l as [|i l IH]; [done|]. cbn. by rewrite IH.
  - f_equal. apply (at_map_seqZ data []).
Qed.

Lemma uint16_split (v : Z) :
  is_uint16 v →
  is_byte (Z.land (Z.shiftr v 8) 0xFF) ∧ is_byte (Z.land v 0xFF) ∧
  Z.land (Z.shiftr v 8) 0xFF * 256 + Z.land v 0xFF = v.
Proof.
  unfold is_uint16, is_byte. change (2 ^ 16) with 65536. intros Hv.
  change 0xFF with (Z.ones 8). rewrite !Z.land_ones by lia.
  rewrite Z.shiftr_div_pow2 by lia. change (2 ^ 8) with 256.
  Z.div_mod_to_equations. lia.
Qed.

Lemma pairs_of_split (values : list Z) :
  Forall is_uint16 values →
  Forall is_byte
    (flat_map (λ v, [Z.land (Z.shiftr v 8) 0xFF; Z.land v 0xFF]) values) ∧
  big_endian_pairs
    (flat_map (λ v, [Z.land (Z.shiftr v 8) 0xFF; Z.land v 0xFF]) values) = values.
Proof.
  induction 1 as [|v values Hv _ [IHb IHp]]; [by split|].
  destruct (uint16_split v Hv) as (Hhi & Hlo & Hsum).
  cbn [flat_map app big_endian_pairs]. split.
  - apply Forall_cons; split; [exact Hhi|]. apply Forall_cons; split; done.
  - by rewrite Hsum, IHp.
Qed.

(** X13: the byte buffer [sendRequestWithPriority] builds for function code
    0x10 from the values of [writeMultipleRegisters] holds two bytes for
    each value, and the big-endian conversion the read path applies to a
    response gives the values back. *)
Theorem fc10_round_trip (values : list Z) :
  Forall is_uint16 values →
  (length values <= Z.to_nat MODBUS_MAX_WRITE_REGISTER_COUNT)%nat →
  Forall is_byte (fc10_byteData values (to_uint16 (Z.of_nat (length values)))) ∧
  length (fc10_byteData values (to_uint16 (Z.of_nat (length values))))
    = (2 * length values)%nat ∧
  bytes_to_registers (fc10_byteData values (to_uint16 (Z.of_nat (length values))))
    = values.
Proof.
  intros Hv Hlen. unfold MODBUS_MAX_WRITE_REGISTER_COUNT in Hlen.
  assert (Hc : to_uint16 (Z.of_nat (length values)) = Z.of_nat (length values)).
  { unfold to_uint16. change (2 ^ 16) with 65536. apply Z.mod_small. lia. }
  rewrite Hc. unfold fc10_byteData.
  rewrite (flat_map_at (λ v, [Z.land (Z.shiftr v 8) 0xFF; Z.land v 0xFF]) values).
  destruct (pairs_of_split values Hv) as [Hb Hp].
  split; [exact Hb|]. split.
  - clear. induction values as [|v values IH]; [done|]. cbn [flat_map app length].
    rewrite IH. lia.
  - by rewrite bytes_to_registers_pairs.
Qed.

Lemma fc10_round_trip_witness :
  bytes_to_registers (fc10_byteData [0x1234; 0xFFFF; 0] (to_uint16 3)) = [0x1234; 0xFFFF; 0].
Proof.
  apply (fc10_round_trip [0x1234; 0xFFFF; 0]).
  - repeat constructor; vm_compute; discriminate.
  - vm_compute. lia.
Defined.

(** ** Draining the queue *)

Lemma processQueue_loop_all (cap : nat) (fuel : nat) :
  ∀ (processed : Z) (l handled : list ModbusPacket),
    (length l < fuel)%nat →
    processQueue_loop fuel 0 processed (mkQueue cap l) handled
    = (processed + Z.of_nat (length l), mkQueue cap [], handled ++ l).
Proof.
  induction fuel as [|fuel IH]; intros processed l handled Hfuel; [lia|].
  cbn [processQueue_loop]. unfold xQueueReceive. cbn [items capacity].
  destruct l as [|p rest].
  - cbn. by rewrite app_nil_r, Z.add_0_r.
  - cbn [length] in *. cbn [Z.ltb Z.compare andb]. rewrite IH by lia.
    rewrite <- app_assoc. cbn [app]. f_equal. f_equal. lia.
Qed.

Lemma processQueue_loop_some (maxPackets : Z) (cap : nat) (fuel : nat) :
  ∀ (processed : Z) (l handled : list ModbusPacket),
    (length l < fuel)%nat → 0 <= processed < maxPackets →
    processQueue_loop fuel maxPackets processed (mkQueue cap l) handled
    = (processed + Z.of_nat (Nat.min (Z.to_nat (maxPackets - processed)) (length l)),
       mkQueue cap (drop (Nat.min (Z.to_nat (maxPackets - processed)) (length l)) l),
       handled ++ take (Nat.min (Z.to_nat (maxPackets - processed)) (length l)) l).
Proof.
  induction fuel as [|fuel IH]; intros processed l handled Hfuel Hp; [lia|].
  cbn [processQueue_loop]. unfold xQueueReceive. cbn [items capacity].
  destruct l as [|p rest].
  - cbn [length]. rewrite Nat.min_0_r. cbn. by rewrite app_nil_r, Z.add_0_r.
  - cbn [length] in *.
    destruct (Z.ltb_spec 0 maxPackets) as [_|?]; [|lia]. cbn [andb].
    destruct (Z.geb_spec (processed + 1) maxPackets) as [Hlast|Hmore].
    + replace (Z.to_nat (maxPackets - processed)) with 1%nat by lia.
      cbn [Nat.min drop take]. rewrite take_0, drop_0. done.
    + rewrite IH by lia.
      replace (Z.to_nat (maxPackets - processed))
        with (S (Z.to_nat (maxPackets - (processed + 1)))) by lia.
      cbn [Nat.min drop take]. rewrite <- app_assoc. cbn [app]. f_equal. f_equal. lia.
Qed.

(** X14: [processQueue(maxPackets)] on a device in async mode with a
    queue, while no response arrives, hands the oldest packets to
    [onAsyncResponse] in the order in which they were queued: all of them
    for [maxPackets = 0], else at most [maxPackets]; it returns their number
    and leaves the remaining packets in the queue, in order. *)
Theorem processQueue_fifo (maxPackets : Z) (qp : QueuedPart) (q : Queue) :
  queue qp = Some q → asyncMode qp = true → 0 <= maxPackets →
  processQueue maxPackets qp
  = (Z.of_nat (drained maxPackets (length (items q))),
     mkQueuedPart
       (Some (mkQueue (capacity q) (drop (drained maxPackets (length (items q)))
                                         (items q))))
       (asyncMode qp),
     take (drained maxPackets (length (items q))) (items q)) ∧
  getQueueDepth (snd (fst (processQueue maxPackets qp)))
  = (getQueueDepth qp - drained maxPackets (length (items q)))%nat.
Proof.
  intros Hq _ Hmax. unfold processQueue, getQueueDepth. rewrite Hq.
  destruct q as [cap l]. cbn [items capacity].
  unfold drained. destruct (Z.eqb_spec maxPackets 0) as [->|Hnz].
  - rewrite (processQueue_loop_all cap (S (length l)) 0 l []) by lia.
    cbn. rewrite drop_all, take_ge by lia. split; [done|]. cbn. lia.
  - rewrite (processQueue_loop_some maxPackets cap (S (length l)) 0 l []) by lia.
    rewrite Z.sub_0_r. cbn. split; [done|]. by rewrite length_drop.
Qed.

Lemma processQueue_fifo_witness :
  snd (processQueue 2 three_packets)
    = [mkModbusPacket 3 0x10 [0; 1] 2 5; mkModbusPacket 3 0x20 [0; 2] 2 6] ∧
  getQueueDepth (snd (fst (processQueue 2 three_packets))) = 1%nat.
Proof.
  assert (H2 : 0 <= 2) by lia.
  pose proof (processQueue_fifo 2 three_packets _ eq_refl eq_refl H2) as [H1 H3].
  split; [by rewrite H1|by rewrite H3].
Defined.

(** ** The packed coils of [writeMultipleCoils] *)

Lemma same_word_same_bit (i j : nat) :
  (j / 16 = i / 16)%nat →
  (Z.of_nat (i mod 16) =? Z.of_nat (j mod 16)) = (j =? i)%nat.
Proof.
  intros Hw. pose proof (Nat.div_mod_eq i 16). pose proof (Nat.div_mod_eq j 16).
  destruct (Nat.eqb_spec j i) as [->|Hne].
  - apply Z.eqb_refl.
  - apply Z.eqb_neq. lia.
Qed.

(** Setting bit [i mod 16] of word [i / 16] sets bit [i] and no other. *)
Lemma set_bit_bits (packedData : list Z) (i j : nat) :
  (i / 16 < length packedData)%nat →
  Z.testbit
    (nth (j / 16)%nat
       (<[(i / 16)%nat :=
           to_uint16 (Z.lor (nth (i / 16)%nat packedData 0)
                            (Z.shiftl 1 (Z.of_nat (i mod 16))))]> packedData) 0)
    (Z.of_nat (j mod 16))
  = Z.testbit (nth (j / 16)%nat packedData 0) (Z.of_nat (j mod 16)) || (j =? i)%nat.
Proof.
  intros Hi. pose proof (Nat.mod_upper_bound j 16 ltac:(lia)) as Hj.
  rewrite !(nth_lookup _ (j / 16)%nat).
  destruct (decide (j / 16 = i / 16)%nat) as [Hw|Hw].
  - rewrite Hw, list_lookup_insert_eq by done. cbn [default from_option].
    unfold id, to_uint16. rewrite Z.mod_pow2_bits_low by lia.
    rewrite Z.lor_spec, Z.shiftl_1_l, Z.pow2_bits_eqb by lia.
    rewrite (nth_lookup _ (i / 16)%nat). by rewrite same_word_same_bit.
  - rewrite list_lookup_insert_ne by done.
    destruct (Nat.eqb_spec j i) as [->|_]; [done|]. by rewrite orb_false_r.
Qed.

Lemma pack_loop_length (values : list bool) :
  ∀ i packedData, length (pack_loop values i packedData) = length packedData.
Proof.
  induction values as [|v rest IH]; intros i packedData; [done|].
  cbn [pack_loop]. rewrite IH. destruct v; [apply length_insert|done].
Qed.

(** After the loop, bit [j] is set when it was set before or [values]
    holds true for it. *)
Lemma pack_loop_bits (values : list bool) :
  ∀ (i : nat) (packedData : list Z) (j : nat),
    (i + length values <= 16 * length packedData)%nat →
    Z.testbit (nth (j / 16)%nat (pack_loop values i packedData) 0) (Z.of_nat (j mod 16))
    = Z.testbit (nth (j / 16)%nat packedData 0) (Z.of_nat (j mod 16))
      || (if decide (i <= j < i + length values)%nat
          then nth (j - i) values false else false).
Proof.
  induction values as [|v rest IH]; intros i packedData j Hroom.
  - cbn [pack_loop length]. destruct (decide _) as [?|_]; [lia|].
    by rewrite orb_false_r.
  - cbn [pack_loop length] in *.
    assert (Hi : (i / 16 < length packedData)%nat).
    { apply Nat.Div0.div_lt_upper_bound. lia. }
    rewrite IH by (destruct v; rewrite ?length_insert; lia).
    assert (Hstep : Z.testbit
              (nth (j / 16)%nat
                 (if v
                  then <[(i / 16)%nat :=
                          to_uint16 (Z.lor (nth (i / 16)%nat packedData 0)
                                       (Z.shiftl 1 (Z.of_nat (i mod 16))))]> packedData
                  else packedData) 0) (Z.of_nat (j mod 16))
            = Z.testbit (nth (j / 16)%nat packedData 0) (Z.of_nat (j mod 16))
              || (v && (j =? i)%nat)).
    { destruct v; [by apply set_bit_bits|by rewrite orb_false_r]. }
    rewrite Hstep. rewrite <- orb_assoc. f_equal.
    destruct (Nat.eqb_spec j i) as [->|Hne].
    + rewrite Nat.sub_diag. cbn [nth].
      destruct (decide (S i <= i < _)%nat) as [?|_]; [lia|].
      destruct (decide (i <= i < _)%nat) as [_|?]; [|lia].
      by rewrite andb_true_r, orb_false_r.
    + rewrite andb_false_r. cbn [orb].
      destruct (decide (S i <= j < S i + length rest)%nat) as [Hin|Hout];
        destruct (decide (i <= j < i + S (length rest))%nat) as [Hin'|Hout'];
        try lia; try done.
      replace (j - i)%nat with (S (j - S i)) by lia. done.
Qed.

Lemma unpack_pack_coils (values : list bool) :
  fc0F_boolData (pack_coils values) (Z.of_nat (length values)) = values.
Proof.
  unfold pack_coils.
  assert (Hroom : (0 + length values
                   <= 16 * length (replicate ((length values + 15) / 16) 0%Z))%nat).
  { rewrite length_replicate. pose proof (Nat.div_mod_eq (length values + 15) 16).
    pose proof (Nat.mod_upper_bound (length values + 15) 16). lia. }
  apply list_eq. intros j. unfold fc0F_boolData.
  change (map ?f ?l) with (f <$> l). rewrite list_lookup_fmap.
  destruct (decide (j < length values)%nat) as [Hj|Hj].
  - rewrite lookup_seqZ_lt by lia. cbn [fmap option_fmap option_map].
    rewrite Z.add_0_l, mask_test by (apply Z.mod_pos_bound; lia).
    unfold at_. change 16 with (Z.of_nat 16).
    rewrite <- Nat2Z.inj_div, <- Nat2Z.inj_mod, Nat2Z.id.
    rewrite (pack_loop_bits values 0 _ j Hroom).
    rewrite nth_lookup, lookup_replicate_2
      by (apply Nat.Div0.div_lt_upper_bound; rewrite length_replicate in Hroom; lia).
    cbn [default]. rewrite Z.bits_0. cbn [orb].
    destruct (decide (0 <= j < 0 + length values)%nat) as [_|?]; [|lia].
    rewrite Nat.sub_0_r. symmetry.
    by destruct (nth_lookup_or_length values j false) as [->|?]; [|lia].
  - rewrite lookup_seqZ_ge by lia. symmetry. apply lookup_ge_None_2. lia.
Qed.

(** X15: the words [writeMultipleCoils] packs from its values, 16 coils to
    a word and the first coil in the lowest bit, number a sixteenth of the
    values rounded up; and the bool array [sendRequestWithPriority] unpacks
    from them for function code 0x0F is the list of values again. *)
Theorem fc0F_round_trip (values : list bool) :
  (length values <= Z.to_nat MODBUS_MAX_WRITE_COIL_COUNT)%nat →
  length (pack_coils values) = ((length values + 15) / 16)%nat ∧
  fc0F_boolData (pack_coils values) (to_uint16 (Z.of_nat (length values))) = values.
Proof.
  intros Hlen. unfold MODBUS_MAX_WRITE_COIL_COUNT in Hlen.
  assert (Hc : to_uint16 (Z.of_nat (length values)) = Z.of_nat (length values)).
  { unfold to_uint16. change (2 ^ 16) with 65536. apply Z.mod_small. lia. }
  rewrite Hc. split; [|apply unpack_pack_coils].
  unfold pack_coils. by rewrite pack_loop_length, length_replicate.
Qed.

Lemma fc0F_round_trip_witness :
  fc0F_boolData
    (pack_coils [true; false; true; true; false; false; false; false; true;
                 false; false; false; false; false; false; false; true])
    (to_uint16 17)
  = [true; false; true; true; false; false; false; false; true;
     false; false; false; false; false; false; false; true].
Proof.
  apply (fc0F_round_trip [true; false; true; true; false; false; false; false; true;
                          false; false; false; false; false; false; false; true]).
  vm_compute. lia.
Defined.

(** ** The callbacks *)

Lemma deliver_unrouted (c : Callback) (w : World) :
  routed_here c w = false → deliver c w = (tt, w).
Proof.
  unfold routed_here, callback_target.
  destruct c as [server fc start data len ml sl tick|server err ml sl];
    unfold deliver, mainHandleData, global_handleError; run_monad;
    destruct (_ =? nullptr); cbn; try done;
    destruct (_ =? this_ptr w); cbn; done.
Qed.

Lemma runs_unrouted (cs : list Callback) (w : World) :
  Forall (λ c, routed_here c w = false) cs → transport_runs cs w = (tt, w).
Proof.
  induction 1 as [|c cs Hc _ IH]; [reflexivity|].
  cbn [transport_runs]. unfold bind. rewrite (deliver_unrouted c w Hc). exact IH.
Qed.

(** X16: a callback whose address the registry does not map to this
    object, be it that another device or none is registered there or that
    the map mutex was not obtained within its 10 ms, changes nothing in this
    object: no flag, no counter, no last error, no queue entry. *)
Theorem unrouted_callbacks_dropped (cs : list Callback) (w : World) :
  Forall (λ c, routed_here c w = false) cs → transport_runs cs w = (tt, w).
Proof.
  induction 1 as [|c cs Hc _ IH]; [reflexivity|].
  cbn [transport_runs]. unfold bind. rewrite (deliver_unrouted c w Hc). exact IH.
Qed.

Lemma unrouted_callbacks_dropped_witness :
  transport_runs stray_callbacks fresh_world = (tt, fresh_world).
Proof.
  apply (unrouted_callbacks_dropped stray_callbacks fresh_world).
  repeat constructor.
Defined.

Lemma deliver_latch (c : Callback) (w : World) (ctx : SyncContext) :
  syncContext (this w) = Some ctx →
  ∃ ctx', syncContext (this (snd (deliver c w))) = Some ctx' ∧
    (responseReceived ctx = true → ctx' = ctx) ∧
    (errorOccurred ctx = true →
       errorOccurred ctx' = true ∧ error ctx' = error ctx) ∧
    (semaphore ctx = Some true → semaphore ctx' = Some true).
Proof.
  destruct c as [server fc start data len ml sl tick|server err ml sl];
    unfold deliver, mainHandleData, global_handleError, handleData, handleError,
      handleModbusResponse, QueuedModbusDevice_handleModbusResponse,
      ModbusDevice_handleModbusResponse, handleModbusError, onQueueFull;
    run_monad;
    destruct w as [d ptr reg mm held eg qf tr];
    destruct d as [sa ph le tot suc tmo crc c0 sm g rb eb cls];
    cbn; intros ->; destruct ctx as [rd [|] [|] er [[|]|]];
    destruct sm, sl, cls as [| |[[q|] am]]; cbn;
    repeat (case_match; cbn;
            try (eexists; split; [reflexivity|];
                 cbn; repeat split; first [congruence|discriminate])).
Qed.

(** X17: the result flags of the sync context latch.  Once a response has
    been stored, no later callback changes the stored payload, the flags,
    the error or the semaphore; once an error has been flagged, the flag
    and the error code stay; and a given semaphore stays given.  So of
    several answers to one request the first one is reported. *)
Theorem sync_flags_latch (cs : list Callback) (w : World) (ctx : SyncContext) :
  syncContext (this w) = Some ctx →
  ∃ ctx', syncContext (this (snd (transport_runs cs w))) = Some ctx' ∧
    (responseReceived ctx = true → ctx' = ctx) ∧
    (errorOccurred ctx = true →
       errorOccurred ctx' = true ∧ error ctx' = error ctx) ∧
    (semaphore ctx = Some true → semaphore ctx' = Some true).
Proof.
  revert w ctx. induction cs as [|c cs IH]; intros w ctx Hctx.
  - exists ctx. cbn. by repeat split.
  - cbn [transport_runs]. unfold bind.
    destruct (deliver_latch c w ctx Hctx) as (c1 & H1 & Hr1 & He1 & Hs1).
    destruct (IH _ c1 H1) as (c2 & H2 & Hr2 & He2 & Hs2).
    exists c2. split; [exact H2|]. split; [|split].
    + intros Hr. rewrite <- (Hr1 Hr). apply Hr2. by rewrite (Hr1 Hr).
    + intros He. destruct (He1 He) as [Ha Hb]. destruct (He2 Ha) as [Hc Hd].
      split; congruence.
    + intros Hs. auto.
Qed.

Lemma sync_flags_latch_witness :
  responseData <$> syncContext (this (snd (transport_runs late_callbacks
                                             world_with_response)))
  = Some payload_10_40.
Proof.
  destruct (sync_flags_latch late_callbacks world_with_response
              (mkSyncContext payload_10_40 true false SUCCESS (Some true)) eq_refl)
    as (ctx' & Hctx & Hkeep & _).
  rewrite Hctx, (Hkeep eq_refl). reflexivity.
Defined.

(** X18: [handleError] always records the mapped error as the last error
    and counts a CRC error, also when it cannot wake the waiter; the waiter
    is woken, with the error flag, the mapped error and the semaphore given,
    exactly when the sync context and its mutex exist, the try-lock
    succeeds and no result flag is set; otherwise the sync context is left
    as it was. *)
Theorem error_callback_bookkeeping (err : esp32Modbus_Error) (sync_lock : bool)
    (w : World) :
  lastError (this (snd (handleError err sync_lock w))) = mapError err ∧
  crcErrors (this (snd (handleError err sync_lock w)))
    = match err with
      | E_CRC_ERROR => incr32 (crcErrors (this w))
      | _ => crcErrors (this w)
      end ∧
  (can_wake sync_lock (this w) = false →
     syncContext (this (snd (handleError err sync_lock w))) = syncContext (this w)) ∧
  (can_wake sync_lock (this w) = true →
     ∃ ctx, syncContext (this w) = Some ctx ∧
       syncContext (this (snd (handleError err sync_lock w)))
       = Some (mkSyncContext (responseData ctx) false true (mapError err)
                 (xSemaphoreGive_sync (semaphore ctx)))).
Proof.
  unfold handleError, handleModbusError, can_wake. run_monad.
  destruct w as [d ptr reg mm held eg qf tr].
  destruct d as [sa ph le tot suc tmo crc [[rd rr eo er tok]|] sm g rb eb cls]; cbn.
  - destruct sm, sync_lock, rr, eo, err; cbn;
      (split; [reflexivity|]); (split; [reflexivity|]);
      (split; [try reflexivity; discriminate|]);
      intros H; try discriminate H; eexists; split; reflexivity.
  - destruct err; cbn; repeat split; discriminate.
Qed.

Lemma error_callback_bookkeeping_witness :
  lastError (this (snd (handleError E_CRC_ERROR false queued_world_idle))) = CRC_ERROR ∧
  syncContext (this (snd (handleError E_CRC_ERROR false queued_world_idle)))
    = syncContext (this queued_world_idle) ∧
  errorOccurred <$> syncContext (this (snd (handleError E_CRC_ERROR true
                                              queued_world_idle))) = Some true.
Proof.
  pose proof (error_callback_bookkeeping E_CRC_ERROR false queued_world_idle)
    as (Hl & _ & Hkeep & _).
  pose proof (error_callback_bookkeeping E_CRC_ERROR true queued_world_idle)
    as (_ & _ & _ & Hwake).
  destruct (Hwake eq_refl) as (ctx & _ & Hctx).
  split; [exact Hl|]. split; [exact (Hkeep eq_refl)|]. rewrite Hctx. reflexivity.
Defined.

Lemma class_queue (w w' : World) :
  dclass (this w') = dclass (this w) →
  queued_items w' = queued_items w ∧
  (queue_within_capacity w → queue_within_capacity w').
Proof.
  unfold queued_items, queue_within_capacity, queued_part. intros ->. by split.
Qed.

Lemma response_queue (fc addr : Z) (data : option (list Z)) (len tick : Z) (w : World) :
  queued_items w
    `prefix_of` queued_items (snd (handleModbusResponse fc addr data len tick w)) ∧
  (queue_within_capacity w →
   queue_within_capacity (snd (handleModbusResponse fc addr data len tick w))).
Proof.
  unfold handleModbusResponse, QueuedModbusDevice_handleModbusResponse,
    ModbusDevice_handleModbusResponse, onQueueFull, xQueueSend.
  unfold bind, ret, gets, modify_this, modify, when.
  unfold queue_within_capacity, queued_items, queued_part.
  destruct w as [d ptr reg mm held eg qf tr].
  destruct d as [sa ph le tot suc tmo crc c0 sm g rb eb [| |[[[cap its]|] am]]];
    cbn -[Nat.ltb]; try by split.
  destruct (bool_decide (ph = CONFIGURING) || negb am); cbn -[Nat.ltb]; [by split|].
  destruct (Nat.ltb_spec (length its) cap) as [Hroom|Hfull]; cbn -[Nat.ltb];
    [|by split].
  split; [by apply prefix_app_r|].
  intros _ qp q [= <-] [= <-]. cbn. rewrite length_app. cbn. lia.
Qed.

Lemma handleError_class (err : esp32Modbus_Error) (sync_lock : bool) (w : World) :
  dclass (this (snd (handleError err sync_lock w))) = dclass (this w).
Proof.
  unfold handleError, handleModbusError. run_monad.
  destruct w as [d ptr reg mm held eg qf tr].
  destruct d as [sa ph le tot suc tmo crc [[rd rr eo er tok]|] sm g rb eb cls]; cbn;
    repeat (case_match; cbn; try reflexivity).
Qed.

Lemma handleData_queue (server fc start : Z) (data : option (list Z)) (len : Z)
    (sync_lock : bool) (tick : Z) (w : World) :
  queued_items w
    `prefix_of` queued_items (snd (handleData server fc start data len sync_lock tick w)) ∧
  (queue_within_capacity w →
   queue_within_capacity (snd (handleData server fc start data len sync_lock tick w))).
Proof.
  unfold handleData, bind, gets. cbn [fst snd].
  match goal with
  | |- context [handleModbusResponse _ _ _ _ _ ?w1] =>
      assert (Hcls : dclass (this w1) = dclass (this w));
        [|destruct (class_queue w w1 Hcls) as [Hi Hb];
          destruct (response_queue (fc mod 256) start data len tick w1) as [Hp Hq];
          rewrite Hi in Hp; split; [exact Hp|auto]]
  end.
  unfold modify_this, modify, ret.
  destruct w as [d ptr reg mm held eg qf tr].
  destruct d as [sa ph le tot suc tmo crc [[rd rr eo er tok]|] sm g rb eb cls]; cbn;
    [|reflexivity].
  repeat (case_match; cbn; try reflexivity).
Qed.

Lemma deliver_queue (c : Callback) (w : World) :
  queued_items w `prefix_of` queued_items (snd (deliver c w)) ∧
  (queue_within_capacity w → queue_within_capacity (snd (deliver c w))).
Proof.
  destruct c as [server fc start data len ml sl tick|server err ml sl];
    unfold deliver, mainHandleData, global_handleError, bind, gets; cbn [fst snd];
    destruct (_ =? nullptr); [by split| |by split|];
    destruct (_ =? this_ptr w); try by split.
  - apply handleData_queue.
  - destruct (class_queue w _ (handleError_class err sl w)) as [-> Hb]. by split.
Qed.

(** X19: callbacks only ever append to the queue of a queued device, so
    the packets already waiting keep their place at the front and their
    order, and they never make the queue longer than its depth. *)
Theorem queue_order_and_bound (cs : list Callback) (w : World) :
  queued_items w `prefix_of` queued_items (snd (transport_runs cs w)) ∧
  (queue_within_capacity w → queue_within_capacity (snd (transport_runs cs w))).
Proof.
  revert w. induction cs as [|c cs IH]; intros w; [by split|].
  cbn [transport_runs]. unfold bind.
  destruct (deliver_queue c w) as [Hp Hb].
  destruct (IH (snd (deliver c w))) as [Hp' Hb'].
  split; [by etransitivity|auto].
Qed.

Lemma queued_world_bounded : queue_within_capacity queued_world.
Proof. intros qp q [= <-] [= <-]. cbn. lia. Qed.

Lemma queue_order_and_bound_witness :
  queue_within_capacity
    (snd (transport_runs (replicate 12 response_10_40) queued_world)).
Proof.
  apply (queue_order_and_bound (replicate 12 response_10_40) queued_world).
  exact queued_world_bounded.
Defined.

(** ** The success counter *)

Lemma acquire_this (e : Env) (t : Z) (w : World) :
  this (snd (acquireBusMutex e t w)) = this w.
Proof.
  destruct (acquirable e w) eqn:Ea.
  - apply (acquire_ok e t w Ea).
  - apply (acquire_fail e t w Ea).
Qed.

Lemma ensure_success (e : Env) (w : World) :
  successfulRequests (this (snd (ensureSyncReady e w))) = successfulRequests (this w).
Proof.
  unfold ensureSyncReady. run_monad.
  destruct (syncContext (this w)) as [c|] eqn:Ec; cbn.
  - destruct (syncMutex (this w)); reflexivity.
  - destruct (sem_create_ok e); cbn; [|reflexivity].
    destruct (syncMutex (this w)); reflexivity.
Qed.

Lemma send_success (e : Env) (fc addr count : Z) (priority : ModbusPriority)
    (data : option (list Z)) (w : World) :
  successfulRequests (this (snd (sendRequestWithPriority e fc addr count priority data w)))
  = successfulRequests (this w).
Proof.
  unfold sendRequestWithPriority, rtu_call. run_monad.
  destruct (ModbusRegistry.getModbusRTU (registry w)); cbn; [|reflexivity].
  repeat (match goal with
          | |- context [if ?fc' =? ?k then _ else _] => destruct (fc' =? k)
          end);
    repeat (match goal with
            | |- context [match data with _ => _ end] => destruct data
            | |- context [if 0 <? count then _ else _] => destruct (0 <? count)
            | |- context [alloc_ok e] => destruct (alloc_ok e)
            end; cbn);
    destruct (rtu_accepts e); reflexivity.
Qed.

Lemma wait_success (e : Env) (w : World) :
  successfulRequests (this (snd (waitForResponse e w)))
  = (if isOk (fst (waitForResponse e w)) then incr32 (successfulRequests (this w))
     else successfulRequests (this w)).
Proof.
  unfold waitForResponse, xSemaphoreTake_sync. run_monad.
  destruct (syncContext (this w)) as [c|] eqn:Ec; cbn; [|reflexivity].
  destruct (semaphore c) as [tok|] eqn:Es; cbn; [|reflexivity].
  match goal with
  | |- context [transport_runs ?cs ?w1] =>
      pose proof (view_parts _ _ (transport_runs_view cs w1)) as (_ & _ & _ & Hs & _);
      remember (snd (transport_runs cs w1)) as w2 eqn:Hw2; clear Hw2
  end.
  cbn in Hs.
  destruct (syncContext (this w2)) as [c2|] eqn:Ec2; cbn; [|exact Hs].
  destruct (semaphore c2) as [[|]|] eqn:Es2; cbn; rewrite ?Ec2; cbn; try exact Hs.
  destruct (errorOccurred c2); cbn; [exact Hs|].
  destruct (responseReceived c2); cbn; [|exact Hs]. by rewrite Hs.
Qed.

Lemma transaction_success {A} (e : Env) (fc addr count : Z) (priority : ModbusPriority)
    (data : option (list Z)) (convert : list Z → A) (w : World) :
  successfulRequests
    (this (snd (transaction e fc addr count priority data convert w)))
  = (if isOk (fst (transaction e fc addr count priority data convert w))
     then incr32 (successfulRequests (this w)) else successfulRequests (this w)).
Proof.
  unfold transaction, bind.
  pose proof (acquire_this e MODBUS_MUTEX_TIMEOUT_MS w) as Hacq.
  destruct (fst (acquireBusMutex e MODBUS_MUTEX_TIMEOUT_MS w)); cbn [negb];
    [|cbn; by rewrite Hacq].
  set (w1 := snd (acquireBusMutex e MODBUS_MUTEX_TIMEOUT_MS w)) in *.
  pose proof (ensure_success e w1) as Hens.
  set (w2 := snd (ensureSyncReady e w1)) in *.
  pose proof (send_success e fc addr count priority data w2) as Hsend.
  set (w3 := snd (sendRequestWithPriority e fc addr count priority data w2)) in *.
  assert (H3 : successfulRequests (this w3) = successfulRequests (this w))
    by (by rewrite Hsend, Hens, Hacq).
  destruct (bool_decide _); cbn [negb].
  - pose proof (view_parts _ _ (transport_runs_view (cb_before_wait e) w3))
      as (_ & _ & _ & Hcb & _).
    set (w4 := snd (transport_runs (cb_before_wait e) w3)) in *.
    pose proof (wait_success e w4) as Hwait.
    destruct (fst (waitForResponse e w4)) as [payload|err];
      unfold ret; cbn [fst snd isOk] in *; rewrite release_this, Hwait, Hcb, H3;
      reflexivity.
  - unfold ret. cbn [fst snd isOk]. by rewrite release_this.
Qed.

(** X20: a synchronous call adds one (modulo 2^32) to the counter of
    successful requests exactly when it returns a value; a call that
    returns an error of any kind leaves the counter as it was, whatever
    callbacks arrive meanwhile. *)
Theorem success_counter (e : Env) (c : Call) (w : World) :
  successfulRequests (this (snd (run_call e c w)))
  = (if bool_decide (result_error (fst (run_call e c w)) = None)
     then incr32 (successfulRequests (this w)) else successfulRequests (this w)).
Proof.
  destruct (transaction_unfold e c w)
    as [(Hout & Hrun)|(Hin & A & fc & addr & count & prio & data & conv & Hw & Hr)].
  - rewrite Hrun. reflexivity.
  - rewrite Hw, Hr, transaction_success.
    by destruct (fst (transaction e fc addr count prio data conv w)).
Qed.

(** ** The legacy [sendRequest] *)

Lemma send_result (e : Env) (fc addr count : Z) (priority : ModbusPriority)
    (data : option (list Z)) (w : World) :
  fst (sendRequestWithPriority e fc addr count priority data w) ≠ ESP_ERR_TIMEOUT.
Proof.
  unfold sendRequestWithPriority, rtu_call. run_monad.
  destruct (ModbusRegistry.getModbusRTU (registry w)); cbn; [|discriminate].
  repeat (match goal with
          | |- context [if ?fc' =? ?k then _ else _] => destruct (fc' =? k)
          end);
    repeat (match goal with
            | |- context [match data with _ => _ end] => destruct data
            | |- context [if 0 <? count then _ else _] => destruct (0 <? count)
            | |- context [alloc_ok e] => destruct (alloc_ok e)
            end; cbn);
    destruct (rtu_accepts e); discriminate.
Qed.

(** X21: the legacy [sendRequest] holds the bus mutex for the dispatch
    only: it returns with the mutex as it found it and never waits, so the
    sync context and the timeout counter are untouched.  When the mutex is
    not acquired it returns [ESP_ERR_TIMEOUT] and the device object is
    unchanged; otherwise it never returns [ESP_ERR_TIMEOUT], it counts one
    request when a transport is set, an accepted request leaves the last
    error alone, and a request the transport refused leaves
    [COMMUNICATION_ERROR]. *)
Theorem legacy_sendRequest (e : Env) (fc addr count : Z) (data : option (list Z))
    (w : World) :
  busHeld (snd (sendRequest e fc addr count data w)) = busHeld w ∧
  syncContext (this (snd (sendRequest e fc addr count data w)))
    = syncContext (this w) ∧
  timeouts (this (snd (sendRequest e fc addr count data w))) = timeouts (this w) ∧
  (acquirable e w = false →
     fst (sendRequest e fc addr count data w) = ESP_ERR_TIMEOUT ∧
     this (snd (sendRequest e fc addr count data w)) = this w) ∧
  (acquirable e w = true →
     fst (sendRequest e fc addr count data w) ≠ ESP_ERR_TIMEOUT ∧
     totalRequests (this (snd (sendRequest e fc addr count data w)))
       = (if ModbusRegistry.getModbusRTU (registry w)
          then incr32 (totalRequests (this w)) else totalRequests (this w)) ∧
     (fst (sendRequest e fc addr count data w) = ESP_OK →
        rtu_accepts e = true ∧
        lastError (this (snd (sendRequest e fc addr count data w)))
          = lastError (this w)) ∧
     (fst (sendRequest e fc addr count data w) ≠ ESP_OK →
        ModbusRegistry.getModbusRTU (registry w) = true →
        lastError (this (snd (sendRequest e fc addr count data w)))
          = COMMUNICATION_ERROR)).
Proof.
  unfold sendRequest, sendRequestInternal, bind.
  destruct (acquirable e w) eqn:Ea.
  2: { destruct (acquire_fail e MODBUS_LEGACY_MUTEX_TIMEOUT_MS w Ea)
         as (Hr & Hthis & Hheld & _).
       rewrite Hr. cbn. rewrite Hthis, Hheld.
       repeat split; discriminate. }
  destruct (acquire_ok e MODBUS_LEGACY_MUTEX_TIMEOUT_MS w Ea)
    as (Hr & Hthis & Hbv & Hfree & _).
  rewrite Hr. cbn [negb].
  set (w1 := snd (acquireBusMutex e MODBUS_LEGACY_MUTEX_TIMEOUT_MS w)) in *.
  pose proof (send_result e fc addr count RELAY data w1) as Hnt.
  destruct (send_facts e fc addr count RELAY data w1) as (Hb2 & Hc2 & Hto2 & Hs).
  cbn zeta in Hs.
  set (sent := fst (sendRequestWithPriority e fc addr count RELAY data w1)) in *.
  set (w2 := snd (sendRequestWithPriority e fc addr count RELAY data w1)) in *.
  rewrite Hbv in Hb2.
  destruct (bus_view_parts _ _ _ _ _ Hbv) as (_ & _ & Hreg1).
  destruct (bus_view_parts _ _ _ _ _ Hb2) as (_ & Hm2 & _).
  destruct (release_facts w2 Hm2) as (Hth3 & Hh3 & _).
  unfold ret. cbn [fst snd]. rewrite Hth3, Hh3, Hc2, Hto2, Hthis, Hfree.
  rewrite Hreg1 in Hs.
  split; [reflexivity|]. split; [reflexivity|]. split; [reflexivity|].
  split; [discriminate|]. intros _. split; [exact Hnt|].
  destruct Hs as [(Hrtu & Hres & Hw2)|(Hrtu & Htot & [(Hne & Hle & _)|(Hok & Hacc & Hle & _)])].
  - rewrite Hrtu, Hw2, Hthis, Hres. repeat split; try discriminate.
  - rewrite Hrtu, Htot, Hthis, Hle. repeat split; try done.
  - rewrite Hrtu, Htot, Hle, Hthis, Hok. repeat split; try done.
Qed.

Lemma legacy_sendRequest_witness :
  fst (sendRequest (env_of []) 0x03 0x0010 4 None fresh_world) ≠ ESP_ERR_TIMEOUT ∧
  totalRequests (this (snd (sendRequest (env_of []) 0x03 0x0010 4 None fresh_world))) = 1 ∧
  fst (sendRequest (env_of []) 0x03 0x0010 4 None no_bus_world) = ESP_ERR_TIMEOUT.
Proof.
  pose proof (legacy_sendRequest (env_of []) 0x03 0x0010 4 None fresh_world)
    as (_ & _ & _ & _ & Hyes).
  pose proof (legacy_sendRequest (env_of []) 0x03 0x0010 4 None no_bus_world)
    as (_ & _ & _ & Hno & _).
  destruct (Hyes eq_refl) as (Hnt & Htot & _).
  destruct (Hno eq_refl) as (Hto & _).
  split; [exact Hnt|]. split; [rewrite Htot; reflexivity|exact Hto].
Defined.

(** ** The calls end to end *)

Lemma with_value_transaction {A} (f : A → Value) (e : Env) (fc addr count : Z)
    (priority : ModbusPriority) (data : option (list Z)) (convert : list Z → A)
    (w : World) :
  with_value f (transaction e fc addr count priority data convert) w
  = transaction e fc addr count priority data (λ p, f (convert p)) w.
Proof.
  unfold with_value, transaction, bind, ret.
  destruct (fst (acquireBusMutex e MODBUS_MUTEX_TIMEOUT_MS w)); cbn [negb fst snd];
    [|reflexivity].
  destruct (bool_decide _); cbn [negb fst snd]; [|reflexivity].
  match goal with
  | |- context [fst (waitForResponse e ?w5)] => destruct (fst (waitForResponse e w5))
  end; reflexivity.
Qed.

(** Each operation, once its parameters are accepted, is the transaction
    of its parts. *)
Lemma call_as_transaction (e : Env) (c : Call) (w : World) :
  out_of_limits c = false → run_call e c w = call_transaction e c w.
Proof.
  unfold call_transaction.
  destruct c as [address count priority|address count priority|address count
                |address count|address value priority|address values
                |address value priority|address values];
    cbn [run_call out_of_limits call_parts call_value fst snd]; intros Hlim.
  - unfold readHoldingRegistersWithPriority, MODBUS_MAX_REGISTER_COUNT. rewrite Hlim.
    apply (with_value_transaction VRegisters e 0x03 address count priority None
             bytes_to_registers).
  - unfold readInputRegistersWithPriority, MODBUS_MAX_REGISTER_COUNT. rewrite Hlim.
    apply (with_value_transaction VRegisters e 0x04 address count priority None
             bytes_to_registers).
  - unfold readCoils, MODBUS_MAX_COIL_COUNT. rewrite Hlim.
    apply (with_value_transaction VCoils e 0x01 address count RELAY None
             (bytes_to_coils count)).
  - unfold readDiscreteInputs, MODBUS_MAX_COIL_COUNT. rewrite Hlim.
    apply (with_value_transaction VCoils e 0x02 address count RELAY None
             (bytes_to_coils count)).
  - apply (with_value_transaction (λ _, VVoid) e 0x06 address 1 priority
             (Some [value]) (λ _, tt)).
  - unfold writeMultipleRegisters, MODBUS_MAX_WRITE_REGISTER_COUNT. rewrite Hlim.
    apply (with_value_transaction (λ _, VVoid) e 0x10 address
             (to_uint16 (Z.of_nat (length values))) RELAY (Some values) (λ _, tt)).
  - apply (with_value_transaction (λ _, VVoid) e 0x05 address 1 priority
             (Some [if value then 1 else 0]) (λ _, tt)).
  - unfold writeMultipleCoils, MODBUS_MAX_WRITE_COIL_COUNT. rewrite Hlim.
    apply (with_value_transaction (λ _, VVoid) e 0x0F address
             (to_uint16 (Z.of_nat (length values))) RELAY (Some (pack_coils values))
             (λ _, tt)).
Qed.

Lemma limits_multiple {A} (values : list A) (limit : Z) :
  bool_decide (values = []) || (Z.of_nat (length values) >? limit) = false →
  limit < 2 ^ 16 →
  to_uint16 (Z.of_nat (length values)) = Z.of_nat (length values) ∧
  (0 <? Z.of_nat (length values)) = true ∧ Z.of_nat (length values) <= limit.
Proof.
  intros Hlim Hmax. apply orb_false_iff in Hlim as [Hne Hle].
  apply bool_decide_eq_false in Hne. rewrite Z.gtb_ltb in Hle. apply Z.ltb_ge in Hle.
  assert (0 < Z.of_nat (length values)) by (destruct values; [done|cbn; lia]).
  split; [|split; [by apply Z.ltb_lt|done]].
  unfold to_uint16. apply Z.mod_small. lia.
Qed.

(** What the dispatch of an accepted call does when a transport is set. *)
Lemma call_dispatch (e : Env) (c : Call) (w : World) :
  out_of_limits c = false →
  ModbusRegistry.getModbusRTU (registry w) = true →
  negb (needs_alloc c) || alloc_ok e = true →
  let r := sendRequestWithPriority e (call_parts c).1.1.1.1 (call_parts c).1.1.1.2
             (call_parts c).1.1.2 (call_parts c).1.2 (call_parts c).2 w in
  fst r = (if rtu_accepts e then ESP_OK else ESP_FAIL) ∧
  trace (snd r)
    = trace w ++ [EvDispatch (request_of (serverAddress (this w)) c) (rtu_accepts e)
                    (sync_flags w)].
Proof.
  intros Hlim Hrtu Halloc. cbn zeta.
  unfold sendRequestWithPriority, rtu_call. run_monad. rewrite Hrtu. cbn [negb].
  destruct c as [address count priority|address count priority|address count
                |address count|address value priority|address values
                |address value priority|address values];
    cbn [call_parts request_of needs_alloc negb orb fst snd] in *.
  - cbn. by destruct (rtu_accepts e).
  - cbn. by destruct (rtu_accepts e).
  - cbn. by destruct (rtu_accepts e).
  - cbn. by destruct (rtu_accepts e).
  - cbn. by destruct (rtu_accepts e).
  - destruct (limits_multiple values 123 Hlim ltac:(done)) as (Hc & Hpos & _).
    rewrite Hc. cbn [Z.eqb Pos.eqb]. rewrite Hpos, Halloc. cbn [negb].
    unfold fc10_byteData.
    rewrite (flat_map_at (λ v, [Z.land (Z.shiftr v 8) 0xFF; Z.land v 0xFF]) values).
    cbn. by destruct (rtu_accepts e).
  - cbn. unfold at_. cbn. by destruct value, (rtu_accepts e).
  - destruct (limits_multiple values 1968 Hlim ltac:(done)) as (Hc & Hpos & Hle).
    rewrite Hc. cbn [Z.eqb Pos.eqb]. rewrite Hpos, Halloc. cbn [negb].
    rewrite unpack_pack_coils. cbn. by destruct (rtu_accepts e).
Qed.

Lemma routed_view (c : Callback) (w w' : World) :
  registry w' = registry w → this_ptr w' = this_ptr w →
  routed_here c w' = routed_here c w.
Proof.
  unfold routed_here, callback_target. intros Hr Hp. destruct c; by rewrite Hr, Hp.
Qed.

Lemma ensure_ready (e : Env) (w : World) :
  sync_available e w = true →
  ctx_ready (snd (ensureSyncReady e w)) = Some true ∧
  syncMutex (this (snd (ensureSyncReady e w))) = sync_lockable e w ∧
  counters (this (snd (ensureSyncReady e w))) = counters (this w).
Proof.
  unfold sync_available, sync_lockable, ensureSyncReady, ctx_ready, counters. run_monad.
  destruct (syncContext (this w)) as [c|] eqn:Ec; cbn.
  - destruct (semaphore c) eqn:Es; [|discriminate]. intros _.
    destruct (syncMutex (this w)) eqn:Em; cbn; rewrite ?Ec; cbn; rewrite ?Es, ?Em;
      done.
  - intros ->. cbn. destruct (syncMutex (this w)) eqn:Em; cbn; rewrite ?Em; done.
Qed.

Lemma send_accepted (e : Env) (fc addr count : Z) (priority : ModbusPriority)
    (data : option (list Z)) (w : World) :
  fst (sendRequestWithPriority e fc addr count priority data w) = ESP_OK →
  syncMutex (this (snd (sendRequestWithPriority e fc addr count priority data w)))
    = syncMutex (this w) ∧
  counters (this (snd (sendRequestWithPriority e fc addr count priority data w)))
    = counters (this w).
Proof.
  unfold sendRequestWithPriority, rtu_call, counters. run_monad.
  destruct (ModbusRegistry.getModbusRTU (registry w)); cbn; [|discriminate].
  repeat (match goal with
          | |- context [if ?fc' =? ?k then _ else _] => destruct (fc' =? k)
          end);
    repeat (match goal with
            | |- context [match data with _ => _ end] => destruct data
            | |- context [if 0 <? count then _ else _] => destruct (0 <? count)
            | |- context [alloc_ok e] => destruct (alloc_ok e)
            end; cbn);
    destruct (rtu_accepts e); cbn; intros H; try discriminate H; done.
Qed.

(** [handleModbusResponse] touches the queue and the count of
    [onQueueFull] calls only. *)
Lemma response_frame (fc addr : Z) (data : option (list Z)) (len tick : Z) (w : World) :
  syncContext (this (snd (handleModbusResponse fc addr data len tick w)))
    = syncContext (this w) ∧
  counters (this (snd (handleModbusResponse fc addr data len tick w)))
    = counters (this w).
Proof.
  unfold handleModbusResponse, QueuedModbusDevice_handleModbusResponse,
    ModbusDevice_handleModbusResponse, onQueueFull, xQueueSend, counters.
  unfold bind, ret, gets, modify_this, modify, when.
  destruct w as [d ptr reg mm held eg qf tr].
  destruct d as [sa ph le tot suc tmo crc c0 sm g rb eb [| |[[[cap its]|] am]]];
    cbn -[Nat.ltb]; try done.
  destruct (bool_decide (ph = CONFIGURING) || negb am); cbn -[Nat.ltb]; [done|].
  by destruct (length its <? cap)%nat.
Qed.

(** A response handed to this object while a request is pending. *)
Lemma deliver_data (server fc start : Z) (buf : list Z) (len : Z) (ml : bool)
    (tick : Z) (w : World) (ctx : SyncContext) :
  routed_here (OnData server fc start (Some buf) len ml true tick) w = true →
  syncContext (this w) = Some ctx → syncMutex (this w) = true →
  responseReceived ctx = false → (0 <? len) || isWriteOp fc = true →
  syncContext
    (this (snd (deliver (OnData server fc start (Some buf) len ml true tick) w)))
    = Some (mkSyncContext (stored_payload buf len) true (errorOccurred ctx) (error ctx)
              (xSemaphoreGive_sync (semaphore ctx))) ∧
  counters (this (snd (deliver (OnData server fc start (Some buf) len ml true tick) w)))
    = counters (this w).
Proof.
  unfold routed_here, callback_target, isWriteOp, stored_payload.
  intros Hr Hctx Hm Hrr Hacc. apply andb_true_iff in Hr as [Hnn Hself].
  apply negb_true_iff in Hnn.
  unfold deliver, mainHandleData, handleData, bind, gets. cbn [fst snd].
  rewrite Hnn, Hself, Hctx, Hm, Hrr. cbn [andb negb]. rewrite Hacc.
  match goal with
  | |- context [handleModbusResponse ?a ?b ?c ?d ?t ?wX] =>
      destruct (response_frame a b c d t wX) as [-> ->]
  end.
  unfold modify_this, modify. cbn. done.
Qed.

(** An error handed to this object while a request is pending. *)
Lemma deliver_error (server : Z) (err : esp32Modbus_Error) (ml : bool) (w : World)
    (ctx : SyncContext) :
  routed_here (OnError server err ml true) w = true →
  syncContext (this w) = Some ctx → syncMutex (this w) = true →
  responseReceived ctx = false → errorOccurred ctx = false →
  syncContext (this (snd (deliver (OnError server err ml true) w)))
    = Some (mkSyncContext (responseData ctx) false true (mapError err)
              (xSemaphoreGive_sync (semaphore ctx))) ∧
  counters (this (snd (deliver (OnError server err ml true) w)))
    = (mapError err, timeouts (this w),
       match err with
       | E_CRC_ERROR => incr32 (crcErrors (this w))
       | _ => crcErrors (this w)
       end).
Proof.
  unfold routed_here, callback_target, counters.
  intros Hr Hctx Hm Hrr Heo. apply andb_true_iff in Hr as [Hnn Hself].
  apply negb_true_iff in Hnn.
  unfold deliver, global_handleError, handleError, handleModbusError.
  unfold bind, gets, when, modify_this, modify, ret. cbn [fst snd].
  rewrite Hnn, Hself, Hctx, Hm, Hrr, Heo. cbn [andb negb].
  destruct w as [d ptr reg mm held eg qf tr]. cbn in *.
  destruct err; cbn; done.
Qed.

Lemma ready_context (w : World) :
  ctx_ready w = Some true →
  ∃ c tok, syncContext (this w) = Some c ∧ semaphore c = Some tok.
Proof.
  unfold ctx_ready. intros H.
  destruct (syncContext (this w)) as [c|]; cbn in H; [|discriminate].
  destruct (semaphore c) as [tok|] eqn:Es; [|discriminate]. eauto.
Qed.

(** The wait when no callback reaches this object. *)
Lemma wait_timeout (e : Env) (w : World) :
  ctx_ready w = Some true →
  Forall (λ c, routed_here c w = false) (cb_during_wait e) →
  fst (waitForResponse e w) = Err TIMEOUT ∧
  counters (this (snd (waitForResponse e w)))
    = (TIMEOUT, incr32 (timeouts (this w)), crcErrors (this w)).
Proof.
  intros Hready Hcs. destruct (ready_context w Hready) as (c & tok & Ec & Es).
  unfold waitForResponse, xSemaphoreTake_sync, bind, gets. cbn [fst snd].
  rewrite Ec, Es. unfold modify_this, modify. cbn [fst snd].
  match goal with
  | |- context [transport_runs _ ?wB] =>
      rewrite (runs_unrouted (cb_during_wait e) wB)
        by (eapply Forall_impl; [exact Hcs|];
            intros cb Hcb; by rewrite (routed_view cb w wB eq_refl eq_refl))
  end.
  cbn. destruct tok; cbn; done.
Qed.

(** The wait when the transport reports an error meanwhile. *)
Lemma wait_error (e : Env) (w : World) (server : Z) (err : esp32Modbus_Error)
    (ml : bool) :
  ctx_ready w = Some true → syncMutex (this w) = true →
  cb_during_wait e = [OnError server err ml true] →
  routed_here (OnError server err ml true) w = true →
  fst (waitForResponse e w) = Err (mapError err) ∧
  counters (this (snd (waitForResponse e w)))
    = (mapError err, timeouts (this w),
       match err with
       | E_CRC_ERROR => incr32 (crcErrors (this w))
       | _ => crcErrors (this w)
       end).
Proof.
  intros Hready Hm Hcs Hr. destruct (ready_context w Hready) as (c & tok & Ec & Es).
  unfold waitForResponse, xSemaphoreTake_sync, bind, gets. cbn [fst snd].
  rewrite Ec, Es, Hcs. unfold modify_this, modify. cbn [fst snd transport_runs].
  unfold bind. cbn [fst snd].
  match goal with
  | |- context [deliver ?cb ?wB] =>
      destruct (deliver_error server err ml wB
                  (mkSyncContext [] false false (error c) (Some tok)))
        as [Hctx Hcnt];
        [by rewrite (routed_view cb w wB eq_refl eq_refl)|reflexivity|exact Hm
        |reflexivity|reflexivity|];
        remember (snd (deliver cb wB)) as w2 eqn:Hw2; clear Hw2
  end.
  cbn in Hcnt. unfold ret. cbn [fst snd]. rewrite Hctx. cbn.
  split; [reflexivity|exact Hcnt].
Qed.

(** The wait when the transport delivers a response meanwhile. *)
Lemma wait_data (e : Env) (w : World) (server fc start : Z) (buf : list Z) (len : Z)
    (ml : bool) (tick : Z) :
  ctx_ready w = Some true → syncMutex (this w) = true →
  cb_during_wait e = [OnData server fc start (Some buf) len ml true tick] →
  routed_here (OnData server fc start (Some buf) len ml true tick) w = true →
  (0 <? len) || isWriteOp fc = true →
  fst (waitForResponse e w) = Ok (stored_payload buf len) ∧
  counters (this (snd (waitForResponse e w))) = counters (this w).
Proof.
  intros Hready Hm Hcs Hr Hacc.
  destruct (ready_context w Hready) as (c & tok & Ec & Es).
  unfold waitForResponse, xSemaphoreTake_sync, bind, gets. cbn [fst snd].
  rewrite Ec, Es, Hcs. unfold modify_this, modify. cbn [fst snd transport_runs].
  unfold bind. cbn [fst snd].
  match goal with
  | |- context [deliver ?cb ?wB] =>
      destruct (deliver_data server fc start buf len ml tick wB
                  (mkSyncContext [] false false (error c) (Some tok)))
        as [Hctx Hcnt];
        [by rewrite (routed_view cb w wB eq_refl eq_refl)|reflexivity|exact Hm
        |reflexivity|exact Hacc|];
        remember (snd (deliver cb wB)) as w2 eqn:Hw2; clear Hw2
  end.
  cbn in Hcnt. unfold ret. cbn [fst snd]. rewrite Hctx. cbn.
  split; [reflexivity|exact Hcnt].
Qed.

Lemma ensure_address (e : Env) (w : World) :
  serverAddress (this (snd (ensureSyncReady e w))) = serverAddress (this w).
Proof.
  unfold ensureSyncReady. run_monad.
  destruct (syncContext (this w)) as [c|] eqn:Ec; cbn.
  - destruct (syncMutex (this w)); reflexivity.
  - destruct (sem_create_ok e); cbn; [|reflexivity].
    destruct (syncMutex (this w)); reflexivity.
Qed.

Lemma dispatches_parts (e : Env) (c : Call) (w : World) :
  dispatches e c w = true →
  out_of_limits c = false ∧ acquirable e w = true ∧
  ModbusRegistry.getModbusRTU (registry w) = true ∧
  negb (needs_alloc c) || alloc_ok e = true ∧ rtu_accepts e = true.
Proof.
  unfold dispatches, reaches_dispatch. intros H.
  repeat (apply andb_true_iff in H as [H ?]). apply negb_true_iff in H. done.
Qed.

(** An accepted call up to the point where it calls [waitForResponse]:
    [w4] is the world at that point. *)
Lemma call_reaches_wait (e : Env) (c : Call) (w : World) :
  dispatches e c w = true → sync_available e w = true →
  ∃ w4,
    registry w4 = registry w ∧ this_ptr w4 = this_ptr w ∧
    ctx_ready w4 = Some true ∧
    trace w4 = trace w ++ [EvBusTake true;
                           EvDispatch (request_of (serverAddress (this w)) c) true
                             (flags_left e w)] ∧
    (Forall (λ cb, routed_here cb w = false) (cb_before_wait e) →
       syncMutex (this w4) = sync_lockable e w ∧
       counters (this w4) = counters (this w)) ∧
    fst (run_call e c w)
      = match fst (waitForResponse e w4) with
        | Ok payload => Ok (call_value c payload)
        | Err err => Err err
        end ∧
    this (snd (run_call e c w)) = this (snd (waitForResponse e w4)) ∧
    busHeld (snd (run_call e c w)) = false ∧
    trace (snd (run_call e c w)) = trace (snd (waitForResponse e w4)) ++ [EvBusGive].
Proof.
  intros Hd Hsync.
  destruct (dispatches_parts e c w Hd) as (Hlim & Ha & Hrtu & Halloc & Hacc).
  rewrite (call_as_transaction e c w Hlim). unfold call_transaction, transaction, bind.
  destruct (acquire_ok e MODBUS_MUTEX_TIMEOUT_MS w Ha) as (Hr & Hthis & Hbv & _ & Htr).
  rewrite Hr. cbn [negb].
  set (w1 := snd (acquireBusMutex e MODBUS_MUTEX_TIMEOUT_MS w)) in *.
  assert (Hfl : flags_left e w1 = flags_left e w) by (unfold flags_left; by rewrite Hthis).
  assert (Hs1 : sync_available e w1 = true) by (unfold sync_available; by rewrite Hthis).
  destruct (ensure_facts e w1) as (Hb2 & Ht2 & _ & _ & _ & Hfl2).
  destruct (ensure_ready e w1 Hs1) as (Hrdy2 & Hm2 & Hcnt2).
  pose proof (ensure_address e w1) as Haddr2.
  set (w2 := snd (ensureSyncReady e w1)) in *.
  rewrite Hbv in Hb2. rewrite Hfl in Hfl2. rewrite Hthis in Hcnt2, Haddr2.
  destruct (bus_view_parts _ _ _ _ _ Hb2) as (_ & _ & Hreg2).
  assert (Hrtu2 : ModbusRegistry.getModbusRTU (registry w2) = true) by (by rewrite Hreg2).
  destruct (call_dispatch e c w2 Hlim Hrtu2 Halloc) as [Hsent Htr3]. cbn zeta in *.
  rewrite Hacc in Hsent, Htr3.
  destruct (send_facts e (call_parts c).1.1.1.1 (call_parts c).1.1.1.2
              (call_parts c).1.1.2 (call_parts c).1.2 (call_parts c).2 w2)
    as (Hb3 & Hc3 & _ & _).
  destruct (send_accepted e _ _ _ _ _ w2 Hsent) as [Hm3 Hcnt3].
  rewrite Hsent. rewrite bool_decide_eq_true_2 by reflexivity. cbn [negb].
  set (w3 := snd (sendRequestWithPriority e (call_parts c).1.1.1.1
                    (call_parts c).1.1.1.2 (call_parts c).1.1.2 (call_parts c).1.2
                    (call_parts c).2 w2)) in *.
  rewrite Hb2 in Hb3.
  assert (Hrdy3 : ctx_ready w3 = Some true) by (unfold ctx_ready in *; by rewrite Hc3).
  destruct (view_parts _ _ (transport_runs_view (cb_before_wait e) w3))
    as (Hb4 & Ht4 & _ & _ & _ & Hrdy4).
  set (w4 := snd (transport_runs (cb_before_wait e) w3)) in *.
  rewrite Hb3 in Hb4.
  destruct (bus_view_parts _ _ _ _ _ Hb3) as (_ & _ & Hreg3).
  assert (Hptr3 : this_ptr w3 = this_ptr w) by (unfold bus_view in Hb3; congruence).
  destruct (wait_facts e w4) as (Hb5 & _). cbn zeta in Hb5. rewrite Hb4 in Hb5.
  destruct (bus_view_parts _ _ _ _ _ Hb5) as (_ & Hmm5 & _).
  destruct (release_facts _ Hmm5) as (Hth6 & Hh6 & Htr6).
  exists w4. split; [unfold bus_view in Hb4; congruence|].
  split; [unfold bus_view in Hb4; congruence|].
  split; [by rewrite Hrdy4|].
  split.
  { rewrite Ht4, Htr3, Ht2, Htr, Haddr2, Hfl2, <- app_assoc. reflexivity. }
  split.
  { intros Hun. unfold w4.
    rewrite (runs_unrouted (cb_before_wait e) w3)
      by (eapply Forall_impl; [exact Hun|];
          intros cb Hcb; by rewrite (routed_view cb w w3 Hreg3 Hptr3)).
    cbn [snd]. rewrite Hm3, Hm2, Hcnt3, Hcnt2. unfold sync_lockable.
    by rewrite Hthis. }
  destruct (fst (waitForResponse e w4)) as [payload|err]; unfold ret; cbn [fst snd];
    rewrite Hth6, Hh6, Htr6; done.
Qed.

(** X22: a call whose parameters are accepted, that acquires the bus
    mutex, finds a transport and a sync context, and whose request the
    transport accepts, appends exactly four events: the take of the bus
    mutex, the dispatch, the wait and the give.  The request handed to the
    transport carries the server address of the device and the address,
    count and priority of the call; a multiple register write carries its
    values as big-endian byte pairs and a multiple coil write its coils
    unchanged. *)
Theorem dispatched_request (e : Env) (c : Call) (w : World) :
  dispatches e c w = true → sync_available e w = true →
  emitted e c w
  = [EvBusTake true;
     EvDispatch (request_of (serverAddress (this w)) c) true (flags_left e w);
     EvWait (Some (false, false));
     EvBusGive].
Proof.
  intros Hd Hsync.
  destruct (call_reaches_wait e c w Hd Hsync)
    as (w4 & _ & _ & Hrdy & Htr4 & _ & _ & _ & _ & Htr).
  destruct (wait_facts e w4) as (_ & _ & [(Hno & _)|(_ & Htw & _)]);
    [by rewrite Hrdy in Hno|].
  apply emitted_of. rewrite Htr, Htw, Htr4, <- !app_assoc. reflexivity.
Qed.

Lemma dispatched_request_witness :
  emitted (env_of []) (WriteMultipleCoils 0x20 [true; false; true]) fresh_world
  = [EvBusTake true;
     EvDispatch (ReqWriteMultipleCoils 1 0x20 3 [true; false; true] RELAY) true
       (Some (false, false));
     EvWait (Some (false, false));
     EvBusGive].
Proof.
  apply (dispatched_request (env_of []) (WriteMultipleCoils 0x20 [true; false; true])
           fresh_world); reflexivity.
Defined.

(** X23: when such a call gets no answer, that is when every callback that
    arrives before or during the wait is for an address the registry does
    not map to this object, the call returns [TIMEOUT], counts one time-out,
    leaves [TIMEOUT] as the last error and returns with the bus mutex
    released. *)
Theorem no_reply_times_out (e : Env) (c : Call) (w : World) :
  dispatches e c w = true → sync_available e w = true →
  Forall (λ cb, routed_here cb w = false) (cb_before_wait e ++ cb_during_wait e) →
  fst (run_call e c w) = Err TIMEOUT ∧
  timeouts (this (snd (run_call e c w))) = incr32 (timeouts (this w)) ∧
  lastError (this (snd (run_call e c w))) = TIMEOUT ∧
  crcErrors (this (snd (run_call e c w))) = crcErrors (this w) ∧
  busHeld (snd (run_call e c w)) = false.
Proof.
  intros Hd Hsync Hun. apply Forall_app in Hun as [Hbefore Hduring].
  destruct (call_reaches_wait e c w Hd Hsync)
    as (w4 & Hreg & Hptr & Hrdy & _ & Hunr & Hres & Hthis & Hheld & _).
  destruct (Hunr Hbefore) as [_ Hcnt].
  destruct (wait_timeout e w4 Hrdy) as [Hw Hc].
  { eapply Forall_impl; [exact Hduring|].
    intros cb Hcb. by rewrite (routed_view cb w w4 Hreg Hptr). }
  rewrite Hres, Hw, Hthis. unfold counters in *.
  injection Hcnt as _ Hto Hcrc. injection Hc as Hle Hto' Hcrc'.
  rewrite Hle, Hto', Hcrc', Hto, Hcrc. done.
Qed.

Lemma no_reply_times_out_witness :
  fst (run_call env_strangers (ReadInputRegisters 0x0010 2 SENSOR) fresh_world)
    = Err TIMEOUT ∧
  timeouts (this (snd (run_call env_strangers (ReadInputRegisters 0x0010 2 SENSOR)
                         fresh_world))) = 1.
Proof.
  assert (Hun : Forall (λ cb, routed_here cb fresh_world = false)
                  (cb_before_wait env_strangers ++ cb_during_wait env_strangers))
    by (repeat constructor).
  pose proof (no_reply_times_out env_strangers (ReadInputRegisters 0x0010 2 SENSOR)
                fresh_world eq_refl eq_refl Hun) as (Hr & Hto & _).
  split; [exact Hr|]. rewrite Hto. reflexivity.
Defined.

(** Whatever the transport delivers between the dispatch and the wait, be
    it the response or an error for this very device, does not reach the
    caller: with nothing routed here during the wait the call returns
    [TIMEOUT]. *)
Lemma answers_before_wait_are_discarded (e : Env) (c : Call) (w : World) :
  dispatches e c w = true → sync_available e w = true →
  Forall (λ cb, routed_here cb w = false) (cb_during_wait e) →
  fst (run_call e c w) = Err TIMEOUT.
Proof.
  intros Hd Hsync Hduring.
  destruct (call_reaches_wait e c w Hd Hsync)
    as (w4 & Hreg & Hptr & Hrdy & _ & _ & Hres & _).
  destruct (wait_timeout e w4 Hrdy) as [Hw _].
  { eapply Forall_impl; [exact Hduring|].
    intros cb Hcb. by rewrite (routed_view cb w w4 Hreg Hptr). }
  by rewrite Hres, Hw.
Qed.

(** X24: when the transport reports an error for this device while such a
    call waits, and the sync mutex exists and is free, the call returns the
    mapped error and leaves it as the last error; a CRC error is counted,
    and the time-out counter does not move. *)
Theorem error_reply_reported (e : Env) (c : Call) (w : World) (server : Z)
    (err : esp32Modbus_Error) (ml : bool) :
  dispatches e c w = true → sync_available e w = true → sync_lockable e w = true →
  Forall (λ cb, routed_here cb w = false) (cb_before_wait e) →
  cb_during_wait e = [OnError server err ml true] →
  routed_here (OnError server err ml true) w = true →
  fst (run_call e c w) = Err (mapError err) ∧
  lastError (this (snd (run_call e c w))) = mapError err ∧
  timeouts (this (snd (run_call e c w))) = timeouts (this w) ∧
  crcErrors (this (snd (run_call e c w)))
    = match err with
      | E_CRC_ERROR => incr32 (crcErrors (this w))
      | _ => crcErrors (this w)
      end.
Proof.
  intros Hd Hsync Hlock Hbefore Hduring Hrouted.
  destruct (call_reaches_wait e c w Hd Hsync)
    as (w4 & Hreg & Hptr & Hrdy & _ & Hunr & Hres & Hthis & _).
  destruct (Hunr Hbefore) as [Hm Hcnt]. rewrite Hlock in Hm.
  destruct (wait_error e w4 server err ml Hrdy Hm Hduring) as [Hw Hc].
  { by rewrite (routed_view _ w w4 Hreg Hptr). }
  rewrite Hres, Hw, Hthis. unfold counters in *.
  injection Hcnt as _ Hto Hcrc. injection Hc as Hle Hto' Hcrc'.
  rewrite Hle, Hto', Hcrc', Hto, Hcrc. done.
Qed.

Lemma error_reply_reported_witness :
  fst (run_call env_crc_error (ReadCoils 0 8) fresh_world) = Err CRC_ERROR ∧
  crcErrors (this (snd (run_call env_crc_error (ReadCoils 0 8) fresh_world))) = 1.
Proof.
  pose proof (error_reply_reported env_crc_error (ReadCoils 0 8) fresh_world
                1 E_CRC_ERROR true eq_refl eq_refl eq_refl
                (List.Forall_nil _) eq_refl eq_refl) as (Hr & _ & _ & Hcrc).
  split; [exact Hr|]. rewrite Hcrc. reflexivity.
Defined.

(** X25: when the transport delivers a response for this device while such
    a call waits, with data, and with at least one byte unless its function
    code is a write, and the sync mutex exists and is free, the call
    returns the value its operation makes of the first [length] bytes,
    whatever function code and address the response carries; the last
    error and the time-out counter are left as they were. *)
Theorem reply_returns_value (e : Env) (c : Call) (w : World) (server fc start : Z)
    (buf : list Z) (len : Z) (ml : bool) (tick : Z) :
  dispatches e c w = true → sync_available e w = true → sync_lockable e w = true →
  Forall (λ cb, routed_here cb w = false) (cb_before_wait e) →
  cb_during_wait e = [OnData server fc start (Some buf) len ml true tick] →
  routed_here (OnData server fc start (Some buf) len ml true tick) w = true →
  (0 <? len) || isWriteOp fc = true →
  fst (run_call e c w) = Ok (call_value c (stored_payload buf len)) ∧
  lastError (this (snd (run_call e c w))) = lastError (this w) ∧
  timeouts (this (snd (run_call e c w))) = timeouts (this w).
Proof.
  intros Hd Hsync Hlock Hbefore Hduring Hrouted Hacc.
  destruct (call_reaches_wait e c w Hd Hsync)
    as (w4 & Hreg & Hptr & Hrdy & _ & Hunr & Hres & Hthis & _).
  destruct (Hunr Hbefore) as [Hm Hcnt]. rewrite Hlock in Hm.
  destruct (wait_data e w4 server fc start buf len ml tick Hrdy Hm Hduring) as [Hw Hc];
    [by rewrite (routed_view _ w w4 Hreg Hptr)|exact Hacc|].
  rewrite Hres, Hw, Hthis. unfold counters in *. rewrite Hcnt in Hc.
  injection Hc as Hle Hto _. by rewrite Hle, Hto.
Qed.

Lemma reply_returns_value_witness :
  fst (run_call (env_of [response_10_40]) (ReadHoldingRegisters 0x0010 4 RELAY)
         fresh_world) = Ok (VRegisters [10; 20; 30; 40]).
Proof.
  pose proof (reply_returns_value (env_of [response_10_40])
                (ReadHoldingRegisters 0x0010 4 RELAY) fresh_world
                1 0x03 0x0010 payload_10_40 8 true 0
                eq_refl eq_refl eq_refl (List.Forall_nil _) eq_refl eq_refl eq_refl)
    as (Hr & _).
  rewrite Hr. reflexivity.
Defined.

(** ** What the calls and the callbacks leave alone *)

Lemma deliver_identity (c : Callback) (w : World) :
  identity (this (snd (deliver c w))) = identity (this w) ∧
  eventGroups (snd (deliver c w)) = eventGroups w.
Proof.
  destruct c as [server fc start data len ml sl tick|server err ml sl];
    unfold deliver, mainHandleData, global_handleError, handleData, handleError,
      handleModbusResponse, QueuedModbusDevice_handleModbusResponse,
      ModbusDevice_handleModbusResponse, handleModbusError, onQueueFull;
    run_monad; unfold identity;
    destruct w as [d ptr reg mm held eg qf tr];
    destruct d as [sa ph le tot suc tmo crc [[rd rr eo er [tok|]]|] sm g rb eb cls];
    cbn; repeat (case_match; cbn; try done).
Qed.

Lemma runs_identity (cs : list Callback) (w : World) :
  identity (this (snd (transport_runs cs w))) = identity (this w) ∧
  eventGroups (snd (transport_runs cs w)) = eventGroups w.
Proof.
  revert w. induction cs as [|c cs IH]; intros w; [done|].
  cbn [transport_runs]. unfold bind. destruct (IH (snd (deliver c w))) as [-> ->].
  apply deliver_identity.
Qed.

Lemma acquire_groups (e : Env) (t : Z) (w : World) :
  eventGroups (snd (acquireBusMutex e t w)) = eventGroups w.
Proof.
  unfold acquireBusMutex, xSemaphoreTake_bus. run_monad.
  destruct (modbusMutex w); cbn.
  - by destruct (bus_free e && negb (busHeld w)).
  - destruct (ModbusRegistry.getBusMutex (registry w)); cbn; [|done].
    by destruct (bus_free e && negb (busHeld w)).
Qed.

Lemma ensure_identity (e : Env) (w : World) :
  identity (this (snd (ensureSyncReady e w))) = identity (this w) ∧
  eventGroups (snd (ensureSyncReady e w)) = eventGroups w.
Proof.
  unfold ensureSyncReady, identity. run_monad.
  destruct (syncContext (this w)) as [c|] eqn:Ec; cbn.
  - by destruct (syncMutex (this w)).
  - destruct (sem_create_ok e); cbn; [|done]. by destruct (syncMutex (this w)).
Qed.

Lemma send_identity (e : Env) (fc addr count : Z) (priority : ModbusPriority)
    (data : option (list Z)) (w : World) :
  identity (this (snd (sendRequestWithPriority e fc addr count priority data w)))
    = identity (this w) ∧
  eventGroups (snd (sendRequestWithPriority e fc addr count priority data w))
    = eventGroups w.
Proof.
  unfold sendRequestWithPriority, rtu_call, identity. run_monad.
  destruct (ModbusRegistry.getModbusRTU (registry w)); cbn; [|done].
  repeat (match goal with
          | |- context [if ?fc' =? ?k then _ else _] => destruct (fc' =? k)
          end);
    repeat (match goal with
            | |- context [match data with _ => _ end] => destruct data
            | |- context [if 0 <? count then _ else _] => destruct (0 <? count)
            | |- context [alloc_ok e] => destruct (alloc_ok e)
            end; cbn);
    destruct (rtu_accepts e); done.
Qed.

Lemma wait_identity (e : Env) (w : World) :
  identity (this (snd (waitForResponse e w))) = identity (this w) ∧
  eventGroups (snd (waitForResponse e w)) = eventGroups w.
Proof.
  unfold waitForResponse, xSemaphoreTake_sync. run_monad.
  destruct (syncContext (this w)) as [c|] eqn:Ec; cbn; [|done].
  destruct (semaphore c) as [tok|] eqn:Es; cbn; [|done].
  match goal with
  | |- context [transport_runs ?cs ?w1] =>
      destruct (runs_identity cs w1) as [Hi Hg];
      remember (snd (transport_runs cs w1)) as w2 eqn:Hw2; clear Hw2
  end.
  cbn in Hi, Hg. unfold identity in *.
  destruct (syncContext (this w2)) as [c2|] eqn:Ec2; cbn; [|done].
  destruct (semaphore c2) as [[|]|] eqn:Es2; cbn; rewrite ?Ec2; cbn; try done.
  destruct (errorOccurred c2); cbn; [done|].
  destruct (responseReceived c2); cbn; done.
Qed.

Lemma release_groups (w : World) :
  eventGroups (snd (releaseBusMutex w)) = eventGroups w.
Proof.
  unfold releaseBusMutex, xSemaphoreGive_bus. run_monad.
  by destruct (modbusMutex w).
Qed.

Lemma transaction_identity {A} (e : Env) (fc addr count : Z)
    (priority : ModbusPriority) (data : option (list Z)) (convert : list Z → A)
    (w : World) :
  identity (this (snd (transaction e fc addr count priority data convert w)))
    = identity (this w) ∧
  eventGroups (snd (transaction e fc addr count priority data convert w))
    = eventGroups w.
Proof.
  unfold transaction, bind.
  pose proof (acquire_this e MODBUS_MUTEX_TIMEOUT_MS w) as Hacq.
  pose proof (acquire_groups e MODBUS_MUTEX_TIMEOUT_MS w) as Hacg.
  destruct (fst (acquireBusMutex e MODBUS_MUTEX_TIMEOUT_MS w)); cbn [negb];
    [|cbn; by rewrite Hacq, Hacg].
  set (w1 := snd (acquireBusMutex e MODBUS_MUTEX_TIMEOUT_MS w)) in *.
  destruct (ensure_identity e w1) as [Hens Heng].
  set (w2 := snd (ensureSyncReady e w1)) in *.
  destruct (send_identity e fc addr count priority data w2) as [Hsend Hseg].
  set (w3 := snd (sendRequestWithPriority e fc addr count priority data w2)) in *.
  assert (H3 : identity (this w3) = identity (this w) ∧ eventGroups w3 = eventGroups w).
  { rewrite Hsend, Hens, Hacq, Hseg, Heng, Hacg. done. }
  destruct H3 as [H3 G3].
  destruct (bool_decide _); cbn [negb].
  - destruct (runs_identity (cb_before_wait e) w3) as [Hcb Hcg].
    set (w4 := snd (transport_runs (cb_before_wait e) w3)) in *.
    destruct (wait_identity e w4) as [Hwait Hwg].
    destruct (fst (waitForResponse e w4)) as [payload|err];
      unfold ret; cbn [fst snd];
      rewrite release_this, release_groups, Hwait, Hwg, Hcb, Hcg, H3, G3; done.
  - unfold ret. cbn [fst snd]. by rewrite release_this, release_groups.
Qed.

Lemma call_identity (e : Env) (c : Call) (w : World) :
  identity (this (snd (run_call e c w))) = identity (this w) ∧
  eventGroups (snd (run_call e c w)) = eventGroups w.
Proof.
  destruct (transaction_unfold e c w)
    as [(_ & ->)|(_ & A & fc & addr & count & prio & data & conv & -> & _)];
    [done|apply transaction_identity].
Qed.

(** X26: no synchronous call, whatever its outcome and whatever callbacks
    arrive meanwhile, changes the server address, the lifecycle phase or
    the registered event group and bits of the device, and none sets an
    event bit. *)
Theorem calls_keep_identity (e : Env) (c : Call) (w : World) :
  getServerAddress (this (snd (run_call e c w))) = getServerAddress (this w) ∧
  getInitPhase (this (snd (run_call e c w))) = getInitPhase (this w) ∧
  eventGroup (this (snd (run_call e c w))) = eventGroup (this w) ∧
  (∀ g, getEventBits g (snd (run_call e c w)) = getEventBits g w).
Proof.
  destruct (call_identity e c w) as [Hi Hg].
  unfold identity in Hi. injection Hi as Ha Hp Hgr _ _.
  unfold getServerAddress, getInitPhase, getEventBits. rewrite Hg. done.
Qed.

(** ** The simple device *)

Lemma setInitPhase_facts (phase : InitPhase) (w : World) :
  initPhase (this (snd (setInitPhase phase w))) = phase ∧
  serverAddress (this (snd (setInitPhase phase w))) = serverAddress (this w) ∧
  this_ptr (snd (setInitPhase phase w)) = this_ptr w ∧
  registry (snd (setInitPhase phase w)) = registry w.
Proof.
  unfold setInitPhase, xEventGroupSetBits. run_monad.
  destruct (bool_decide _); cbn; [done|].
  destruct (eventGroup (this w)); cbn; [|done].
  destruct (bool_decide (phase = READY) && _); cbn; [done|].
  destruct (bool_decide (phase = ERROR) && _); cbn; done.
Qed.

Lemma resize_length (n : nat) (l : list Z) : length (resize n l) = n.
Proof. unfold resize. rewrite length_app, length_take, length_replicate. lia. Qed.

(** X27: [initialize] of a simple device returns true only with the device
    in [READY] and with one value slot for each channel, whatever
    [configure] did; it returns false only with the device in [ERROR]; and
    when the registry refuses the registration it returns false without
    consulting [configure], so channels and values are as they were. *)
Theorem initialize_outcome (lock : bool)
    (configure : SimpleModbusDevice → bool * SimpleModbusDevice)
    (s : SimpleModbusDevice) :
  (fst (initialize lock configure s) = true →
     getInitPhase (this (base (snd (initialize lock configure s)))) = READY ∧
     length (values (snd (initialize lock configure s)))
       = getChannelCount (snd (initialize lock configure s))) ∧
  (fst (initialize lock configure s) = false →
     getInitPhase (this (base (snd (initialize lock configure s)))) = ERROR) ∧
  (fst (ModbusRegistry.registerDevice lock (serverAddress (this (base s)))
          (this_ptr (base s)) (registry (base s))) = false →
     fst (initialize lock configure s) = false ∧
     channels (snd (initialize lock configure s)) = channels s ∧
     values (snd (initialize lock configure s)) = values s).
Proof.
  unfold initialize, registerDevice, getInitPhase, getChannelCount.
  destruct (setInitPhase_facts CONFIGURING (base s)) as (_ & Ha & Hp & Hr).
  set (w1 := snd (setInitPhase CONFIGURING (base s))) in *.
  rewrite Ha, Hp, Hr. cbn [fst snd].
  destruct (fst (ModbusRegistry.registerDevice lock (serverAddress (this (base s)))
                   (this_ptr (base s)) (registry (base s)))) eqn:Hreg;
    cbn [negb bool_decide decide_rel].
  - rewrite bool_decide_eq_true_2 by reflexivity. cbn [negb].
    match goal with
    | |- context [configure ?s1] => destruct (configure s1) as [[|] s2]
    end; cbn [negb fst snd base values channels set_base set_values].
    + split; [intros _|split; [discriminate|discriminate]].
      split; [apply setInitPhase_facts|apply resize_length].
    + split; [discriminate|]. split; [intros _; apply setInitPhase_facts|discriminate].
  - rewrite bool_decide_eq_false_2 by discriminate.
    cbn [negb fst snd base values channels set_base].
    split; [discriminate|]. split; [intros _; apply setInitPhase_facts|done].
Qed.

Lemma initialize_outcome_witness :
  getInitPhase (this (base (snd (initialize true configure_one simple_new)))) = READY ∧
  length (values (snd (initialize true configure_one simple_new))) = 1%nat ∧
  getInitPhase (this (base (snd (initialize false configure_one simple_new)))) = ERROR ∧
  channels (snd (initialize false configure_one simple_new)) = [].
Proof.
  pose proof (initialize_outcome true configure_one simple_new) as (Hok & _ & _).
  pose proof (initialize_outcome false configure_one simple_new) as (_ & Hno & Hreg).
  destruct (Hok eq_refl) as [Hp Hl]. destruct (Hreg eq_refl) as (_ & Hc & _).
  split; [exact Hp|]. split; [rewrite Hl; reflexivity|].
  split; [exact (Hno eq_refl)|exact Hc].
Defined.

Lemma read_as_call (e : Env) (address count : Z) (w : World) :
  snd (readHoldingRegisters e address count w)
    = snd (run_call e (ReadHoldingRegisters address count RELAY) w) ∧
  result_error (fst (readHoldingRegisters e address count w))
    = result_error (fst (run_call e (ReadHoldingRegisters address count RELAY) w)).
Proof.
  destruct (with_value_facts VRegisters (readHoldingRegisters e address count) w)
    as [Hs Hr].
  split; [exact (eq_sym Hs)|exact (eq_sym Hr)].
Qed.

Lemma readChannelData_loop_facts (envs : nat → Env) (chs : list ChannelInfo) :
  ∀ (i : nat) (w : World) (vals : list Z),
    length (snd (readChannelData_loop envs i chs w vals)) = length vals ∧
    identity (this (snd (fst (readChannelData_loop envs i chs w vals))))
      = identity (this w).
Proof.
  induction chs as [|ch rest IH]; intros i w vals; [done|].
  cbn [readChannelData_loop].
  destruct (read_as_call (envs i) (ch_address ch) 1 w) as [Hs _].
  destruct (call_identity (envs i) (ReadHoldingRegisters (ch_address ch) 1 RELAY) w)
    as [Hi _].
  rewrite <- Hs in Hi.
  destruct (fst (readHoldingRegisters (envs i) (ch_address ch) 1 w)) as [regs|err];
    cbn [fst snd]; [|done].
  match goal with
  | |- context [readChannelData_loop envs (S i) rest ?w' ?v'] =>
      destruct (IH (S i) w' v') as [-> ->]
  end.
  split; [|exact Hi]. destruct regs; [done|apply length_insert].
Qed.

(** X28: [update] of a simple device never changes the channels, the
    number of value slots or the lifecycle phase.  Outside [READY] it
    returns [NOT_INITIALIZED] and changes nothing at all.  When it returns
    ok it has stamped the time of the call, so the data counts as valid
    exactly when that time is not 0; when it returns an error the time of
    the last update is as it was. *)
Theorem update_outcome (envs : nat → Env) (now : Z) (s : SimpleModbusDevice) :
  channels (snd (update envs now s)) = channels s ∧
  length (values (snd (update envs now s))) = length (values s) ∧
  getInitPhase (this (base (snd (update envs now s))))
    = getInitPhase (this (base s)) ∧
  (getInitPhase (this (base s)) ≠ READY →
     update envs now s = (Err NOT_INITIALIZED, s)) ∧
  (isOk (fst (update envs now s)) = true →
     lastUpdateTime (snd (update envs now s)) = now ∧
     hasValidData (snd (update envs now s)) = (0 <? now)) ∧
  (isOk (fst (update envs now s)) = false →
     lastUpdateTime (snd (update envs now s)) = lastUpdateTime s).
Proof.
  unfold update, hasValidData, getInitPhase.
  destruct (bool_decide_reflect (initPhase (this (base s)) = READY)) as [Hready|Hnot];
    cbn [negb]; [|by repeat split].
  unfold readChannelData.
  destruct (readChannelData_loop_facts envs (channels s) 0 (base s) (values s))
    as [Hlen Hid].
  unfold identity in Hid. injection Hid as _ Hph _ _ _.
  destruct (readChannelData_loop envs 0 (channels s) (base s) (values s))
    as [[ok w'] vals'].
  cbn [fst snd] in *.
  destruct ok; cbn [negb fst snd channels values base lastUpdateTime isOk].
  - rewrite Hph, Hready, bool_decide_eq_true_2 by reflexivity.
    rewrite andb_true_r. repeat split; try done.
  - rewrite Hph. repeat split; try done.
Qed.

Lemma update_outcome_witness :
  fst (update answers_42 1000 simple_ready) = Ok tt ∧
  lastUpdateTime (snd (update answers_42 1000 simple_ready)) = 1000 ∧
  getRawValue 0 (snd (update answers_42 1000 simple_ready)) = Ok 42 ∧
  update answers_42 1000 simple_new = (Err NOT_INITIALIZED, simple_new).
Proof.
  pose proof (update_outcome answers_42 1000 simple_ready) as (_ & _ & _ & _ & Hok & _).
  pose proof (update_outcome answers_42 1000 simple_new) as (_ & _ & _ & Hno & _).
  destruct (Hok eq_refl) as [Ht _].
  split; [reflexivity|]. split; [exact Ht|]. split; [reflexivity|].
  apply Hno. discriminate.
Defined.

Lemma read_mutex_error (e : Env) (address : Z) (w : World) :
  acquirable e w = false →
  fst (readHoldingRegisters e address 1 w) = Err MUTEX_ERROR ∧
  this (snd (readHoldingRegisters e address 1 w)) = this w.
Proof.
  intros Ha. unfold readHoldingRegisters, readHoldingRegistersWithPriority, bind.
  cbn [Z.eqb Z.gtb Z.compare orb MODBUS_MAX_REGISTER_COUNT Pos.compare Pos.compare_cont].
  destruct (acquire_fail e MODBUS_MUTEX_TIMEOUT_MS w Ha) as (Hr & Hthis & _).
  rewrite Hr. cbn. by rewrite Hthis.
Qed.

(** X29: when the first channel read of [update] cannot acquire the bus
    mutex, [update] reports the last error of the device as it stood
    before the call, not the mutex error: on a device that has seen no
    error yet the code it returns as the error is [SUCCESS].  Values and
    the time of the last update are left as they were. *)
Theorem update_reports_last_error (envs : nat → Env) (now : Z) (s : SimpleModbusDevice)
    (ch : ChannelInfo) (rest : list ChannelInfo) :
  getInitPhase (this (base s)) = READY → channels s = ch :: rest →
  acquirable (envs 0%nat) (base s) = false →
  fst (update envs now s) = Err (getLastError (this (base s))) ∧
  values (snd (update envs now s)) = values s ∧
  lastUpdateTime (snd (update envs now s)) = lastUpdateTime s.
Proof.
  intros Hready Hch Ha. unfold update, readChannelData, getInitPhase in *.
  rewrite Hready, bool_decide_eq_true_2 by reflexivity. cbn [negb].
  rewrite Hch. cbn [readChannelData_loop].
  destruct (read_mutex_error (envs 0%nat) (ch_address ch) (base s) Ha) as [Hr Hthis].
  rewrite Hr. cbn [fst snd negb base values lastUpdateTime]. unfold getLastError.
  by rewrite Hthis.
Qed.

Lemma update_reports_last_error_witness :
  fst (update answers_42 1000 simple_no_bus) = Err SUCCESS.
Proof.
  apply (update_reports_last_error answers_42 1000 simple_no_bus
           (mkChannelInfo [] [] 0x10) []); reflexivity.
Defined.

(** ** Changing the address and the routing of callbacks *)

(** X30: [setServerAddress] with an address in 1..247, on a device with a
    non-null pointer and with the registry's map mutex obtained, returns ok
    and removes whatever device the registry holds at the old address.  In
    [READY] the device is registered at the new address, so that callbacks
    for it reach this object; in any other phase it is not registered
    again: the old address then maps to no device and another address keeps
    the device it had. *)
Theorem address_change_routing (a : Z) (w : World) :
  1 <= a <= 247 → ModbusRegistry.mutex_ (registry w) = true → this_ptr w ≠ nullptr →
  fst (setServerAddress true true a w) = Ok tt ∧
  (serverAddress (this w) ≠ a →
     ModbusRegistry.getDevice true (serverAddress (this w))
       (registry (snd (setServerAddress true true a w))) = nullptr) ∧
  (initPhase (this w) = READY →
     ModbusRegistry.getDevice true a (registry (snd (setServerAddress true true a w)))
       = this_ptr w ∧
     ∀ err, routed_here (OnError a err true true)
              (snd (setServerAddress true true a w)) = true) ∧
  (initPhase (this w) ≠ READY →
     ModbusRegistry.getDevice true (serverAddress (this w))
       (registry (snd (setServerAddress true true a w))) = nullptr ∧
     (serverAddress (this w) ≠ a →
        ModbusRegistry.getDevice true a (registry (snd (setServerAddress true true a w)))
          = ModbusRegistry.getDevice true a (registry w))).
Proof.
  intros Ha Hm Hp. unfold setServerAddress, MODBUS_MAX_SLAVE_ADDRESS.
  replace (a =? 0) with false by (symmetry; apply Z.eqb_neq; lia).
  replace (a >? 247) with false by (symmetry; rewrite Z.gtb_ltb; apply Z.ltb_ge; lia).
  unfold bind, ret, gets, modify_this, modify, unregisterDevice, registerDevice,
    routed_here, callback_target.
  cbn -[ModbusRegistry.unregisterDevice ModbusRegistry.registerDevice
        ModbusRegistry.getDevice].
  set (old := serverAddress (this w)).
  assert (Hun : ∀ b, ModbusRegistry.getDevice true b
                  (snd (ModbusRegistry.unregisterDevice true old (registry w)))
                = if decide (b = old) then nullptr
                  else ModbusRegistry.getDevice true b (registry w)).
  { intros b. unfold ModbusRegistry.unregisterDevice, ModbusRegistry.getDevice.
    rewrite Hm. cbn.
    destruct (ModbusRegistry.deviceMap_ (registry w) !! old) as [d|] eqn:Hold; cbn;
      rewrite Hm; cbn.
    - destruct (decide (b = old)) as [->|Hne];
        [by rewrite lookup_delete_eq|by rewrite lookup_delete_ne].
    - destruct (decide (b = old)) as [->|Hne]; [by rewrite Hold|done]. }
  assert (Hmu : ModbusRegistry.mutex_
                  (snd (ModbusRegistry.unregisterDevice true old (registry w))) = true).
  { unfold ModbusRegistry.unregisterDevice. rewrite Hm. cbn.
    by destruct (ModbusRegistry.deviceMap_ (registry w) !! old). }
  remember (snd (ModbusRegistry.unregisterDevice true old (registry w))) as r1 eqn:Hr1.
  clear Hr1.
  assert (Hreg : ModbusRegistry.registerDevice true a (this_ptr w) r1
                 = (true, ModbusRegistry.set_deviceMap
                            (<[a := this_ptr w]> (ModbusRegistry.deviceMap_ r1)) r1)).
  { unfold ModbusRegistry.registerDevice.
    replace (this_ptr w =? nullptr) with false by (symmetry; by apply Z.eqb_neq).
    replace (a =? 0) with false by (symmetry; apply Z.eqb_neq; lia).
    replace (a >? 247) with false by (symmetry; rewrite Z.gtb_ltb; apply Z.ltb_ge; lia).
    by rewrite Hmu. }
  destruct (bool_decide_reflect (initPhase (this w) = READY)) as [Hready|Hnot];
    cbn -[ModbusRegistry.unregisterDevice ModbusRegistry.registerDevice
          ModbusRegistry.getDevice].
  - rewrite Hreg.
    cbn -[ModbusRegistry.unregisterDevice ModbusRegistry.getDevice].
    assert (Hnew : ∀ b, ModbusRegistry.getDevice true b
                     (ModbusRegistry.set_deviceMap
                        (<[a := this_ptr w]> (ModbusRegistry.deviceMap_ r1)) r1)
                   = if decide (b = a) then this_ptr w
                     else ModbusRegistry.getDevice true b r1).
    { intros b. unfold ModbusRegistry.getDevice. cbn. rewrite Hmu. cbn.
      destruct (decide (b = a)) as [->|Hne];
        [by rewrite lookup_insert_eq|by rewrite lookup_insert_ne]. }
    split; [done|]. split; [|split].
    + intros Hne. rewrite Hnew, Hun. rewrite decide_False by done.
      by rewrite decide_True.
    + intros _. rewrite Hnew, decide_True by done. split; [done|]. intros _.
      rewrite Z.eqb_refl, andb_true_r. apply negb_true_iff. by apply Z.eqb_neq.
    + intros Hno. by destruct Hno.
  - split; [done|]. split; [|split].
    + intros _. rewrite Hun. by rewrite decide_True.
    + intros Hyes. by destruct Hnot.
    + intros _. rewrite !Hun. rewrite decide_True by done.
      split; [done|]. intros Hne. by rewrite decide_False.
Qed.

Lemma address_change_routing_witness :
  ModbusRegistry.getDevice true 1
    (registry (snd (setServerAddress true true 9 (phase_world READY)))) = nullptr ∧
  ModbusRegistry.getDevice true 9
    (registry (snd (setServerAddress true true 9 (phase_world READY)))) = 1000 ∧
  ModbusRegistry.getDevice true 9
    (registry (snd (setServerAddress true true 9 (phase_world CONFIGURING)))) = nullptr.
Proof.
  assert (H9 : 1 <= 9 <= 247) by lia.
  pose proof (address_change_routing 9 (phase_world READY) H9 eq_refl
                ltac:(discriminate)) as (_ & Hold & Hnew & _).
  pose proof (address_change_routing 9 (phase_world CONFIGURING) H9 eq_refl
                ltac:(discriminate)) as (_ & _ & _ & Hnot).
  destruct (Hnew eq_refl) as [Hd _].
  destruct (Hnot ltac:(discriminate)) as [_ Hkeep].
  split; [apply Hold; discriminate|]. split; [exact Hd|].
  rewrite Hkeep by discriminate. reflexivity.
Defined.

(** ** Decoding the response, end to end *)

Lemma call_value_decoded (c : Call) (payload : list Z) :
  Forall is_byte payload → call_value c payload = decoded c payload.
Proof.
  intros Hb. destruct c; cbn [call_value decoded];
    by rewrite ?bytes_to_registers_pairs, ?bytes_to_coils_bits.
Qed.

Lemma call_success (e : Env) (c : Call) (w : World) (v : Value) :
  fst (run_call e c w) = Ok v →
  successfulRequests (this (snd (run_call e c w)))
    = incr32 (successfulRequests (this w)).
Proof.
  intros Hok.
  destruct (transaction_unfold e c w)
    as [(_ & Hrun)|(_ & A & fc & addr & count & prio & data & conv & Hw & Hr)].
  - rewrite Hrun in Hok. discriminate.
  - rewrite Hw, transaction_success. rewrite Hok in Hr. cbn in Hr.
    by destruct (fst (transaction e fc addr count prio data conv w)).
Qed.

(** C6: when the transport delivers a response of at least one byte for
    the device while a read waits for it, the read returns ok with the
    first [length] bytes of the response decoded: a read of holding or
    input registers returns their consecutive big-endian 2-byte pairs in
    order, a read of coils or discrete inputs their bits LSB-first within
    each byte, [min(count, 8 * payload length)] of them; and the call counts
    one successful request.  So [readHoldingRegisters(0x0010, 4)] with the
    delivered payload [00 0A 00 14 00 1E 00 28] returns ok
    [10, 20, 30, 40]. *)
Theorem decode_registers_and_coils (e : Env) (c : Call) (w : World)
    (server fc start : Z) (buf : list Z) (len : Z) (ml : bool) (tick : Z) :
  dispatches e c w = true → sync_available e w = true → sync_lockable e w = true →
  Forall (λ cb, routed_here cb w = false) (cb_before_wait e) →
  cb_during_wait e = [OnData server fc start (Some buf) len ml true tick] →
  routed_here (OnData server fc start (Some buf) len ml true tick) w = true →
  0 < len → Forall is_byte buf →
  fst (run_call e c w) = Ok (decoded c (take (Z.to_nat len) buf)) ∧
  successfulRequests (this (snd (run_call e c w)))
    = incr32 (successfulRequests (this w)) ∧
  (∀ address count,
     c = ReadCoils address count ∨ c = ReadDiscreteInputs address count →
     ∃ bits, fst (run_call e c w) = Ok (VCoils bits) ∧
       length bits
       = Z.to_nat (Z.min count (8 * Z.of_nat (length (take (Z.to_nat len) buf))))).
Proof.
  intros Hd Hsync Hlock Hbefore Hduring Hrouted Hlen Hbytes.
  assert (Hacc : (0 <? len) || isWriteOp fc = true)
    by (apply orb_true_iff; left; by apply Z.ltb_lt).
  assert (Hres : fst (run_call e c w) = Ok (decoded c (take (Z.to_nat len) buf))).
  { destruct (call_reaches_wait e c w Hd Hsync)
      as (w4 & Hreg & Hptr & Hrdy & _ & Hunr & Hres & _).
    destruct (Hunr Hbefore) as [Hm _]. rewrite Hlock in Hm.
    destruct (wait_data e w4 server fc start buf len ml tick Hrdy Hm Hduring)
      as [Hw _]; [by rewrite (routed_view _ w w4 Hreg Hptr)|exact Hacc|].
    rewrite Hres, Hw. unfold stored_payload.
    destruct (Z.ltb_spec 0 len) as [_|?]; [|lia].
    f_equal. apply call_value_decoded. by apply Forall_take. }
  split; [exact Hres|]. split; [exact (call_success e c w _ Hres)|].
  intros address count Hc. rewrite Hres.
  exists (lsb_first_bits count (take (Z.to_nat len) buf)).
  split; [by destruct Hc as [-> | ->]|].
  unfold lsb_first_bits. by rewrite length_map, length_seqZ.
Qed.

Lemma decode_registers_and_coils_witness :
  fst (run_call (env_of [response_10_40]) (ReadHoldingRegisters 0x0010 4 RELAY)
         fresh_world) = Ok (VRegisters [10; 20; 30; 40]) ∧
  successfulRequests
    (this (snd (run_call (env_of [response_10_40])
                  (ReadHoldingRegisters 0x0010 4 RELAY) fresh_world)))
    = successfulRequests (this fresh_world) + 1 ∧
  fst (run_call (env_of [response_input]) (ReadInputRegisters 0x0010 4 SENSOR)
         fresh_world) = Ok (VRegisters [10; 20; 30; 40]) ∧
  fst (run_call (env_of [response_coils]) (ReadCoils 0x0000 10) fresh_world)
    = Ok (VCoils [true; false; true; false; false; false; false; false;
                  true; true]) ∧
  fst (run_call (env_of [response_discrete]) (ReadDiscreteInputs 0x0000 10)
         fresh_world)
    = Ok (VCoils [true; false; true; false; false; false; false; false;
                  true; true]).
Proof.
  assert (Hp : Forall is_byte payload_10_40)
    by (unfold payload_10_40, is_byte; repeat constructor; lia).
  assert (Hq : Forall is_byte [0x05; 0xFF])
    by (unfold is_byte; repeat constructor; lia).
  assert (H8 : 0 < 8) by lia. assert (H2 : 0 < 2) by lia.
  pose proof (decode_registers_and_coils (env_of [response_10_40])
                (ReadHoldingRegisters 0x0010 4 RELAY) fresh_world
                1 0x03 0x0010 payload_10_40 8 true 0
                eq_refl eq_refl eq_refl (List.Forall_nil _) eq_refl eq_refl H8 Hp)
    as (Hholding & Hcount & _).
  pose proof (decode_registers_and_coils (env_of [response_input])
                (ReadInputRegisters 0x0010 4 SENSOR) fresh_world
                1 0x04 0x0010 payload_10_40 8 true 0
                eq_refl eq_refl eq_refl (List.Forall_nil _) eq_refl eq_refl H8 Hp)
    as (Hinput & _).
  pose proof (decode_registers_and_coils (env_of [response_coils])
                (ReadCoils 0x0000 10) fresh_world
                1 0x01 0x0000 [0x05; 0xFF] 2 true 0
                eq_refl eq_refl eq_refl (List.Forall_nil _) eq_refl eq_refl H2 Hq)
    as (Hcoils & _).
  pose proof (decode_registers_and_coils (env_of [response_discrete])
                (ReadDiscreteInputs 0x0000 10) fresh_world
                1 0x02 0x0000 [0x05; 0xFF] 2 true 0
                eq_refl eq_refl eq_refl (List.Forall_nil _) eq_refl eq_refl H2 Hq)
    as (Hdiscrete & _).
  split; [rewrite Hholding; reflexivity|]. split; [rewrite Hcount; reflexivity|].
  split; [rewrite Hinput; reflexivity|].
  split; [rewrite Hcoils; reflexivity|rewrite Hdiscrete; reflexivity].
Defined.
